(** * Extraction pipeline of the political-ads collector: model and properties

    A shallow embedding of the Python sources

      - [shared/rate_limiter.py]      (module [RateLimiter])
      - [shared/checkpoint_manager.py] (module [CheckpointManager])
      - [shared/output_writer.py]     (module [OutputWriter])
      - [collectors/base.py]          (module [BaseAdCollector])
      - [collectors/meta/collector.py] (module [MetaAdCollector])

    Python objects are records, attribute mutation is explicit state
    passing in a state-and-exception monad, a Python [float] that travels
    as data is a rational ([Q]), an infinity or NaN, Python [str] is a byte
    string holding its UTF-8 encoding, and a [dict] is an insertion-ordered
    association list. *)

From Stdlib Require Import ZArith QArith Qpower Qminmax Qround Lqa String Ascii List Lia.
From Stdlib Require Import DecimalString DecimalN.
From stdpp Require Import base option list gmap strings.
Import ListNotations.

Set Warnings "-register-all".
Local Open Scope Z_scope.

(** ** Exceptions and the state-and-exception monad *)

(** The exception classes that occur in the modelled code.  [RetryError] is
    tenacity's, it carries the exception of the last attempt. *)
Inductive exn : Type :=
  | ValueError
  | TypeError
  | AttributeError
  | ZeroDivisionError
  | OverflowError
  | OSError
  | UnicodeDecodeError       (* a ValueError subclass *)
  | JSONDecodeError          (* json.JSONDecodeError, a ValueError subclass *)
  | KeyboardInterrupt        (* a BaseException, not an Exception *)
  | RequestException         (* requests.RequestException and subclasses *)
  | AuthenticationError
  | RateLimitError
  | APIError
  | CheckpointError
  | OutputError
  | ConfigurationError
  | RetryError (last : exn)
  | OutOfFuel.               (* not Python's: the model's bound on a loop was reached *)

(** [isinstance(e, Exception)]: everything above except KeyboardInterrupt. *)
Definition is_Exception (e : exn) : bool :=
  match e with KeyboardInterrupt | OutOfFuel => false | _ => true end.

(** [isinstance(e, ValueError)]. *)
Definition is_ValueError (e : exn) : bool :=
  match e with
  | ValueError | UnicodeDecodeError | JSONDecodeError => true
  | _ => false
  end.

Inductive result (A : Type) : Type :=
  | Return (a : A)
  | Raise (e : exn).
Arguments Return {A} a.
Arguments Raise {A} e.

(** A computation over a mutable state [S]: the state reached when an
    exception is raised is kept, as attribute writes done before a [raise]
    stay done in Python. *)
Definition M (S A : Type) : Type := S -> result A * S.

Definition ret {S A} (a : A) : M S A := fun s => (Return a, s).
Definition raise {S A} (e : exn) : M S A := fun s => (Raise e, s).
Definition bind {S A B} (m : M S A) (k : A -> M S B) : M S B :=
  fun s => match m s with
           | (Return a, s') => k a s'
           | (Raise e, s') => (Raise e, s')
           end.
Definition gets {S A} (f : S -> A) : M S A := fun s => (Return (f s), s).
Definition modify {S} (f : S -> S) : M S unit := fun s => (Return tt, f s).

(** [try: m except <handles>: h e]; exceptions [handles] rejects propagate. *)
Definition try_except {S A} (m : M S A) (handles : exn -> bool)
    (h : exn -> M S A) : M S A :=
  fun s => match m s with
           | (Raise e, s') => if handles e then h e s' else (Raise e, s')
           | r => r
           end.

(** [try: m finally: f]: [f] runs on both exits; an exception of [f]
    replaces the pending one. *)
Definition try_finally {S A} (m : M S A) (f : M S unit) : M S A :=
  fun s => match m s with
           | (r, s') => match f s' with
                        | (Return _, s'') => (r, s'')
                        | (Raise e, s'') => (Raise e, s'')
                        end
           end.

(** Run a computation of a component on the part of the state it owns. *)
Definition zoom {S T A} (view : S -> T) (update : T -> S -> S)
    (m : M T A) : M S A :=
  fun s => match m (view s) with (r, t') => (r, update t' s) end.

Declare Scope py_scope.
Delimit Scope py_scope with py.
Notation "x <- m ;; k" := (bind m (fun x => k))
  (at level 20, m at level 99, k at level 200, only parsing) : py_scope.
Notation "m ;; k" := (bind m (fun _ => k))
  (at level 100, k at level 200, only parsing, right associativity) : py_scope.
Local Open Scope py_scope.

(** ** Wall-clock time *)

Definition Qltb (x y : Q) : bool :=
  match (x ?= y)%Q with Lt => true | _ => false end.

Module Time.
  (** The clock and the log of the [time.sleep] calls made so far. *)
Record t : Type := mk { now : Q; sleeps : list Q }.

  (** [time.time()] *)
Definition time : M t Q := gets now.

  (** [time.sleep(d)]: a negative length raises ValueError. *)
Definition sleep (d : Q) : M t unit :=
    if Qltb d 0 then raise ValueError
    else modify (fun w => {| now := (now w + d)%Q; sleeps := sleeps w ++ [d] |}).

  (** Time that passes outside the modelled code. *)
Definition elapse (dt : Q) (w : t) : t :=
    {| now := (now w + dt)%Q; sleeps := sleeps w |}.
End Time.

(** ** shared/rate_limiter.py *)

Module RateLimiter.

  (** The attributes [__init__] sets once. *)
Record config : Type := mkConfig {
    requests_per_minute : Z;
    requests_per_second : Q;
    burst : Z;
    backoff_multiplier : Q;
    max_retries : Z;
    initial_retry_delay : Q
  }.

Record t : Type := mk {
    cfg : config;
    tokens : Q;
    last_update : Q;
    request_history : list Q;
    total_requests : Z;
    total_wait_time : Q;
    rate_limit_errors : Z
  }.

Definition set_tokens (x : Q) (r : t) : t :=
    mk (cfg r) x (last_update r) (request_history r) (total_requests r)
       (total_wait_time r) (rate_limit_errors r).
Definition set_last_update (x : Q) (r : t) : t :=
    mk (cfg r) (tokens r) x (request_history r) (total_requests r)
       (total_wait_time r) (rate_limit_errors r).
Definition set_request_history (x : list Q) (r : t) : t :=
    mk (cfg r) (tokens r) (last_update r) x (total_requests r)
       (total_wait_time r) (rate_limit_errors r).
Definition set_total_requests (x : Z) (r : t) : t :=
    mk (cfg r) (tokens r) (last_update r) (request_history r) x
       (total_wait_time r) (rate_limit_errors r).
Definition set_total_wait_time (x : Q) (r : t) : t :=
    mk (cfg r) (tokens r) (last_update r) (request_history r)
       (total_requests r) x (rate_limit_errors r).
Definition set_rate_limit_errors (x : Z) (r : t) : t :=
    mk (cfg r) (tokens r) (last_update r) (request_history r)
       (total_requests r) (total_wait_time r) x.

  (** The limiter object together with the clock it reads. *)
Record world : Type := mkWorld { self : t; clock : Time.t }.

Definition on_self {A} (f : t -> A) : M world A := gets (fun w => f (self w)).
Definition assign (f : t -> t) : M world unit :=
    modify (fun w => mkWorld (f (self w)) (clock w)).
Definition on_clock {A} (m : M Time.t A) : M world A :=
    zoom clock (fun c w => mkWorld (self w) c) m.

  (** [RateLimiter.__init__] *)
Definition init (requests_per_minute burst : Z) (backoff_multiplier : Q)
      (max_retries : Z) (initial_retry_delay : Q) (now : Q) : t :=
    {| cfg := {| requests_per_minute := requests_per_minute;
                 requests_per_second := inject_Z requests_per_minute / 60;
                 burst := burst;
                 backoff_multiplier := backoff_multiplier;
                 max_retries := max_retries;
                 initial_retry_delay := initial_retry_delay |};
       tokens := inject_Z burst;
       last_update := now;
       request_history := [];
       total_requests := 0;
       total_wait_time := 0;
       rate_limit_errors := 0 |}.

  (** [x / y] on floats *)
Definition fdiv {S} (x y : Q) : M S Q :=
    if Qeq_bool y 0 then raise ZeroDivisionError else ret (x / y)%Q.

  (** [x ** n] for a float [x] and an int [n] *)
Definition fpow {S} (x : Q) (n : Z) : M S Q :=
    if Qeq_bool x 0 && (n <? 0) then raise ZeroDivisionError
    else ret (Qpower x n).

  (** [RateLimiter.wait_if_needed] *)
Definition wait_if_needed : M world Q :=
    now <- on_clock Time.time ;;
    last <- on_self last_update ;;
    let elapsed := (now - last)%Q in
    (* Refill tokens based on elapsed time *)
    assign (fun r => set_tokens
              (Qmin (inject_Z (burst (cfg r)))
                    (tokens r + elapsed * requests_per_second (cfg r))) r) ;;
    assign (set_last_update now) ;;
    tok <- on_self tokens ;;
    wait_time <-
      (if Qltb tok 1 then
         rps <- on_self (fun r => requests_per_second (cfg r)) ;;
         wait_time <- fdiv (1 - tok) rps ;;
         on_clock (Time.sleep wait_time) ;;
         assign (set_tokens 1) ;;
         assign (fun r => set_total_wait_time (total_wait_time r + wait_time) r) ;;
         ret wait_time
       else ret 0%Q) ;;
    (* Consume one token *)
    assign (fun r => set_tokens (tokens r - 1) r) ;;
    assign (fun r => set_total_requests (total_requests r + 1) r) ;;
    (* Track request in history, keep last 5 minutes *)
    current_time <- on_clock Time.time ;;
    assign (fun r => set_request_history (request_history r ++ [current_time]) r) ;;
    let cutoff := (current_time - 300)%Q in
    assign (fun r => set_request_history
              (filter (fun t => Qltb cutoff t) (request_history r)) r) ;;
    ret wait_time.

  (** [RateLimiter.handle_rate_limit_error] *)
Definition handle_rate_limit_error (retry_after : option Q) (attempt : Z)
      : M world Q :=
    mr <- on_self (fun r => max_retries (cfg r)) ;;
    (if mr <? attempt then raise RateLimitError else ret tt) ;;
    assign (fun r => set_rate_limit_errors (rate_limit_errors r + 1) r) ;;
    wait_time <-
      match retry_after with
      | Some ra => ret ra
      | None =>
          c <- on_self cfg ;;
          p <- fpow (backoff_multiplier c) (attempt - 1) ;;
          ret (initial_retry_delay c * p)%Q
      end ;;
    on_clock (Time.sleep wait_time) ;;
    assign (fun r => set_total_wait_time (total_wait_time r + wait_time) r) ;;
    (* Reset tokens to allow retry *)
    assign (fun r => set_tokens (inject_Z (burst (cfg r))) r) ;;
    now <- on_clock Time.time ;;
    assign (set_last_update now) ;;
    ret wait_time.

  (** [RateLimiter.reset] *)
Definition reset : M world unit :=
    assign (fun r => set_tokens (inject_Z (burst (cfg r))) r) ;;
    now <- on_clock Time.time ;;
    assign (set_last_update now) ;;
    assign (set_request_history []) ;;
    assign (set_total_requests 0) ;;
    assign (set_total_wait_time 0) ;;
    assign (set_rate_limit_errors 0) ;;
    ret tt.

  (** The calls a client can make, for statements about call sequences. *)
Inductive call : Type :=
    | CallWait
    | CallThrottled (retry_after : option Q) (attempt : Z)
    | CallReset.

Definition do_call (c : call) (w : world) : world :=
    match c with
    | CallWait => snd (wait_if_needed w)
    | CallThrottled ra k => snd (handle_rate_limit_error ra k w)
    | CallReset => snd (reset w)
    end.

  (** A schedule: before each call, [dt] seconds pass. *)
Fixpoint run_calls (cs : list (Q * call)) (w : world) : world :=
    match cs with
    | [] => w
    | (dt, c) :: cs' =>
        run_calls cs' (do_call c (mkWorld (self w) (Time.elapse dt (clock w))))
    end.

  (** [0 <= tokens <= burst] *)
Definition bucket_ok (r : t) : Prop :=
    (0 <= tokens r)%Q /\ (tokens r <= inject_Z (burst (cfg r)))%Q.

End RateLimiter.

(** ** Python floats as values

    A float that travels as data is a finite number (a rational, without
    rounding), an infinity or NaN: [float("inf")], [float("nan")] and a
    JSON number such as [1e999] give the last two. *)
Inductive pyfloat : Type :=
  | Finite (q : Q)
  | Infinity (negative : bool)
  | NaN.

(** [x == y] on floats: NaN equals nothing, itself included. *)
Definition float_eqb (x y : pyfloat) : bool :=
  match x, y with
  | Finite a, Finite b => Qeq_bool a b
  | Infinity s, Infinity t => Bool.eqb s t
  | _, _ => false
  end.

(** [x < y] on floats: false as soon as one of them is NaN. *)
Definition float_ltb (x y : pyfloat) : bool :=
  match x, y with
  | NaN, _ | _, NaN => false
  | Finite a, Finite b => Qltb a b
  | Infinity true, Infinity true => false
  | Infinity true, _ => true
  | _, Infinity true => false
  | Infinity false, _ => false
  | _, Infinity false => true
  end.

(** [x + q] for a finite [q] *)
Definition float_add (x : pyfloat) (q : Q) : pyfloat :=
  match x with
  | Finite a => Finite (a + q)
  | _ => x
  end.

(** [bool(x)]: only zero is falsy. *)
Definition float_truthy (x : pyfloat) : bool :=
  match x with
  | Finite q => negb (Qeq_bool q 0)
  | _ => true
  end.

(** The float a decimal literal denotes: from [2^1024 - 2^970] on, half
    way between the largest double and [2^1024], it is an infinity. *)
Definition float_of_literal (q : Q) : pyfloat :=
  let bound := inject_Z (2 ^ 1024 - 2 ^ 970) in
  if Qle_bool bound q then Infinity false
  else if Qle_bool q (- bound) then Infinity true
  else Finite q.

(** ** Python values *)

(** The values that travel through the pipeline: what [json] can read and
    write.  A [dict] keeps its keys in insertion order. *)
Inductive value : Type :=
  | VNone
  | VBool (b : bool)
  | VInt (n : Z)
  | VFloat (x : pyfloat)
  | VStr (s : string)
  | VList (l : list value)
  | VDict (d : list (string * value)).

Abbreviation dict := (list (string * value)).

(** [d.get(k)] as an option *)
Fixpoint dict_lookup (k : string) (d : dict) : option value :=
  match d with
  | [] => None
  | (k', v) :: d' => if String.eqb k k' then Some v else dict_lookup k d'
  end.

(** [d.get(k, dflt)] *)
Definition dict_get_default (k : string) (dflt : value) (d : dict) : value :=
  match dict_lookup k d with Some v => v | None => dflt end.

(** [d.get(k)] *)
Definition dict_get (k : string) (d : dict) : value := dict_get_default k VNone d.

(** [k in d] *)
Definition dict_mem (k : string) (d : dict) : bool :=
  match dict_lookup k d with Some _ => true | None => false end.

(** [d[k] = v]: an existing key keeps its place, a new one goes last. *)
Fixpoint dict_set (k : string) (v : value) (d : dict) : dict :=
  match d with
  | [] => [(k, v)]
  | (k', v') :: d' =>
      if String.eqb k k' then (k, v) :: d' else (k', v') :: dict_set k v d'
  end.

(** [d.update(e)] *)
Definition dict_update (e d : dict) : dict :=
  fold_left (fun acc kv => dict_set (fst kv) (snd kv) acc) e d.

(** Truth value of an object, as [if x:] and [not x] take it. *)
Definition truthy (v : value) : bool :=
  match v with
  | VNone => false
  | VBool b => b
  | VInt n => negb (n =? 0)
  | VFloat x => float_truthy x
  | VStr s => negb (String.eqb s "")
  | VList l => match l with [] => false | _ => true end
  | VDict d => match d with [] => false | _ => true end
  end.

Definition nl : string := String "010"%char "".

(** [not s.strip()]: the string holds white space only.  White space is
    what [str.isspace] accepts, read off the UTF-8 encoding: U+0009-000D,
    U+001C-0020, U+0085, U+00A0, U+1680, U+2000-200A, U+2028, U+2029,
    U+202F, U+205F, U+3000. *)
Definition space1 (a : N) : bool :=
  ((9 <=? a) && (a <=? 13) || (28 <=? a) && (a <=? 32))%N.
Definition space2 (a b : N) : bool :=
  ((a =? 194) && ((b =? 133) || (b =? 160)))%N.
Definition space3 (a b c : N) : bool :=
  ((a =? 225) && (b =? 154) && (c =? 128)
   || (a =? 226) && (b =? 128)
        && ((128 <=? c) && (c <=? 138) || (c =? 168) || (c =? 169) || (c =? 175))
   || (a =? 226) && (b =? 129) && (c =? 159)
   || (a =? 227) && (b =? 128) && (c =? 128))%N.

Fixpoint isblank (s : string) : bool :=
  match s with
  | EmptyString => true
  | String a s1 =>
      if space1 (N_of_ascii a) then isblank s1
      else match s1 with
           | EmptyString => false
           | String b s2 =>
               if space2 (N_of_ascii a) (N_of_ascii b) then isblank s2
               else match s2 with
                    | EmptyString => false
                    | String c s3 =>
                        if space3 (N_of_ascii a) (N_of_ascii b) (N_of_ascii c)
                        then isblank s3 else false
                    end
           end
  end.

(** [s.replace(old, new)] for a one-character [old] *)
Fixpoint replace_char (old : ascii) (new : string) (s : string) : string :=
  match s with
  | EmptyString => EmptyString
  | String a s' =>
      if Ascii.eqb a old then new +:+ replace_char old new s'
      else String a (replace_char old new s')
  end.

(** Decimal digits of a natural number, and [format(n, "04d")]. *)
Definition decimal (n : N) : string :=
  NilEmpty.string_of_uint (N.to_uint n).

Fixpoint zeros (k : nat) : string :=
  match k with O => "" | S k' => String "0" (zeros k') end.

Definition zero_pad (width : nat) (s : string) : string :=
  zeros (width - String.length s) +:+ s.

Definition fmt_04d (n : Z) : string :=
  if n <? 0 then String "-" (zero_pad 3 (decimal (Z.to_N (- n))))
  else zero_pad 4 (decimal (Z.to_N n)).

(** Options of [json.dump]/[json.dumps]. *)
Record json_opts : Type := { indent : option nat; ensure_ascii : bool }.

(** ** Generators

    A generator run up to its next [yield] is either finished (returned or
    raised) or suspended on the item it yields, in the state [w] it has
    reached; resuming it in the state the consumer hands back runs it to
    the next [yield]. *)
Inductive step (W A : Type) : Type :=
  | Done (r : result A) (w : W)
  | Yielded (item : value) (w : W) (resume : W -> step W A).
Arguments Done {W A} r w.
Arguments Yielded {W A} item w resume.

Definition G (W A : Type) : Type := W -> step W A.

Definition g_ret {W A} (a : A) : G W A := fun w => Done (Return a) w.
Definition g_raise {W A} (e : exn) : G W A := fun w => Done (Raise e) w.

Fixpoint step_bind {W A B} (s : step W A) (k : A -> G W B) : step W B :=
  match s with
  | Done (Return a) w => k a w
  | Done (Raise e) w => Done (Raise e) w
  | Yielded x w resume => Yielded x w (fun w' => step_bind (resume w') k)
  end.

Definition g_bind {W A B} (m : G W A) (k : A -> G W B) : G W B :=
  fun w => step_bind (m w) k.

(** [yield x] *)
Definition yield {W} (x : value) : G W unit :=
  fun w => Yielded x w (fun w' => Done (Return tt) w').

(** A computation that does not yield. *)
Definition lift_M {W A} (m : M W A) : G W A :=
  fun w => match m w with (r, w') => Done r w' end.

(** [list(gen)]: the consumer that takes every item and changes nothing. *)
Fixpoint exhaust {W A} (s : step W A) : list value * result A * W :=
  match s with
  | Done r w => ([], r, w)
  | Yielded x w resume =>
      match exhaust (resume w) with
      | (xs, r, w') => (x :: xs, r, w')
      end
  end.

Declare Scope gen_scope.
Delimit Scope gen_scope with gen.
Notation "x <- m ;; k" := (g_bind m (fun x => k))
  (at level 20, m at level 99, k at level 200, only parsing) : gen_scope.
Notation "m ;; k" := (g_bind m (fun _ => k))
  (at level 100, k at level 200, only parsing, right associativity) : gen_scope.

(** ** shared/output_writer.py *)

Module OutputWriter.

Inductive storage_mode : Type := Local | Gcs.

Definition mode_name (m : storage_mode) : string :=
    match m with Local => "local" | Gcs => "gcs" end.

  (** The writer object after [__init__]. *)
Record t : Type := mk {
    platform : string;
    mode : storage_mode;
    batch_size : Z;
    compress : bool;
    output_dir : string;
    extraction_id : string;
    current_batch : list value;
    batch_count : Z;
    total_records : Z;
    batch_files : list string
  }.

Definition set_current_batch (x : list value) (w : t) : t :=
    mk (platform w) (mode w) (batch_size w) (compress w) (output_dir w)
       (extraction_id w) x (batch_count w) (total_records w) (batch_files w).
Definition set_batch_count (x : Z) (w : t) : t :=
    mk (platform w) (mode w) (batch_size w) (compress w) (output_dir w)
       (extraction_id w) (current_batch w) x (total_records w) (batch_files w).
Definition set_total_records (x : Z) (w : t) : t :=
    mk (platform w) (mode w) (batch_size w) (compress w) (output_dir w)
       (extraction_id w) (current_batch w) (batch_count w) x (batch_files w).
Definition set_batch_files (x : list string) (w : t) : t :=
    mk (platform w) (mode w) (batch_size w) (compress w) (output_dir w)
       (extraction_id w) (current_batch w) (batch_count w) (total_records w) x.

  (** The writer and the storage it writes to (the output directory of the
      local file system, or the bucket), a map from paths to contents. *)
Record world : Type := mkWorld { self : t; files : gmap string string }.

  (** The state of a writer that [__init__] has just built. *)
Definition init (platform : string) (mode : storage_mode) (batch_size : Z)
      (compress : bool) (output_dir extraction_id : string) : t :=
    mk platform mode batch_size compress output_dir extraction_id [] 0 0 [].

Section Writer.
    (** [json.dumps], [gzip] and whether the storage accepts a write to a
        path are the environment's. *)
Variable json_dumps : json_opts -> value -> string.
Variable gzip : string -> string.
Variable storage_ok : string -> bool.

Definition on_self {A} (f : t -> A) : M world A := gets (fun w => f (self w)).
Definition assign (f : t -> t) : M world unit :=
      modify (fun w => mkWorld (f (self w)) (files w)).

    (** [open(path, "w").write(content)] or [blob.upload_from_string]; any
        failure surfaces as the [OutputError] of the enclosing handler. *)
Definition store (path content : string) : M world unit :=
      if storage_ok path
      then modify (fun w => mkWorld (self w) (<[path := content]> (files w)))
      else raise OutputError.

Definition batch_filename (w : t) (count : Z) : string :=
      let filename := platform w +:+ "_ads_" +:+ extraction_id w +:+ "_batch_"
                      +:+ fmt_04d count +:+ ".ndjson" in
      if compress w then filename +:+ ".gz" else filename.

Definition manifest_filename (w : t) : string :=
      platform w +:+ "_ads_" +:+ extraction_id w +:+ "_manifest.json".

    (** [os.path.join(self.output_dir, filename)] and [f"{output_dir}/{filename}"] *)
Definition path_of (w : t) (filename : string) : string :=
      output_dir w +:+ "/" +:+ filename.

Definition ndjson (batch : list value) : string :=
      String.concat nl
        (map (json_dumps {| indent := None; ensure_ascii := false |}) batch).

    (** [OutputWriter.flush_batch] *)
Definition flush_batch : M world (option string) :=
      batch <- on_self current_batch ;;
      match batch with
      | [] => ret None
      | _ =>
          assign (fun w => set_batch_count (batch_count w + 1) w) ;;
          me <- on_self id ;;
          let filename := batch_filename me (batch_count me) in
          let ndjson_content := ndjson batch in
          store (path_of me filename)
                (if compress me then gzip ndjson_content else ndjson_content) ;;
          assign (fun w => set_batch_files (batch_files w ++ [filename]) w) ;;
          (* Clear batch *)
          assign (set_current_batch []) ;;
          ret (Some filename)
      end.

    (** [OutputWriter.write_record] *)
Definition write_record (record : value) : M world unit :=
      assign (fun w => set_current_batch (current_batch w ++ [record]) w) ;;
      assign (fun w => set_total_records (total_records w + 1) w) ;;
      (* Flush batch if full *)
      me <- on_self id ;;
      if batch_size me <=? Z.of_nat (length (current_batch me))
      then flush_batch ;; ret tt
      else ret tt.

    (** [OutputWriter.write_records] *)
Fixpoint write_records (records : list value) : M world unit :=
      match records with
      | [] => ret tt
      | record :: rest => write_record record ;; write_records rest
      end.

Definition manifest_of (w : t) (completed : string) : dict :=
      [ ("extraction_id", VStr (extraction_id w));
        ("platform", VStr (platform w));
        ("total_records", VInt (total_records w));
        ("total_batches", VInt (batch_count w));
        ("batch_files", VList (map VStr (batch_files w)));
        ("extraction_started", VStr (extraction_id w));
        ("extraction_completed", VStr completed);
        ("mode", VStr (mode_name (mode w)));
        ("compressed", VBool (compress w)) ].

    (** [OutputWriter.finalize]; [completed] is what
        [datetime.utcnow().isoformat() + "Z"] evaluates to. *)
Definition finalize (completed : string) : M world dict :=
      (* Flush any remaining records *)
      flush_batch ;;
      me <- on_self id ;;
      let manifest := manifest_of me completed in
      store (path_of me (manifest_filename me))
            (json_dumps {| indent := Some 2%nat; ensure_ascii := true |}
                        (VDict manifest)) ;;
      ret manifest.

End Writer.
End OutputWriter.

(** ** UTF-8 *)

(** Strict UTF-8 decoding to code points, as the [utf-8] codec does it with
    [errors="strict"]: no overlong forms, no surrogates, nothing above
    U+10FFFF. *)
Definition continuation (b : N) : bool := ((128 <=? b) && (b <=? 191))%N.
Definition second_of_3 (a b : N) : bool :=
  (if a =? 224 then (160 <=? b) && (b <=? 191)
   else if a =? 237 then (128 <=? b) && (b <=? 159)
   else continuation b)%N.
Definition second_of_4 (a b : N) : bool :=
  (if a =? 240 then (144 <=? b) && (b <=? 191)
   else if a =? 244 then (128 <=? b) && (b <=? 143)
   else continuation b)%N.

Fixpoint utf8_decode (s : string) : option (list N) :=
  match s with
  | EmptyString => Some []
  | String x1 s1 =>
      let a := N_of_ascii x1 in
      if (a <? 128)%N then option_map (cons a) (utf8_decode s1)
      else match s1 with
      | EmptyString => None
      | String x2 s2 =>
          let b := N_of_ascii x2 in
          if ((194 <=? a) && (a <=? 223))%N then
            if continuation b
            then option_map (cons ((a - 192) * 64 + (b - 128))%N) (utf8_decode s2)
            else None
          else match s2 with
          | EmptyString => None
          | String x3 s3 =>
              let c := N_of_ascii x3 in
              if ((224 <=? a) && (a <=? 239))%N then
                if second_of_3 a b && continuation c
                then option_map
                       (cons (((a - 224) * 64 + (b - 128)) * 64 + (c - 128))%N)
                       (utf8_decode s3)
                else None
              else match s3 with
              | EmptyString => None
              | String x4 s4 =>
                  let d := N_of_ascii x4 in
                  if ((240 <=? a) && (a <=? 244))%N && second_of_4 a b
                     && continuation c && continuation d
                  then option_map
                         (cons ((((a - 240) * 64 + (b - 128)) * 64 + (c - 128)) * 64
                                + (d - 128))%N)
                         (utf8_decode s4)
                  else None
              end
          end
      end
  end.

(** [bytes.decode("utf-8")]; the text is kept in its UTF-8 form. *)
Definition decode_utf8 {S} (bytes : string) : M S string :=
  match utf8_decode bytes with
  | Some _ => ret bytes
  | None => raise UnicodeDecodeError
  end.

(** [chr(cp).encode("utf-8")]; a lone surrogate, which a Python [str] can
    hold, gets the three-byte form. *)
Definition byte (n : N) : string := String (ascii_of_N n) "".
Definition utf8_encode (cp : N) : string :=
  (if cp <? 128 then byte cp
   else if cp <? 2048 then byte (192 + cp / 64) +:+ byte (128 + cp mod 64)
   else if cp <? 65536 then
     byte (224 + cp / 4096) +:+ byte (128 + (cp / 64) mod 64)
     +:+ byte (128 + cp mod 64)
   else
     byte (240 + cp / 262144) +:+ byte (128 + (cp / 4096) mod 64)
     +:+ byte (128 + (cp / 64) mod 64) +:+ byte (128 + cp mod 64))%N.

(** ** The [json] module, executable

    A model of [json.dumps] and [json.loads] of CPython on the values above,
    used to run the examples; the general statements take the two functions
    as parameters.  Floats are exact rationals: a number with a fraction or
    an exponent is read as its exact value and written as its decimal
    expansion (at most 17 fractional digits), and the literals NaN and
    Infinity, which have no value here, are refused. *)
Module PyJson.

Definition quote : string := String "034"%char "".
Definition backslash : string := String "092"%char "".

Definition hex_digit (n : N) : string :=
  String (nth (N.to_nat n) (list_ascii_of_string "0123456789abcdef") "0"%char) "".

(** ["\\u{0:04x}".format(n)] *)
Definition u_escape (n : N) : string :=
  (backslash +:+ "u" +:+ hex_digit (n / 4096) +:+ hex_digit ((n / 256) mod 16)
   +:+ hex_digit ((n / 16) mod 16) +:+ hex_digit (n mod 16))%N.

Definition escape_char (ensure_ascii : bool) (cp : N) : string :=
  (if cp =? 34 then backslash +:+ quote
   else if cp =? 92 then backslash +:+ backslash
   else if cp =? 10 then backslash +:+ "n"
   else if cp =? 13 then backslash +:+ "r"
   else if cp =? 9 then backslash +:+ "t"
   else if cp =? 8 then backslash +:+ "b"
   else if cp =? 12 then backslash +:+ "f"
   else if cp <? 32 then u_escape cp
   else if ensure_ascii && (126 <? cp) then
     if cp <? 65536 then u_escape cp
     else let v := cp - 65536 in
          u_escape (55296 + v / 1024) +:+ u_escape (56320 + v mod 1024)
   else utf8_encode cp)%N.

Definition encode_string (ensure_ascii : bool) (s : string) : string :=
  match utf8_decode s with
  | Some cps => quote +:+ String.concat "" (map (escape_char ensure_ascii) cps) +:+ quote
  | None => quote +:+ s +:+ quote
  end.

(** [int.__repr__] *)
Definition int_repr (n : Z) : string :=
  if n <? 0 then String "-" (decimal (Z.to_N (- n))) else decimal (Z.to_N n).

(** The digits of [r / d] after the point, for [0 <= r < d]. *)
Fixpoint fraction_digits (fuel : nat) (r d : N) : string :=
  match fuel with
  | O => ""
  | S fuel' =>
      if (r =? 0)%N then ""
      else decimal (r * 10 / d) +:+ fraction_digits fuel' ((r * 10) mod d) d
  end.

(** [float.__repr__], for the rationals that stand for floats. *)
Definition float_repr (q : Q) : string :=
  let n := Qnum q in
  let d := Npos (Qden q) in
  let a := Z.to_N (Z.abs n) in
  let frac := fraction_digits 17 (a mod d)%N d in
  (if n <? 0 then "-" else "") +:+ decimal (a / d)%N +:+ "."
  +:+ (if String.eqb frac "" then "0" else frac).

Fixpoint spaces (k : nat) : string :=
  match k with O => "" | S k' => String " " (spaces k') end.

Definition newline_indent (o : json_opts) (level : nat) : string :=
  match indent o with
  | Some n => nl +:+ spaces (n * level)
  | None => ""
  end.

Definition item_separator (o : json_opts) (level : nat) : string :=
  match indent o with
  | Some _ => "," +:+ newline_indent o level
  | None => ", "
  end.

(** A float in JSON text; [allow_nan] is on by default. *)
Definition float_json (x : pyfloat) : string :=
  match x with
  | Finite q => float_repr q
  | Infinity false => "Infinity"
  | Infinity true => "-Infinity"
  | NaN => "NaN"
  end.

(** [json.dumps(v, indent=.., ensure_ascii=..)] at nesting depth [level] *)
Fixpoint dump (o : json_opts) (level : nat) (v : value) {struct v} : string :=
  match v with
  | VNone => "null"
  | VBool true => "true"
  | VBool false => "false"
  | VInt n => int_repr n
  | VFloat x => float_json x
  | VStr s => encode_string (ensure_ascii o) s
  | VList [] => "[]"
  | VList l =>
      "[" +:+ newline_indent o (S level)
      +:+ String.concat (item_separator o (S level)) (List.map (dump o (S level)) l)
      +:+ newline_indent o level +:+ "]"
  | VDict [] => "{}"
  | VDict d =>
      "{" +:+ newline_indent o (S level)
      +:+ String.concat (item_separator o (S level))
            (List.map (fun kv => let '(k, x) := kv in
                         encode_string (ensure_ascii o) k +:+ ": "
                         +:+ dump o (S level) x) d)
      +:+ newline_indent o level +:+ "}"
  end.

Definition dumps (o : json_opts) (v : value) : string := dump o 0 v.

(** *** Reading *)

Definition is_ws (c : ascii) : bool :=
  let n := N_of_ascii c in ((n =? 32) || (n =? 9) || (n =? 10) || (n =? 13))%N.

Fixpoint skip_ws (s : string) : string :=
  match s with
  | String c s' => if is_ws c then skip_ws s' else s
  | EmptyString => s
  end.

Definition digit_value (c : ascii) : option N :=
  let n := N_of_ascii c in
  if ((48 <=? n) && (n <=? 57))%N then Some (n - 48)%N else None.

Definition hex_value (c : ascii) : option N :=
  let n := N_of_ascii c in
  if ((48 <=? n) && (n <=? 57))%N then Some (n - 48)%N
  else if ((97 <=? n) && (n <=? 102))%N then Some (n - 87)%N
  else if ((65 <=? n) && (n <=? 70))%N then Some (n - 55)%N
  else None.

(** Four hex digits *)
Definition hex4 (s : string) : option (N * string) :=
  match s with
  | String a (String b (String c (String d rest))) =>
      match hex_value a, hex_value b, hex_value c, hex_value d with
      | Some x, Some y, Some z, Some w =>
          Some (((x * 16 + y) * 16 + z) * 16 + w, rest)%N
      | _, _, _, _ => None
      end
  | _ => None
  end.

(** The low half of a surrogate pair, when [s] starts with one. *)
Definition low_surrogate (s : string) : option (N * string) :=
  match s with
  | String "092" (String "u" rest) =>
      match hex4 rest with
      | Some (lo, rest') =>
          if ((56320 <=? lo) && (lo <=? 57343))%N then Some (lo, rest') else None
      | None => None
      end
  | _ => None
  end.

(** The body of a string, after the opening quote. *)
Fixpoint scan_string (fuel : nat) (s : string) (acc : string)
    : option (string * string) :=
  match fuel with
  | O => None
  | S fuel' =>
      match s with
      | EmptyString => None
      | String c rest =>
          let n := N_of_ascii c in
          if (n =? 34)%N then Some (acc, rest)
          else if (n <? 32)%N then None
          else if (n =? 92)%N then
            match rest with
            | EmptyString => None
            | String e rest' =>
                let plain x := scan_string fuel' rest' (acc +:+ byte x) in
                let m := N_of_ascii e in
                if (m =? 34)%N then plain 34%N
                else if (m =? 92)%N then plain 92%N
                else if (m =? 47)%N then plain 47%N
                else if (m =? 98)%N then plain 8%N
                else if (m =? 102)%N then plain 12%N
                else if (m =? 110)%N then plain 10%N
                else if (m =? 114)%N then plain 13%N
                else if (m =? 116)%N then plain 9%N
                else if (m =? 117)%N then
                  match hex4 rest' with
                  | Some (u, rest'') =>
                      match (if ((55296 <=? u) && (u <=? 56319))%N
                             then low_surrogate rest'' else None) with
                      | Some (lo, rest3) =>
                          scan_string fuel' rest3
                            (acc +:+ utf8_encode
                                       (65536 + (u - 55296) * 1024 + (lo - 56320))%N)
                      | None => scan_string fuel' rest'' (acc +:+ utf8_encode u)
                      end
                  | None => None
                  end
                else None
            end
          else scan_string fuel' rest (acc +:+ String c "")
      end
  end.

(** A run of decimal digits: its value, its length and what follows. *)
Fixpoint scan_digits (s : string) (acc : N) (len : nat) : N * nat * string :=
  match s with
  | String c rest =>
      match digit_value c with
      | Some d => scan_digits rest (acc * 10 + d)%N (S len)
      | None => (acc, len, s)
      end
  | EmptyString => (acc, len, s)
  end.

(** A number: an optional minus, then 0 or digits that do not start with
    0, then an optional fraction and an optional exponent; with neither it
    is an int. *)
Definition scan_number (s : string) : option (value * string) :=
  let '(neg, s1) := match s with
                     | String "-" r => (true, r)
                     | _ => (false, s)
                     end in
  let int_part :=
    match s1 with
    | String "0" r => Some (0%N, r)
    | _ => match scan_digits s1 0 0 with
           | (_, O, _) => None
           | (n, _, r) => Some (n, r)
           end
    end in
  match int_part with
  | None => None
  | Some (n, s2) =>
      let '(frac, s3) :=
        match s2 with
        | String "." r =>
            match scan_digits r 0 0 with
            | (_, O, _) => (None, s2)
            | (f, k, r') => (Some (f, k), r')
            end
        | _ => (None, s2)
        end in
      let exp_of r sign :=
        match scan_digits r 0 0 with
        | (_, O, _) => None
        | (e, _, r') => Some (sign * Z.of_N e, r')
        end in
      let '(expo, s4) :=
        match s3 with
        | String c r =>
            if (Ascii.eqb c "e" || Ascii.eqb c "E")%bool then
              match (match r with
                     | String "-" r' => exp_of r' (-1)
                     | String "+" r' => exp_of r' 1
                     | _ => exp_of r 1
                     end) with
              | Some (e, r') => (Some e, r')
              | None => (None, s3)
              end
            else (None, s3)
        | EmptyString => (None, s3)
        end in
      let sign := if neg then (-1) else 1 in
      match frac, expo with
      | None, None => Some (VInt (sign * Z.of_N n), s4)
      | _, _ =>
          let '(f, k) := match frac with Some fk => fk | None => (0%N, O) end in
          let e := match expo with Some e => e | None => 0 end in
          let mantissa :=
            (inject_Z (Z.of_N n) + inject_Z (Z.of_N f) / inject_Z (10 ^ Z.of_nat k))%Q in
          Some (VFloat (float_of_literal
                          (Qred (inject_Z sign * mantissa * Qpower 10 e))), s4)
      end
  end.

Definition strip_prefix (pre s : string) : option string :=
  if String.prefix pre s
  then Some (String.substring (String.length pre)
                              (String.length s - String.length pre) s)
  else None.

(** A value, the elements of an array after its bracket, the members of an
    object after its brace. *)
Fixpoint scan_value (fuel : nat) (s : string) : option (value * string) :=
  match fuel with
  | O => None
  | S fuel' =>
      match s with
      | EmptyString => None
      | String c rest =>
          let n := N_of_ascii c in
          if (n =? 34)%N then
            match scan_string (String.length rest) rest "" with
            | Some (str, rest') => Some (VStr str, rest')
            | None => None
            end
          else if (n =? 123)%N then
            match skip_ws rest with
            | String "}" rest' => Some (VDict [], rest')
            | rest' => scan_members fuel' rest' []
            end
          else if (n =? 91)%N then
            match skip_ws rest with
            | String "]" rest' => Some (VList [], rest')
            | rest' => scan_elements fuel' rest' []
            end
          else
            match strip_prefix "null" s, strip_prefix "true" s,
                  strip_prefix "false" s with
            | Some r, _, _ => Some (VNone, r)
            | _, Some r, _ => Some (VBool true, r)
            | _, _, Some r => Some (VBool false, r)
            | _, _, _ =>
                match scan_number s with
                | Some found => Some found
                | None =>
                    (* the constants the decoder accepts beside numbers *)
                    match strip_prefix "NaN" s, strip_prefix "Infinity" s,
                          strip_prefix "-Infinity" s with
                    | Some r, _, _ => Some (VFloat NaN, r)
                    | _, Some r, _ => Some (VFloat (Infinity false), r)
                    | _, _, Some r => Some (VFloat (Infinity true), r)
                    | _, _, _ => None
                    end
                end
            end
      end
  end
with scan_elements (fuel : nat) (s : string) (acc : list value)
    : option (value * string) :=
  match fuel with
  | O => None
  | S fuel' =>
      match scan_value fuel' s with
      | Some (v, rest) =>
          match skip_ws rest with
          | String "]" rest' => Some (VList (acc ++ [v]), rest')
          | String "," rest' => scan_elements fuel' (skip_ws rest') (acc ++ [v])
          | _ => None
          end
      | None => None
      end
  end
with scan_members (fuel : nat) (s : string) (acc : dict)
    : option (value * string) :=
  match fuel with
  | O => None
  | S fuel' =>
      match s with
      | String "034" rest =>
          match scan_string (String.length rest) rest "" with
          | Some (key, rest1) =>
              match skip_ws rest1 with
              | String ":" rest2 =>
                  match scan_value fuel' (skip_ws rest2) with
                  | Some (v, rest3) =>
                      match skip_ws rest3 with
                      | String "}" rest4 => Some (VDict (dict_set key v acc), rest4)
                      | String "," rest4 =>
                          scan_members fuel' (skip_ws rest4) (dict_set key v acc)
                      | _ => None
                      end
                  | None => None
                  end
              | _ => None
              end
          | None => None
          end
      | _ => None
      end
  end.

(** [json.loads(s)]; [None] is JSONDecodeError. *)
Definition loads (s : string) : option value :=
  match scan_value (2 * String.length s + 2) (skip_ws s) with
  | Some (v, rest) =>
      match skip_ws rest with EmptyString => Some v | _ => None end
  | None => None
  end.

End PyJson.

(** ** shared/checkpoint_manager.py *)

(** [x[:20]] is defined on strings and lists; on the other values of the
    model it raises (TypeError, or KeyError for a dict on recent Pythons). *)
Definition slice_prefix {S} (v : value) : M S unit :=
  match v with
  | VStr _ | VList _ => ret tt
  | _ => raise TypeError
  end.

(** [v + n] for an int [n] *)
Definition add_int {S} (v : value) (n : Z) : M S value :=
  match v with
  | VInt a => ret (VInt (a + n))
  | VBool b => ret (VInt ((if b then 1 else 0) + n))
  | VFloat x => ret (VFloat (float_add x (inject_Z n)))
  | _ => raise TypeError
  end.

Module CheckpointManager.

  (** The manager after [__init__]; [checkpoint_path] is the file of the
      local mode or the blob of the GCS mode. *)
Record t : Type := mk { platform : string; checkpoint_path : string }.

  (** The storage (paths to bytes) and the clock [datetime.utcnow] reads. *)
Record world : Type := mkWorld { files : gmap string string; clock : Time.t }.

Section Manager.
    (** The environment: [json.loads] ([None] stands for JSONDecodeError),
        [json.dumps], [datetime.isoformat] of a clock reading, and whether
        the storage accepts a write to a path or its removal. *)
Variable json_loads : string -> option value.
Variable json_dumps : json_opts -> value -> string.
Variable isoformat : Q -> string.
Variable storage_ok : string -> bool.

Variable self : t.

Definition read_file (path : string) : M world (option string) :=
      gets (fun w => files w !! path).

Definition write_file (path content : string) : M world unit :=
      if storage_ok path
      then modify (fun w => mkWorld (<[path := content]> (files w)) (clock w))
      else raise OSError.

    (** [os.replace(src, dst)] *)
Definition replace_file (src dst : string) : M world unit :=
      content <- read_file src ;;
      match content with
      | Some c =>
          modify (fun w => mkWorld (<[dst := c]> (delete src (files w))) (clock w))
      | None => raise OSError
      end.

    (** [json.load(f)] on a file opened with [encoding="utf-8"] *)
Definition json_load (bytes : string) : M world value :=
      text <- decode_utf8 bytes ;;
      match json_loads text with
      | Some data => ret data
      | None => raise JSONDecodeError
      end.

    (** [data.get(key, dflt)] on whatever [json] returned *)
Definition get_attr (data : value) (key : string) (dflt : value)
        : M world value :=
      match data with
      | VDict d => ret (dict_get_default key dflt d)
      | _ => raise AttributeError
      end.

    (** [CheckpointManager.load] *)
Definition load : M world (option value) :=
      try_except
        (content <- read_file (checkpoint_path self) ;;
         match content with
         | Some bytes =>
             data <- json_load bytes ;;
             (* the debug line evaluates data.get('records_processed', 0) *)
             get_attr data "records_processed" (VInt 0) ;;
             ret (Some data)
         | None => ret None
         end)
        is_Exception
        (fun e => match e with
                  | JSONDecodeError => ret None
                  | _ => raise CheckpointError
                  end).

    (** [CheckpointManager.save] *)
Definition save (data : dict) : M world unit :=
      now <- gets (fun w => Time.now (clock w)) ;;
      let data := dict_set "last_update" (VStr (isoformat now +:+ "Z")) data in
      let data := dict_set "platform" (VStr (platform self)) data in
      try_except
        ((* Write to temp file first, then rename for atomicity *)
         let temp_path := checkpoint_path self +:+ ".tmp" in
         write_file temp_path
           (json_dumps {| indent := Some 2%nat; ensure_ascii := true |} (VDict data)) ;;
         replace_file temp_path (checkpoint_path self) ;;
         (* the info line slices the cursor when there is one *)
         (if truthy (dict_get "cursor" data)
          then slice_prefix (dict_get_default "cursor" (VStr "none") data)
          else ret tt))
        is_Exception
        (fun _ => raise CheckpointError).

    (** [self.load() or {}]: every value [load] returns is a dict. *)
Definition load_or_empty : M world dict :=
      checkpoint <- load ;;
      match checkpoint with
      | Some (VDict d) => ret d
      | _ => ret []
      end.

    (** [CheckpointManager.get_cursor] *)
Definition get_cursor : M world value :=
      checkpoint <- load_or_empty ;;
      let cursor := dict_get "cursor" checkpoint in
      (if truthy cursor then slice_prefix cursor else ret tt) ;;
      ret cursor.

    (** [CheckpointManager.save_cursor] *)
Definition save_cursor (cursor : value) (records_in_batch : Z)
        (additional_data : dict) : M world unit :=
      checkpoint <- load_or_empty ;;
      let checkpoint := dict_set "cursor" cursor checkpoint in
      total <- add_int (dict_get_default "records_processed" (VInt 0) checkpoint)
                       records_in_batch ;;
      let checkpoint := dict_set "records_processed" total checkpoint in
      let checkpoint := dict_update additional_data checkpoint in
      save checkpoint.

    (** [CheckpointManager.update_progress] *)
Definition update_progress (records_processed : Z) (additional_data : dict)
        : M world unit :=
      checkpoint <- load_or_empty ;;
      let checkpoint :=
        dict_set "records_processed" (VInt records_processed) checkpoint in
      let checkpoint := dict_update additional_data checkpoint in
      save checkpoint.

    (** [os.remove(path)], [blob.delete()] *)
Definition remove_file (path : string) : M world unit :=
      if storage_ok path
      then modify (fun w => mkWorld (delete path (files w)) (clock w))
      else raise OSError.

    (** [CheckpointManager.clear] *)
Definition clear : M world unit :=
      try_except
        (content <- read_file (checkpoint_path self) ;;
         match content with
         | Some _ => remove_file (checkpoint_path self)
         | None => ret tt
         end)
        is_Exception
        (fun _ => raise CheckpointError).

    (** [CheckpointManager.get_progress] *)
Definition get_progress : M world dict :=
      checkpoint <- load ;;
      let none := [ ("records_processed", VInt 0); ("cursor", VNone);
                    ("last_update", VNone); ("has_checkpoint", VBool false) ] in
      match checkpoint with
      | Some data =>
          if truthy data then
            records_processed <- get_attr data "records_processed" (VInt 0) ;;
            cursor <- get_attr data "cursor" VNone ;;
            last_update <- get_attr data "last_update" VNone ;;
            ret [ ("records_processed", records_processed); ("cursor", cursor);
                  ("last_update", last_update); ("has_checkpoint", VBool true) ]
          else ret none
      | None => ret none
      end.

End Manager.
End CheckpointManager.

(** ** Comparisons of Python values *)

Definition as_number (v : value) : option pyfloat :=
  match v with
  | VInt n => Some (Finite (inject_Z n))
  | VFloat x => Some x
  | VBool b => Some (Finite (if b then 1 else 0)%Q)
  | _ => None
  end.

(** [a == b] *)
Fixpoint py_eq (a b : value) {struct a} : bool :=
  match as_number a, as_number b with
  | Some x, Some y => float_eqb x y
  | Some _, None | None, Some _ => false
  | None, None =>
      match a, b with
      | VNone, VNone => true
      | VStr s, VStr t => String.eqb s t
      | VList l, VList m =>
          (fix all2 (l : list value) (m : list value) : bool :=
             match l, m with
             | [], [] => true
             | x :: l', y :: m' => py_eq x y && all2 l' m'
             | _, _ => false
             end) l m
      | VDict d, VDict e =>
          Nat.eqb (length d) (length e)
          && (fix all_in (d : dict) : bool :=
                match d with
                | [] => true
                | (k, x) :: d' =>
                    match dict_lookup k e with
                    | Some y => py_eq x y && all_in d'
                    | None => false
                    end
                end) d
      | _, _ => false
      end
  end.

(** [a > b]; ordering is defined between numbers, between strings and
    between lists, anything else raises TypeError. *)
Fixpoint py_gt (a b : value) {struct a} : result bool :=
  match as_number a, as_number b with
  | Some x, Some y => Return (float_ltb y x)
  | Some _, None | None, Some _ => Raise TypeError
  | None, None =>
      match a, b with
      | VStr s, VStr t => Return (String.ltb t s)
      | VList l, VList m =>
          (fix gt_list (l : list value) (m : list value) : result bool :=
             match l, m with
             | [], _ => Return false
             | _ :: _, [] => Return true
             | x :: l', y :: m' => if py_eq x y then gt_list l' m' else py_gt x y
             end) l m
      | _, _ => Raise TypeError
      end
  end.

Definition is_none (v : value) : bool :=
  match v with VNone => true | _ => false end.

(** ** Builtins, executable

    [str], [float] and [datetime.fromisoformat] on the inputs the examples
    use: [str] of a string nests no quoting and the repr of a string inside
    a list or dict is taken without escapes; [float] reads decimal
    literals (blanks around, a sign, digits with an optional fraction and
    exponent) and [inf], [infinity] and [nan] in any case, not digit-group
    underscores;
    [fromisoformat] accepts YYYY-MM-DD optionally followed by T or a blank,
    HH:MM:SS, a fraction and a +HH:MM offset.  The general statements take
    the three functions as parameters. *)
Module PyBuiltins.

Fixpoint repr (v : value) : string :=
  match v with
  | VNone => "None"
  | VBool true => "True"
  | VBool false => "False"
  | VInt n => PyJson.int_repr n
  | VFloat (Finite q) => PyJson.float_repr q
  | VFloat (Infinity false) => "inf"
  | VFloat (Infinity true) => "-inf"
  | VFloat NaN => "nan"
  | VStr s => "'" +:+ s +:+ "'"
  | VList l => "[" +:+ String.concat ", " (List.map repr l) +:+ "]"
  | VDict d =>
      "{" +:+ String.concat ", "
                (List.map (fun kv => let '(k, x) := kv in
                             "'" +:+ k +:+ "': " +:+ repr x) d)
      +:+ "}"
  end.

(** [str(v)] *)
Definition str (v : value) : string :=
  match v with VStr s => s | _ => repr v end.

Fixpoint lstrip (s : string) : string :=
  match s with
  | String c s' => if space1 (N_of_ascii c) then lstrip s' else s
  | EmptyString => s
  end.

Definition lower (c : ascii) : ascii :=
  let n := N_of_ascii c in
  if ((65 <=? n) && (n <=? 90))%N then ascii_of_N (n + 32) else c.

(** What follows the word [w] at the start of [s], whatever the case. *)
Fixpoint after_word (w s : string) : option string :=
  match w, s with
  | EmptyString, _ => Some s
  | String a w', String b s' =>
      if Ascii.eqb a (lower b) then after_word w' s' else None
  | String _ _, EmptyString => None
  end.

(** [float(s)]; [None] is ValueError. *)
Definition float (s : string) : option pyfloat :=
  let s0 := lstrip s in
  let '(sign, s1) := match s0 with
                      | String "-" r => (-1, r)
                      | String "+" r => (1, r)
                      | _ => (1, s0)
                      end in
  match (match after_word "infinity" s1 with
         | Some r => Some r
         | None => after_word "inf" s1
         end), after_word "nan" s1 with
  | Some r, _ => if isblank r then Some (Infinity (sign <? 0)) else None
  | None, Some r => if isblank r then Some NaN else None
  | None, None =>
  let '(n, k1, s2) := PyJson.scan_digits s1 0 0 in
  let '(f, k2, s3) := match s2 with
                       | String "." r => PyJson.scan_digits r 0 0
                       | _ => (0%N, O, s2)
                       end in
  let exp_of r sgn :=
    match PyJson.scan_digits r 0 0 with
    | (_, O, _) => None
    | (e, _, r') => Some (sgn * Z.of_N e, r')
    end in
  let '(e, s4) :=
    match s3 with
    | String c r =>
        if (Ascii.eqb c "e" || Ascii.eqb c "E")%bool then
          match (match r with
                 | String "-" r' => exp_of r' (-1)
                 | String "+" r' => exp_of r' 1
                 | _ => exp_of r 1
                 end) with
          | Some er => er
          | None => (0, String "e" "")
          end
        else (0, s3)
    | EmptyString => (0, s3)
    end in
  if (Nat.eqb k1 0 && Nat.eqb k2 0)%bool then None
  else if isblank s4
  then Some (float_of_literal
               (Qred (inject_Z sign
                      * (inject_Z (Z.of_N n)
                         + inject_Z (Z.of_N f) / inject_Z (10 ^ Z.of_nat k2))
                      * Qpower 10 e)))
  else None
  end.

(** [int(s)] for a string; [None] is ValueError.  Blanks around and a sign
    are accepted, digit-group underscores are not modelled. *)
Definition int (s : string) : option Z :=
  let s0 := lstrip s in
  let '(sign, s1) := match s0 with
                      | String "-" r => (-1, r)
                      | String "+" r => (1, r)
                      | _ => (1, s0)
                      end in
  match PyJson.scan_digits s1 0 0 with
  | (_, O, _) => None
  | (n, _, rest) => if isblank rest then Some (sign * Z.of_N n) else None
  end.

(** [datetime.utcfromtimestamp(t).isoformat()] for a clock reading [t] in
    seconds since the epoch: the civil date from the day number, the time
    of day, and the microseconds when there are some. *)
Definition pad2 (n : Z) : string := zero_pad 2 (decimal (Z.to_N n)).

Definition isoformat (t : Q) : string :=
  let micros := Qfloor (t * 1000000) in
  let secs := micros / 1000000 in
  let us := micros mod 1000000 in
  let days := secs / 86400 in
  let sod := secs mod 86400 in
  let z := days + 719468 in
  let era := z / 146097 in
  let doe := z mod 146097 in
  let yoe := (doe - doe / 1460 + doe / 36524 - doe / 146096) / 365 in
  let doy := doe - (365 * yoe + yoe / 4 - yoe / 100) in
  let mp := (5 * doy + 2) / 153 in
  let d := doy - (153 * mp + 2) / 5 + 1 in
  let m := if mp <? 10 then mp + 3 else mp - 9 in
  let y := yoe + era * 400 + (if m <=? 2 then 1 else 0) in
  zero_pad 4 (decimal (Z.to_N y)) +:+ "-" +:+ pad2 m +:+ "-" +:+ pad2 d
  +:+ "T" +:+ pad2 (sod / 3600) +:+ ":" +:+ pad2 ((sod / 60) mod 60)
  +:+ ":" +:+ pad2 (sod mod 60)
  +:+ (if us =? 0 then "" else "." +:+ zero_pad 6 (decimal (Z.to_N us))).

Definition two_digits (s : string) (lo hi : N) : option string :=
  match s with
  | String a (String b rest) =>
      match PyJson.digit_value a, PyJson.digit_value b with
      | Some x, Some y =>
          if ((lo <=? x * 10 + y) && (x * 10 + y <=? hi))%N then Some rest else None
      | _, _ => None
      end
  | _ => None
  end.

Definition expect (c : ascii) (s : string) : option string :=
  match s with
  | String a rest => if Ascii.eqb a c then Some rest else None
  | EmptyString => None
  end.

Definition clock_time (s : string) : option string :=
  s1 ← two_digits s 0 23; s2 ← expect ":" s1; s3 ← two_digits s2 0 59;
  s4 ← expect ":" s3; two_digits s4 0 59.

(** [datetime.fromisoformat(s)] succeeds *)
Definition fromisoformat (s : string) : bool :=
  match (s1 ← two_digits s 0 99; s2 ← two_digits s1 0 99; s3 ← expect "-" s2;
         s4 ← two_digits s3 1 12; s5 ← expect "-" s4; two_digits s5 1 31) with
  | None => false
  | Some EmptyString => true
  | Some (String sep rest) =>
      if (Ascii.eqb sep "T" || Ascii.eqb sep " ")%bool then
        match clock_time rest with
        | None => false
        | Some after =>
            let '(_, k, after') :=
              match after with
              | String "." r => PyJson.scan_digits r 0 0
              | _ => (0%N, 1%nat, after)
              end in
            if Nat.eqb k 0 then false
            else match after' with
                 | EmptyString => true
                 | String sg off =>
                     if (Ascii.eqb sg "+" || Ascii.eqb sg "-")%bool then
                       match (o1 ← two_digits off 0 23; o2 ← expect ":" o1;
                              two_digits o2 0 59) with
                       | Some EmptyString => true
                       | _ => false
                       end
                     else false
                 end
        end
      else false
  end.

End PyBuiltins.

(** ** collectors/base.py and collectors/meta/collector.py: records *)

Module Validation.
Section Validation.
(** [str], [float] ([None] is ValueError) and whether
    [datetime.fromisoformat] accepts a string. *)
Variable py_str : value -> string.
Variable py_float : string -> option pyfloat.
Variable fromisoformat : string -> bool.

(** The outcome of a validation: [(is_valid, error)]. *)
Definition outcome : Type := (bool * option string)%type.

(** [value is None or (isinstance(value, str) and not value.strip())] *)
Definition none_or_blank (v : value) : bool :=
  match v with
  | VNone => true
  | VStr s => isblank s
  | _ => false
  end.

(** [BaseAdCollector._validate_required_fields] *)
Fixpoint _validate_required_fields (record : dict) (required_fields : list string)
    : outcome :=
  match required_fields with
  | [] => (true, None)
  | field :: rest =>
      let value := dict_get field record in
      if none_or_blank value
      then (false, Some ("Missing or empty required field: " +:+ field))
      else _validate_required_fields record rest
  end.

Definition required_fields : list string := ["ad_id"; "platform"; "advertiser_name"].

(** The body of the loop over the date fields: [Some] is the early return. *)
Definition check_date (record : dict) (date_field : string) : option outcome :=
  let date_value := dict_get date_field record in
  if truthy date_value then
    let bad := Some (false, Some ("Invalid date format for " +:+ date_field
                                  +:+ ": " +:+ py_str date_value)) in
    match date_value with
    | VStr s => if fromisoformat (replace_char "Z" "+00:00" s) then None else bad
    | _ => bad   (* no [replace] attribute: AttributeError, caught *)
    end
  else None.

Fixpoint check_dates (record : dict) (date_fields : list string) : option outcome :=
  match date_fields with
  | [] => None
  | f :: rest =>
      match check_date record f with
      | Some r => Some r
      | None => check_dates record rest
      end
  end.

(** The last check of [validate_record]: the spend bounds.  [Return None]
    is falling through. *)
Definition check_spend (record : dict) : result (option outcome) :=
  let spend_min := dict_get "spend_min" record in
  let spend_max := dict_get "spend_max" record in
  if negb (is_none spend_min) && negb (is_none spend_max) then
    match py_gt spend_min spend_max with
    | Return true =>
        Return (Some (false, Some ("spend_min (" +:+ py_str spend_min
                                   +:+ ") > spend_max (" +:+ py_str spend_max
                                   +:+ ")")))
    | Return false => Return None
    | Raise e => Raise e
    end
  else Return None.

(** [MetaAdCollector.validate_record] *)
Definition validate_record (record : dict) : result outcome :=
  (* Check required fields *)
  let '(is_valid, error) := _validate_required_fields record required_fields in
  if negb is_valid then Return (false, error) else
  (* Validate ad_id format *)
  let ad_id := dict_get_default "ad_id" (VStr "") record in
  if negb (truthy ad_id) || isblank (py_str ad_id)
  then Return (false, Some "ad_id is empty") else
  (* Validate platform *)
  if negb (py_eq (dict_get "platform" record) (VStr "meta"))
  then Return (false, Some ("Invalid platform: "
                            +:+ py_str (dict_get "platform" record))) else
  (* Validate dates if present *)
  match check_dates record ["start_date"; "end_date"; "ad_creation_time"] with
  | Some r => Return r
  | None =>
      (* Validate spend values if present *)
      match check_spend record with
      | Return (Some r) => Return r
      | Return None => Return (true, None)
      | Raise e => Raise e
      end
  end.

(** [float(str(x).replace(",", ""))] *)
Definition parse_bound (x : value) : M dict value :=
  match py_float (replace_char "," "" (py_str x)) with
  | Some x => ret (VFloat x)
  | None => raise ValueError
  end.

(** [MetaAdCollector._parse_range]; the state of the computation is the
    [result] dict. *)
Definition _parse_range (range_data : value) : dict :=
  let result := [("min", VNone); ("max", VNone)] in
  match range_data with
  | VDict d =>
      if negb (truthy range_data) then result else
      snd (try_except
             (let lower := dict_get "lower_bound" d in
              let upper := dict_get "upper_bound" d in
              (if negb (is_none lower)
               then x <- parse_bound lower ;; modify (dict_set "min" x)
               else ret tt) ;;
              (if negb (is_none upper)
               then x <- parse_bound upper ;; modify (dict_set "max" x)
               else if negb (is_none lower)
               then (* If no upper bound, use lower as both *)
                    modify (fun r => dict_set "max" (dict_get "min" r) r)
               else ret tt))
             (fun e => is_ValueError e
                       || match e with TypeError => true | _ => false end)
             (fun _ => ret tt)
             result)
  | _ => result
  end.

(** The methods that build the descriptive fields of a record, and the
    time stamp, are parameters: [_extract_ad_content],
    [_extract_funding_entity], [_build_targeting_data],
    [_parse_audience_size] applied to the raw ad, and
    [datetime.utcnow().isoformat() + "Z"]. *)
Variable _extract_ad_content : dict -> result value.
Variable _extract_funding_entity : dict -> result value.
Variable _build_targeting_data : dict -> result value.
Variable _parse_audience_size : value -> result value.
Variable extracted_at : string.
Variable api_version : string.

Definition lift {S A} (r : result A) : M S A :=
  match r with Return a => ret a | Raise e => raise e end.

(** [MetaAdCollector.transform_ad] *)
Definition transform_ad (raw : value) : result dict :=
  match raw with
  | VDict raw_ad =>
      fst ((let spend_data :=
              _parse_range (dict_get_default "spend" (VDict []) raw_ad) in
            let impressions_data :=
              _parse_range (dict_get_default "impressions" (VDict []) raw_ad) in
            ad_content <- lift (_extract_ad_content raw_ad) ;;
            targeting_data <- lift (_build_targeting_data raw_ad) ;;
            funding_entity <- lift (_extract_funding_entity raw_ad) ;;
            audience <- lift (_parse_audience_size
                                (dict_get "estimated_audience_size" raw_ad)) ;;
            ret [ ("ad_id", dict_get "id" raw_ad);
                  ("platform", VStr "meta");
                  ("advertiser_name", dict_get "page_name" raw_ad);
                  ("page_id", dict_get "page_id" raw_ad);
                  ("funding_entity", funding_entity);
                  ("ad_creation_time", dict_get "ad_creation_time" raw_ad);
                  ("start_date", dict_get "ad_delivery_start_time" raw_ad);
                  ("end_date", dict_get "ad_delivery_stop_time" raw_ad);
                  ("spend_min", dict_get "min" spend_data);
                  ("spend_max", dict_get "max" spend_data);
                  ("spend_currency", dict_get "currency" raw_ad);
                  ("impressions_min", dict_get "min" impressions_data);
                  ("impressions_max", dict_get "max" impressions_data);
                  ("eu_total_reach", dict_get "eu_total_reach" raw_ad);
                  ("estimated_audience_size", audience);
                  ("ad_content", ad_content);
                  ("ad_snapshot_url", dict_get "ad_snapshot_url" raw_ad);
                  ("languages", dict_get "languages" raw_ad);
                  ("targeting_data", targeting_data);
                  ("publisher_platforms", dict_get "publisher_platforms" raw_ad);
                  ("raw_response", raw);
                  ("extracted_at", VStr extracted_at);
                  ("api_version", VStr api_version) ]) tt)
  | _ => Raise AttributeError
  end.

End Validation.
End Validation.

(** ** Operations on values of any type *)

(** [v.get(key, dflt)]: only a dict has the method. *)
Definition method_get {S} (v : value) (key : string) (dflt : value) : M S value :=
  match v with
  | VDict d => ret (dict_get_default key dflt d)
  | _ => raise AttributeError
  end.

(** The characters of a string in its UTF-8 form: a new one starts at every
    byte that is not a continuation byte. *)
Fixpoint utf8_chars_from (s : string) (cur : string) : list string :=
  match s with
  | EmptyString => [cur]
  | String c s' =>
      if continuation (N_of_ascii c) then utf8_chars_from s' (cur +:+ String c "")
      else cur :: utf8_chars_from s' (String c "")
  end.

Definition utf8_chars (s : string) : list string :=
  match s with
  | EmptyString => []
  | String c s' => utf8_chars_from s' (String c "")
  end.

(** [len(v)] *)
Definition py_len {S} (v : value) : M S Z :=
  match v with
  | VList l => ret (Z.of_nat (length l))
  | VDict d => ret (Z.of_nat (length d))
  | VStr s => ret (Z.of_nat (length (utf8_chars s)))
  | _ => raise TypeError
  end.

(** The items [for x in v] goes through *)
Definition py_iter {S} (v : value) : M S (list value) :=
  match v with
  | VList l => ret l
  | VDict d => ret (map (fun kv => VStr (fst kv)) d)
  | VStr s => ret (map VStr (utf8_chars s))
  | _ => raise TypeError
  end.

Fixpoint is_substring (needle hay : string) : bool :=
  String.prefix needle hay
  || match hay with
     | EmptyString => false
     | String _ hay' => is_substring needle hay'
     end.

(** [key in v] for a string [key] *)
Definition py_contains {S} (key : string) (v : value) : M S bool :=
  match v with
  | VDict d => ret (dict_mem key d)
  | VList l => ret (existsb (py_eq (VStr key)) l)
  | VStr s => ret (is_substring key s)
  | _ => raise TypeError
  end.

(** ** More of [str]: stripping, and the search for the funding entity *)

(** [s.lstrip()] and [s.rstrip()] on the UTF-8 form; white space is the
    one of [isblank]. *)
Fixpoint py_lstrip (s : string) : string :=
  match s with
  | EmptyString => s
  | String a s1 =>
      if space1 (N_of_ascii a) then py_lstrip s1
      else match s1 with
           | EmptyString => s
           | String b s2 =>
               if space2 (N_of_ascii a) (N_of_ascii b) then py_lstrip s2
               else match s2 with
                    | EmptyString => s
                    | String c s3 =>
                        if space3 (N_of_ascii a) (N_of_ascii b) (N_of_ascii c)
                        then py_lstrip s3 else s
                    end
           end
  end.

Fixpoint py_rstrip (s : string) : string :=
  match s with
  | EmptyString => s
  | String a s' => if isblank s then EmptyString else String a (py_rstrip s')
  end.

(** [s.strip()] *)
Definition py_strip (s : string) : string := py_lstrip (py_rstrip s).

Definition ascii_upper (c : ascii) : ascii :=
  let n := N_of_ascii c in
  if ((97 <=? n) && (n <=? 122))%N then ascii_of_N (n - 32) else c.

(** One character of the subject against a character [p] of a pattern
    compiled with [re.IGNORECASE], for [p] a blank or a lower-case letter
    other than [k] and [s]: the letter in either case, and for [i] also
    U+0130 and U+0131, which lower-case to it. *)
Definition ci_letter (p : ascii) (s : string) : option string :=
  match s with
  | EmptyString => None
  | String a rest =>
      if (Ascii.eqb a p || Ascii.eqb a (ascii_upper p))%bool then Some rest
      else if Ascii.eqb p "i" then
        match rest with
        | String b rest' =>
            if ((N_of_ascii a =? 196)
                && ((N_of_ascii b =? 176) || (N_of_ascii b =? 177)))%N
            then Some rest' else None
        | EmptyString => None
        end
      else None
  end.

Fixpoint ci_literal (pattern s : string) : option string :=
  match pattern with
  | EmptyString => Some s
  | String p pattern' =>
      match ci_letter p s with
      | Some rest => ci_literal pattern' rest
      | None => None
      end
  end.

(** What [.+] takes at the start of [s]: everything up to the end of the
    line. *)
Fixpoint line_of (s : string) : string :=
  match s with
  | EmptyString => EmptyString
  | String a s' =>
      if (N_of_ascii a =? 10)%N then EmptyString else String a (line_of s')
  end.

(** A match of [Paid for by (.+)] that starts at the start of [s]: its
    group 1. *)
Definition paid_for_by_at (s : string) : option string :=
  match ci_literal "paid for by " s with
  | Some rest =>
      match line_of rest with
      | EmptyString => None
      | entity => Some entity
      end
  | None => None
  end.

(** [re.search(r"Paid for by (.+)", s, re.IGNORECASE)]: group 1 of the
    leftmost match. *)
Fixpoint search_paid_for_by (s : string) : option string :=
  match paid_for_by_at s with
  | Some entity => Some entity
  | None =>
      match s with
      | String _ s' => search_paid_for_by s'
      | EmptyString => None
      end
  end.

(** ** shared/rate_limiter.py: statistics *)

Module RateLimiterStats.
Import RateLimiter.

Section Stats.
(** [round(x, ndigits)] *)
Variable py_round : Q -> Z -> Q.

Definition count_after (cutoff : Q) (history : list Q) : Z :=
  Z.of_nat (length (filter (fun t => Qltb cutoff t) history)).

(** [RateLimiter.get_stats] *)
Definition get_stats : M world dict :=
  now <- on_clock Time.time ;;
  me <- on_self id ;;
  let last_minute := count_after (now - 60) (request_history me) in
  let last_5_minutes := count_after (now - 300) (request_history me) in
  utilization <-
    (if 0 <? requests_per_minute (cfg me) then
       x <- fdiv (inject_Z last_minute) (inject_Z (requests_per_minute (cfg me))) ;;
       ret (VFloat (Finite (py_round (x * 100) 1)))
     else ret (VInt 0)) ;;
  ret [ ("tokens_remaining", VFloat (Finite (py_round (tokens me) 2)));
        ("requests_last_minute", VInt last_minute);
        ("requests_last_5_minutes", VInt last_5_minutes);
        ("requests_per_minute_limit", VInt (requests_per_minute (cfg me)));
        ("total_requests", VInt (total_requests me));
        ("total_wait_time_seconds",
         VFloat (Finite (py_round (total_wait_time me) 2)));
        ("rate_limit_errors", VInt (rate_limit_errors me));
        ("utilization_percent", utilization) ].

End Stats.
End RateLimiterStats.

(** ** collectors/meta/collector.py: the descriptive fields of a record *)

Module Extractors.

(** [content_parts.extend(raw_ad.get(field, []))] when the value is truthy;
    the state is [content_parts]. *)
Definition extend_from (field : string) (raw_ad : dict) : M (list value) unit :=
  let x := dict_get_default field (VList []) raw_ad in
  if truthy x
  then items <- py_iter x ;; modify (fun content_parts => content_parts ++ items)
  else ret tt.

(** The filter [part and part.strip()] of the join: [Some] keeps the part. *)
Definition kept {S} (part : value) : M S (option string) :=
  if truthy part then
    match part with
    | VStr s => ret (if isblank s then None else Some s)
    | _ => raise AttributeError     (* no [strip] attribute *)
    end
  else ret None.

Fixpoint kept_parts {S} (content_parts : list value) : M S (list string) :=
  match content_parts with
  | [] => ret []
  | part :: rest =>
      k <- kept part ;;
      ks <- kept_parts rest ;;
      ret (match k with Some s => s :: ks | None => ks end)
  end.

(** [MetaAdCollector._extract_ad_content] *)
Definition _extract_ad_content (raw_ad : dict) : result value :=
  fst ((extend_from "ad_creative_bodies" raw_ad ;;
        extend_from "ad_creative_link_titles" raw_ad ;;
        extend_from "ad_creative_link_descriptions" raw_ad ;;
        extend_from "ad_creative_link_captions" raw_ad ;;
        content_parts <- gets id ;;
        match content_parts with
        | [] => ret VNone
        | _ =>
            (* Join with newlines, remove empty strings *)
            ks <- kept_parts content_parts ;;
            ret (VStr (String.concat nl ks))
        end) []).

(** [MetaAdCollector._extract_funding_entity] *)
Definition _extract_funding_entity (raw_ad : dict) : result value :=
  let bylines := dict_get "bylines" raw_ad in
  match bylines with
  | VStr s =>
      if truthy bylines then
        match search_paid_for_by s with
        | Some entity => Return (VStr (py_strip entity))
        | None => Return bylines
        end
      else Return VNone
  | _ => Return VNone
  end.

(** [x = raw_ad.get(source)] then [if x: targeting[target] = x]; the state
    is [targeting]. *)
Definition copy_truthy (source target : string) (raw_ad : dict) : M dict unit :=
  let x := dict_get source raw_ad in
  if truthy x then modify (dict_set target x) else ret tt.

(** [MetaAdCollector._build_targeting_data] *)
Definition _build_targeting_data (raw_ad : dict) : result value :=
  fst ((copy_truthy "demographic_distribution" "demographic_distribution" raw_ad ;;
        copy_truthy "delivery_by_region" "region_distribution" raw_ad ;;
        copy_truthy "target_ages" "target_ages" raw_ad ;;
        copy_truthy "target_gender" "target_gender" raw_ad ;;
        copy_truthy "target_locations" "target_locations" raw_ad ;;
        targeting <- gets id ;;
        ret (if truthy (VDict targeting) then VDict targeting else VNone)) []).

Section Audience.
(** [int] on a string; [None] is ValueError. *)
Variable py_int : string -> option Z.

(** [int(x)]: a finite float is truncated towards zero, an infinity raises
    OverflowError and NaN raises ValueError. *)
Definition int_of (x : value) : result Z :=
  match x with
  | VInt n => Return n
  | VBool b => Return (if b then 1 else 0)
  | VFloat (Finite q) => Return (Z.quot (Qnum q) (Zpos (Qden q)))
  | VFloat (Infinity _) => Raise OverflowError
  | VFloat NaN => Raise ValueError
  | VStr s => match py_int s with Some n => Return n | None => Raise ValueError end
  | _ => Raise TypeError
  end.

(** [MetaAdCollector._parse_audience_size] *)
Definition _parse_audience_size (audience_data : value) : result value :=
  match audience_data with
  | VDict d =>
      if negb (truthy audience_data) then Return VNone else
      fst (try_except
             (lower <- Validation.lift
                         (int_of (dict_get_default "lower_bound" (VInt 0) d)) ;;
              upper <- Validation.lift
                         (int_of (dict_get_default "upper_bound" (VInt 0) d)) ;;
              ret (VDict [("min", VInt lower); ("max", VInt upper)]))
             (fun e => is_ValueError e
                       || match e with TypeError => true | _ => false end)
             (fun _ => ret VNone)
             tt)
  | _ => Return VNone
  end.

End Audience.
End Extractors.

(** ** collectors/meta/collector.py: requests and the fetch stream *)

Module MetaAdCollector.

(** What [requests.get] does: a response with its status code, its body as
    [response.json()] reads it ([None] when it is not JSON) and its
    Retry-After header, or a failure of the transport. *)
Inductive http_outcome : Type :=
  | Response (status_code : Z) (json : option value) (retry_after : option string)
  | Timeout
  | ConnectionError.

(** The attributes [__init__] reads from the configuration. *)
Record config : Type := mkConfig {
  access_token : string;
  fields : string;
  default_limit : Z;
  ad_type : string;
  checkpoint_interval : Z
}.

(** The collector, the objects it owns and what it acts on: the rate
    limiter, the clock, the checkpoint storage, the writer with its
    storage, and the parameters of every GET issued so far.  [journal]
    records the content of the checkpoint file after each checkpoint
    write; the code does not read it. *)
Record world : Type := mkWorld {
  rate_limiter : RateLimiter.t;
  clock : Time.t;
  checkpoint_files : gmap string string;
  output : OutputWriter.world;
  requests : list dict;
  _request_count : Z;
  _records_since_checkpoint : Z;
  journal : list (option string)
}.

Definition with_limiter (x : RateLimiter.world) (w : world) : world :=
  mkWorld (RateLimiter.self x) (RateLimiter.clock x) (checkpoint_files w)
          (output w) (requests w) (_request_count w)
          (_records_since_checkpoint w) (journal w).
Definition with_clock (c : Time.t) (w : world) : world :=
  mkWorld (rate_limiter w) c (checkpoint_files w) (output w) (requests w)
          (_request_count w) (_records_since_checkpoint w) (journal w).
Definition with_checkpoint (x : CheckpointManager.world) (w : world) : world :=
  mkWorld (rate_limiter w) (CheckpointManager.clock x)
          (CheckpointManager.files x) (output w) (requests w)
          (_request_count w) (_records_since_checkpoint w) (journal w).
Definition with_output (x : OutputWriter.world) (w : world) : world :=
  mkWorld (rate_limiter w) (clock w) (checkpoint_files w) x (requests w)
          (_request_count w) (_records_since_checkpoint w) (journal w).
Definition with_requests (x : list dict) (w : world) : world :=
  mkWorld (rate_limiter w) (clock w) (checkpoint_files w) (output w) x
          (_request_count w) (_records_since_checkpoint w) (journal w).
Definition with_request_count (x : Z) (w : world) : world :=
  mkWorld (rate_limiter w) (clock w) (checkpoint_files w) (output w)
          (requests w) x (_records_since_checkpoint w) (journal w).
Definition with_records_since_checkpoint (x : Z) (w : world) : world :=
  mkWorld (rate_limiter w) (clock w) (checkpoint_files w) (output w)
          (requests w) (_request_count w) x (journal w).
Definition with_journal (x : list (option string)) (w : world) : world :=
  mkWorld (rate_limiter w) (clock w) (checkpoint_files w) (output w)
          (requests w) (_request_count w) (_records_since_checkpoint w) x.

(** Calls into the owned objects. *)
Definition on_limiter {A} (m : M RateLimiter.world A) : M world A :=
  zoom (fun w => RateLimiter.mkWorld (rate_limiter w) (clock w)) with_limiter m.
Definition on_checkpoint {A} (m : M CheckpointManager.world A) : M world A :=
  zoom (fun w => CheckpointManager.mkWorld (checkpoint_files w) (clock w))
       with_checkpoint m.
Definition on_time {A} (m : M Time.t A) : M world A := zoom clock with_clock m.

Section Collector.
(** The environment: the JSON codec and the time stamps of the checkpoint
    store, whether its storage accepts a write, [int] on a string ([None]
    is ValueError), and the server: what the [n]-th GET (from 0) with the
    given parameters meets. *)
Variable json_loads : string -> option value.
Variable json_dumps : json_opts -> value -> string.
Variable isoformat : Q -> string.
Variable storage_ok : string -> bool.
Variable py_int : string -> option Z.
Variable server : nat -> dict -> http_outcome.

Variable cfg : config.
Variable checkpoint_manager : CheckpointManager.t.

(** [requests.get(url, params=params, timeout=..)] *)
Definition http_get (params : dict) : M world http_outcome :=
  fun w => (Return (server (length (requests w)) params),
            with_requests (requests w ++ [params]) w).

(** The branch of [_make_request] that handles rate limiting. *)
Definition on_rate_limit {A} (retry_after : option string) : M world A :=
  retry_after <- match retry_after with
                 | None => ret 60
                 | Some header =>
                     match py_int header with
                     | Some n => ret n
                     | None => raise ValueError
                     end
                 end ;;
  on_limiter (RateLimiter.handle_rate_limit_error
                (Some (inject_Z retry_after)) 1) ;;
  raise RateLimitError.

(** The body of [MetaAdCollector._make_request], one attempt. *)
Definition _make_request_once (params : dict) : M world value :=
  modify (fun w => with_request_count (_request_count w + 1) w) ;;
  response <- http_get params ;;
  match response with
  | Timeout | ConnectionError => raise RequestException
  | Response status_code json retry_after =>
      if status_code =? 200 then
        match json with
        | Some data => ret data
        | None => raise RequestException   (* requests.JSONDecodeError *)
        end
      else
        (* Parse error response *)
        error_data <- match json with
                      | Some body => method_get body "error" (VDict [])
                      | None => ret (VDict [])
                      end ;;
        error_code <- method_get error_data "code" VNone ;;
        (* Handle rate limiting (code 4 or 17) *)
        if py_eq error_code (VInt 4) || py_eq error_code (VInt 17)
           || (status_code =? 429)
        then on_rate_limit retry_after
        else
          (* Handle other errors *)
          raise APIError
  end.

(** tenacity: [retry_if_exception_type((RequestException, RateLimitError))] *)
Definition retried (e : exn) : bool :=
  match e with
  | RequestException | RateLimitError => true
  | _ => false
  end.

(** tenacity: [wait_exponential(multiplier=1, min=4, max=60)] after the
    attempt numbered [attempt_number] *)
Definition wait_exponential (attempt_number : Z) : Q :=
  Qmax (Qmax 0 4) (Qmin (1 * Qpower 2 (attempt_number - 1)) 60).

(** tenacity: the retry loop of the decorator with [stop_after_attempt].
    [remaining] attempts may follow the one numbered [attempt_number]; when
    none may, the failure is wrapped in RetryError ([reraise] is off). *)
Fixpoint retrying {A} (remaining : nat) (attempt_number : Z) (call : M world A)
    : M world A :=
  fun w =>
    match call w with
    | (Raise e, w') =>
        if retried e then
          match remaining with
          | O => (Raise (RetryError e), w')
          | S remaining' =>
              (on_time (Time.sleep (wait_exponential attempt_number)) ;;
               retrying remaining' (attempt_number + 1) call) w'
          end
        else (Raise e, w')
    | r => r
    end.

(** [MetaAdCollector._make_request]: [stop_after_attempt(5)] *)
Definition _make_request (params : dict) : M world value :=
  retrying 4 1 (_make_request_once params).

(** After a checkpoint write: note what the file holds now. *)
Definition note_checkpoint : M world unit :=
  modify (fun w =>
    with_journal
      (journal w
       ++ [checkpoint_files w !! CheckpointManager.checkpoint_path checkpoint_manager])
      w).

Definition save_cursor (cursor : value) (records_in_batch : Z)
    (additional_data : dict) : M world unit :=
  on_checkpoint (CheckpointManager.save_cursor json_loads json_dumps isoformat
                   storage_ok checkpoint_manager cursor records_in_batch
                   additional_data) ;;
  note_checkpoint.

Definition update_progress (records_processed : Z) (additional_data : dict)
    : M world unit :=
  on_checkpoint (CheckpointManager.update_progress json_loads json_dumps
                   isoformat storage_ok checkpoint_manager records_processed
                   additional_data) ;;
  note_checkpoint.

(** [response_data.get("paging", {}).get("cursors", {}).get("after")] *)
Definition cursor_after (paging : value) : M world value :=
  cursors <- method_get paging "cursors" (VDict []) ;;
  method_get cursors "after" VNone.

Local Open Scope gen_scope.

(** The [for ad in ads] loop of [fetch_ads]. *)
Fixpoint yield_ads (ads : list value) (response_data : value)
    (page_count total_ads : Z) (date_range : string) : G world unit :=
  match ads with
  | [] => g_ret tt
  | ad :: rest =>
      yield ad ;;
      (* Update checkpoint periodically *)
      lift_M (modify (fun w => with_records_since_checkpoint
                                 (_records_since_checkpoint w + 1) w)) ;;
      since <- lift_M (gets _records_since_checkpoint) ;;
      (if checkpoint_interval cfg <=? since then
         lift_M (paging <- method_get response_data "paging" (VDict []) ;;
                 cursor <- cursor_after paging ;;
                 if truthy cursor then
                   save_cursor cursor since
                     [ ("total_fetched", VInt total_ads);
                       ("pages_processed", VInt page_count);
                       ("date_range", VStr date_range) ] ;;
                   modify (with_records_since_checkpoint 0)
                 else ret tt)%py
       else g_ret tt) ;;
      yield_ads rest response_data page_count total_ads date_range
  end.

(** The [while True] loop of [fetch_ads]; it returns the counters at the
    [break].  [fuel] bounds the number of iterations. *)
Fixpoint fetch_pages (fuel : nat) (params : dict) (page_count total_ads : Z)
    (date_range : string) : G world (Z * Z) :=
  match fuel with
  | O => g_raise OutOfFuel
  | S fuel' =>
      (* Rate limiting *)
      lift_M (on_limiter RateLimiter.wait_if_needed) ;;
      (* Make request with retry logic; [None] is the [continue] *)
      response <- lift_M (try_except
                            (data <- _make_request params ;; ret (Some data))%py
                            (fun e => match e with
                                      | RateLimitError => true
                                      | _ => false
                                      end)
                            (fun _ => ret None)) ;;
      match response with
      | None => fetch_pages fuel' params page_count total_ads date_range
      | Some response_data =>
          let page_count := page_count + 1 in
          ads <- lift_M (method_get response_data "data" (VList [])) ;;
          ads_in_page <- lift_M (py_len ads) ;;
          let total_ads := total_ads + ads_in_page in
          (* Yield each ad *)
          items <- lift_M (py_iter ads) ;;
          yield_ads items response_data page_count total_ads date_range ;;
          (* Check for next page *)
          paging <- lift_M (method_get response_data "paging" (VDict [])) ;;
          has_next <- lift_M (py_contains "next" paging) ;;
          if negb has_next then g_ret (page_count, total_ads)
          else
            (* Update params for next page *)
            next_cursor <- lift_M (cursor_after paging) ;;
            if truthy next_cursor
            then fetch_pages fuel' (dict_set "after" next_cursor params)
                             page_count total_ads date_range
            else g_ret (page_count, total_ads)
      end
  end.

(** [MetaAdCollector.fetch_ads]; the dates are given in their ISO form. *)
Definition fetch_ads (fuel : nat) (start_date end_date country_code : string)
    : G world unit :=
  let date_range := start_date +:+ " to " +:+ end_date in
  (* Build initial parameters *)
  let params :=
    [ ("access_token", VStr (access_token cfg));
      ("ad_reached_countries", VStr country_code);
      ("ad_type", VStr (ad_type cfg));
      ("ad_active_status", VStr "ALL");
      ("ad_delivery_date_min", VStr start_date);
      ("ad_delivery_date_max", VStr end_date);
      ("search_terms", VStr "");
      ("fields", VStr (fields cfg));
      ("limit", VInt (default_limit cfg)) ] in
  (* Check for existing checkpoint *)
  cursor <- lift_M (on_checkpoint
                      (CheckpointManager.get_cursor json_loads checkpoint_manager)) ;;
  let params := if truthy cursor then dict_set "after" cursor params else params in
  counters <- fetch_pages fuel params 0 0 date_range ;;
  (* Final checkpoint *)
  lift_M (update_progress (snd counters)
            [ ("status", VStr "completed");
              ("pages_processed", VInt (fst counters));
              ("date_range", VStr date_range) ]).

Local Close Scope gen_scope.

(** [MetaAdCollector.authenticate] *)
Definition authenticate : M world bool :=
  try_except
    (response <- http_get
                   [ ("access_token", VStr (access_token cfg));
                     ("ad_reached_countries", VStr "PL");
                     ("ad_type", VStr (ad_type cfg));
                     ("search_terms", VStr "");
                     ("fields", VStr "id");
                     ("limit", VInt 1) ] ;;
     match response with
     | Timeout | ConnectionError => raise RequestException
     | Response status_code json _ =>
         if status_code =? 200 then
           data <- match json with
                   | Some data => ret data
                   | None => raise RequestException
                   end ;;
           found <- method_get data "data" (VList []) ;;
           py_len found ;;
           ret true
         else
           (* Try to parse error response *)
           response_json <- match json with
                            | Some body => ret body
                            | None => raise AuthenticationError
                            end ;;
           (* Handle specific error cases *)
           error_data <- method_get response_json "error" (VDict []) ;;
           error_code <- method_get error_data "code" VNone ;;
           if py_eq error_code (VInt 190) then raise AuthenticationError
           else if py_eq error_code (VInt 4) then raise RateLimitError
           else raise AuthenticationError
     end)
    (fun e => match e with RequestException => true | _ => is_ValueError e end)
    (fun _ => raise AuthenticationError).

End Collector.
End MetaAdCollector.

(** ** collectors/base.py: the run *)

Module BaseAdCollector.

(** The statistics [run] gathers; [interrupted], [error] and [manifest] are
    the keys it adds on the way. *)
Record stats : Type := mkStats {
  records_fetched : Z;
  records_valid : Z;
  records_invalid : Z;
  validation_errors : list (value * option string);
  interrupted : bool;
  error : option exn;
  manifest : option dict
}.

Definition stats0 : stats := mkStats 0 0 0 [] false None None.

Section Run.
(** The state the run acts on holds the writer and its storage. *)
Variable W : Type.
Variable writer_of : W -> OutputWriter.world.
Variable with_writer : OutputWriter.world -> W -> W.
Variable json_dumps : json_opts -> value -> string.
Variable gzip : string -> string.
Variable output_ok : string -> bool.

(** The abstract methods of the collector. *)
Variable authenticate : M W bool.
Variable fetch_ads : string -> string -> string -> G W unit.
Variable transform_ad : value -> result dict.
Variable validate_record : dict -> result Validation.outcome.

Definition on_writer {A} (m : M OutputWriter.world A) : M W A :=
  zoom writer_of with_writer m.

(** The [for raw_ad in self.fetch_ads(..)] loop. *)
Fixpoint consume (dry_run : bool) (s : step W unit) (st : stats)
    : result unit * stats * W :=
  match s with
  | Done r w => (r, st, w)
  | Yielded raw_ad w resume =>
      let st := mkStats (records_fetched st + 1) (records_valid st)
                        (records_invalid st) (validation_errors st)
                        (interrupted st) (error st) (manifest st) in
      (* Transform *)
      match transform_ad raw_ad with
      | Raise e => (Raise e, st, w)
      | Return transformed =>
          (* Validate *)
          match validate_record transformed with
          | Raise e => (Raise e, st, w)
          | Return (is_valid, err) =>
              if negb is_valid then
                let errors :=
                  if (length (validation_errors st) <? 100)%nat
                  then validation_errors st
                       ++ [(dict_get_default "ad_id" (VStr "unknown") transformed,
                            err)]
                  else validation_errors st in
                consume dry_run (resume w)
                  (mkStats (records_fetched st) (records_valid st)
                           (records_invalid st + 1) errors
                           (interrupted st) (error st) (manifest st))
              else
                let st := mkStats (records_fetched st) (records_valid st + 1)
                                  (records_invalid st) (validation_errors st)
                                  (interrupted st) (error st) (manifest st) in
                (* Write (unless dry run) *)
                if dry_run then consume dry_run (resume w) st
                else
                  match on_writer (OutputWriter.write_record json_dumps gzip
                                     output_ok (VDict transformed)) w with
                  | (Return _, w') => consume dry_run (resume w') st
                  | (Raise e, w') => (Raise e, st, w')
                  end
          end
      end
  end.

(** [BaseAdCollector.run]; [completed] is the time stamp [finalize] takes. *)
Definition run (start_date end_date country_code : string) (dry_run : bool)
    (completed : string) : M W stats :=
  fun w =>
    match consume dry_run (fetch_ads start_date end_date country_code w) stats0 with
    | (r, st, w1) =>
        (* except KeyboardInterrupt / except Exception: .. raise *)
        let '(st, pending) :=
          match r with
          | Return _ => (st, None)
          | Raise KeyboardInterrupt =>
              (mkStats (records_fetched st) (records_valid st)
                       (records_invalid st) (validation_errors st) true
                       (error st) (manifest st), None)
          | Raise e =>
              if is_Exception e
              then (mkStats (records_fetched st) (records_valid st)
                            (records_invalid st) (validation_errors st)
                            (interrupted st) (Some e) (manifest st), Some e)
              else (st, Some e)
          end in
        (* finally: Finalize output *)
        if dry_run then
          match pending with
          | None => (Return st, w1)
          | Some e => (Raise e, w1)
          end
        else
          match on_writer (OutputWriter.finalize json_dumps gzip output_ok
                             completed) w1 with
          | (Return m, w2) =>
              match pending with
              | None =>
                  (Return (mkStats (records_fetched st) (records_valid st)
                                   (records_invalid st) (validation_errors st)
                                   (interrupted st) (error st) (Some m)), w2)
              | Some e => (Raise e, w2)
              end
          | (Raise e, w2) => (Raise e, w2)
          end
    end.

End Run.
End BaseAdCollector.

(** ** Concrete runs

    The environment and the inputs of the examples: CPython's codec and
    builtins as modelled above, a storage that accepts every write, and the
    objects the tests of the repository build. *)
Module Scenario.

Definition always (_ : string) : bool := true.

(** [compress] is off in every example, so [gzip] is never applied. *)
Definition no_gzip (content : string) : string := content.

(** What [_extract_ad_content], [_extract_funding_entity],
    [_build_targeting_data] and [_parse_audience_size] return on a raw ad
    that has none of the descriptive fields: [None]. *)
Definition none_of {A} (_ : A) : result value := Return VNone.

Definition compact : json_opts := {| indent := None; ensure_ascii := true |}.

(** 2024-01-15 12:00:00 UTC *)
Definition noon : Q := 1705320000.

Definition manager : CheckpointManager.t :=
  CheckpointManager.mk "meta" ".checkpoints/meta_checkpoint.json".

Definition store0 : CheckpointManager.world :=
  CheckpointManager.mkWorld ∅ (Time.mk noon []).

(** The checkpoint of [test_save_and_load]. *)
Definition test_data : dict :=
  [("cursor", VStr "abc123"); ("records_processed", VInt 1000)].

Definition save (data : dict) : M CheckpointManager.world unit :=
  CheckpointManager.save PyJson.dumps PyBuiltins.isoformat always manager data.

Definition load : M CheckpointManager.world (option value) :=
  CheckpointManager.load PyJson.loads manager.

(** The limiter of Scenario B: 60 requests per minute, burst 1. *)
Definition limiter_b : RateLimiter.world :=
  RateLimiter.mkWorld (RateLimiter.init 60 1 2 3 60 noon) (Time.mk noon []).

(** The writer of Scenario A: batch size 2, records with ids 0 to 5. *)
Definition six_records : list value :=
  map (fun i => VDict [("ad_id", VStr i)]) ["0"; "1"; "2"; "3"; "4"; "5"].

(** The collector of the tests, with a checkpoint after every record. *)
Definition config : MetaAdCollector.config :=
  MetaAdCollector.mkConfig "test_token" "id,page_name,spend" 100
                           "POLITICAL_AND_ISSUE_ADS" 1.

Definition writer : OutputWriter.t :=
  OutputWriter.init "meta" OutputWriter.Local 10000 false "output/meta"
                    "20240115_120000".

Definition world0 (checkpoints : gmap string string) : MetaAdCollector.world :=
  MetaAdCollector.mkWorld (RateLimiter.init 600 10 2 3 60 noon)
    (Time.mk noon []) checkpoints (OutputWriter.mkWorld writer ∅) [] 0 0 [].

(** A checkpoint left by an earlier run: cursor [c0], 5 records. *)
Definition earlier_checkpoint : gmap string string :=
  {[ CheckpointManager.checkpoint_path manager :=
       PyJson.dumps compact
         (VDict [("cursor", VStr "c0"); ("records_processed", VInt 5)]) ]}.

(** A server with one last page of one ad. *)
Definition one_page (_ : nat) (_ : dict) : MetaAdCollector.http_outcome :=
  MetaAdCollector.Response 200
    (Some (VDict
       [ ("data", VList [VDict [("id", VStr "1"); ("page_name", VStr "P")]]);
         ("paging", VDict [("cursors", VDict [("after", VStr "c1")])]) ]))
    None.

(** A server that throttles every request: HTTP 429, error code 4. *)
Definition throttling (_ : nat) (_ : dict) : MetaAdCollector.http_outcome :=
  MetaAdCollector.Response 429
    (Some (VDict [("error", VDict [ ("code", VInt 4);
                                    ("message", VStr "Application request limit reached") ])]))
    None.

(** A server that rejects the access token: HTTP 400, error code 190. *)
Definition rejecting (_ : nat) (_ : dict) : MetaAdCollector.http_outcome :=
  MetaAdCollector.Response 400
    (Some (VDict [("error", VDict [ ("code", VInt 190);
                                    ("message", VStr "Invalid OAuth access token") ])]))
    None.

Definition fetch_ads (server : nat -> dict -> MetaAdCollector.http_outcome)
    (start_date end_date country_code : string) : G MetaAdCollector.world unit :=
  MetaAdCollector.fetch_ads PyJson.loads PyJson.dumps PyBuiltins.isoformat
    always PyBuiltins.int server config manager 1000 start_date end_date
    country_code.

Definition authenticate (server : nat -> dict -> MetaAdCollector.http_outcome)
    : M MetaAdCollector.world bool :=
  MetaAdCollector.authenticate server config.

Definition transform_ad : value -> result dict :=
  Validation.transform_ad PyBuiltins.str PyBuiltins.float none_of none_of
    none_of none_of "2024-01-15T12:00:00Z" "v21.0".

Definition validate_record : dict -> result Validation.outcome :=
  Validation.validate_record PyBuiltins.str PyBuiltins.fromisoformat.

(** [collector.run(date(2024, 1, 1), date(2024, 1, 31))] *)
Definition run (server : nat -> dict -> MetaAdCollector.http_outcome)
    : M MetaAdCollector.world BaseAdCollector.stats :=
  BaseAdCollector.run MetaAdCollector.world MetaAdCollector.output
    MetaAdCollector.with_output PyJson.dumps no_gzip always
    (fetch_ads server) transform_ad validate_record
    "2024-01-01" "2024-01-31" "PL" false "2024-01-15T12:05:00Z".

(** The [records_processed] a checkpoint file holds. *)
Definition records_processed_in (content : option string) : option value :=
  match content with
  | Some text =>
      match PyJson.loads text with
      | Some (VDict d) => dict_lookup "records_processed" d
      | _ => None
      end
  | None => None
  end.

(** The fetch request of the run above, without a cursor. *)
Definition fetch_params : dict :=
  [ ("access_token", VStr "test_token");
    ("ad_reached_countries", VStr "PL");
    ("ad_type", VStr "POLITICAL_AND_ISSUE_ADS");
    ("ad_active_status", VStr "ALL");
    ("ad_delivery_date_min", VStr "2024-01-01");
    ("ad_delivery_date_max", VStr "2024-01-31");
    ("search_terms", VStr "");
    ("fields", VStr "id,page_name,spend");
    ("limit", VInt 100) ].

(** Records for the validation examples. *)
Definition valid_record : dict :=
  [ ("ad_id", VStr "12345"); ("platform", VStr "meta");
    ("advertiser_name", VStr "Test Page") ].

Definition reversed_impressions : dict :=
  valid_record ++ [("impressions_min", VFloat (Finite 5000));
                   ("impressions_max", VFloat (Finite 1000))].

Definition reversed_spend : dict :=
  valid_record ++ [("spend_min", VInt 500); ("spend_max", VInt 100)].

Definition open_ended_ad : dict :=
  [ ("id", VStr "12345"); ("page_name", VStr "Test Page");
    ("spend", VDict [("lower_bound", VStr "5000")]);
    ("impressions", VDict [("lower_bound", VStr "1,000")]) ].

End Scenario.

(* ===================================================================== *)
(** * Properties *)
(* ===================================================================== *)

Lemma Qltb_lt (x y : Q) : Qltb x y = true <-> (x < y)%Q.
Proof.
  unfold Qltb. rewrite Qlt_alt. destruct (x ?= y)%Q; split; congruence.
Qed.

Lemma Qltb_ge (x y : Q) : Qltb x y = false <-> (y <= x)%Q.
Proof.
  split; intros H.
  - apply Qnot_lt_le. intros Hlt. apply Qltb_lt in Hlt. congruence.
  - destruct (Qltb x y) eqn:E; [|done].
    apply Qltb_lt in E. exfalso. exact (Qlt_not_le _ _ E H).
Qed.

Module RateLimiterProps.
Import RateLimiter.

  (** The delay [handle_rate_limit_error] computes. *)
Definition backoff_delay (r : t) (retry_after : option Q) (attempt : Z) : Q :=
    match retry_after with
    | Some ra => ra
    | None => (initial_retry_delay (cfg r)
               * Qpower (backoff_multiplier (cfg r)) (attempt - 1))%Q
    end.

  (** C7. [handle_rate_limit_error(retry_after, attempt)]: when
      [attempt > max_retries] it raises RateLimitError and nothing has
      changed (no sleep, no counter); otherwise, for a delay that can be
      slept (not negative, and [0.0 ** negative] does not occur), it sleeps
      exactly once for [retry_after] when given and for
      [initial_retry_delay * backoff_multiplier ** (attempt - 1)] otherwise,
      returns that delay, has incremented [rate_limit_errors] by one and
      leaves [tokens == burst]. *)
Theorem handle_rate_limit_error_spec (w : world) (retry_after : option Q)
      (attempt : Z) :
    (max_retries (cfg (self w)) < attempt ->
       handle_rate_limit_error retry_after attempt w = (Raise RateLimitError, w))
    /\
    (attempt <= max_retries (cfg (self w)) ->
     (0 <= backoff_delay (self w) retry_after attempt)%Q ->
     (retry_after = None -> attempt < 1 ->
        ~ (backoff_multiplier (cfg (self w)) == 0)%Q) ->
     exists w',
       handle_rate_limit_error retry_after attempt w
         = (Return (backoff_delay (self w) retry_after attempt), w')
       /\ Time.sleeps (clock w')
            = Time.sleeps (clock w) ++ [backoff_delay (self w) retry_after attempt]
       /\ Time.now (clock w')
            = (Time.now (clock w) + backoff_delay (self w) retry_after attempt)%Q
       /\ rate_limit_errors (self w') = rate_limit_errors (self w) + 1
       /\ tokens (self w') = inject_Z (burst (cfg (self w)))
       /\ cfg (self w') = cfg (self w)).
Proof.
    destruct w as [r c]. simpl. split.
    - intros Hgt. unfold handle_rate_limit_error, bind, on_self, gets. simpl.
      apply Z.ltb_lt in Hgt. rewrite Hgt. reflexivity.
    - intros Hle Hpos Hzero.
      assert (Hlt : (max_retries (cfg r) <? attempt) = false) by (apply Z.ltb_ge; exact Hle).
      unfold handle_rate_limit_error, bind, on_self, gets, assign, modify. simpl.
      rewrite Hlt. simpl.
      destruct retry_after as [ra|]; simpl in *.
      + unfold on_clock, zoom, Time.sleep. simpl.
        apply Qltb_ge in Hpos. rewrite Hpos. simpl.
        eexists. split; [reflexivity|]. simpl. repeat split.
      + unfold fpow.
        assert (Hz : Qeq_bool (backoff_multiplier (cfg r)) 0 && (attempt - 1 <? 0) = false).
        { destruct (attempt - 1 <? 0) eqn:E; [|apply andb_false_r].
          apply Z.ltb_lt in E. rewrite andb_true_r.
          destruct (Qeq_bool (backoff_multiplier (cfg r)) 0) eqn:E2; [|done].
          apply Qeq_bool_iff in E2. exfalso. apply Hzero; [done|lia|done]. }
        rewrite Hz. simpl.
        unfold on_clock, zoom, Time.sleep. simpl.
        apply Qltb_ge in Hpos. rewrite Hpos. simpl.
        eexists. split; [reflexivity|]. simpl. repeat split.
Qed.

  (** *** The token bucket stays within its bounds *)

  (** What the operations preserve: the bucket bound, a refill rate that is
      not negative, and a [last_update] that is not in the future. *)
Definition inv (w : world) : Prop :=
    bucket_ok (self w)
    /\ (0 <= requests_per_second (cfg (self w)))%Q
    /\ (last_update (self w) <= Time.now (clock w))%Q.

Lemma elapse_inv (dt : Q) (w : world) :
    (0 <= dt)%Q -> inv w -> inv (mkWorld (self w) (Time.elapse dt (clock w))).
Proof.
    intros Hdt (Hb & Hr & Hl). repeat split; simpl; try apply Hb; try done.
    lra.
Qed.

Lemma refill_bounds (r : t) (elapsed : Q) :
    bucket_ok r -> (0 <= requests_per_second (cfg r))%Q -> (0 <= elapsed)%Q ->
    let tok := Qmin (inject_Z (burst (cfg r)))
                    (tokens r + elapsed * requests_per_second (cfg r)) in
    (0 <= tok)%Q /\ (tok <= inject_Z (burst (cfg r)))%Q.
Proof.
    intros [H0 Hb] Hr He tok. split.
    - apply Q.min_glb; [lra|].
      pose proof (Qmult_le_0_compat _ _ He Hr). lra.
    - apply Q.le_min_l.
Qed.

Lemma wait_if_needed_inv (w : world) : inv w -> inv (snd (wait_if_needed w)).
Proof.
    destruct w as [r [now sl]]. intros (Hb & Hr & Hl). simpl in *.
    assert (He : (0 <= now - last_update r)%Q) by lra.
    destruct (refill_bounds r _ Hb Hr He) as [T0 T1].
    unfold wait_if_needed, bind, on_self, on_clock, zoom, gets, assign, modify,
      Time.time. simpl.
    set (tok := Qmin _ _) in *.
    destruct (Qltb tok 1) eqn:Et; simpl.
    - unfold fdiv. destruct (Qeq_bool (requests_per_second (cfg r)) 0) eqn:Ez; simpl.
      + repeat split; simpl; try done; lra.
      + unfold Time.sleep.
        destruct (Qltb ((1 - tok) / requests_per_second (cfg r)) 0) eqn:Es; simpl.
        * repeat split; simpl; try done; lra.
        * apply Qltb_ge in Es.
          repeat split; simpl; try done; lra.
    - apply Qltb_ge in Et. repeat split; simpl; try done; lra.
Qed.

Lemma handle_rate_limit_error_inv (w : world) ra k :
    inv w -> inv (snd (handle_rate_limit_error ra k w)).
Proof.
    destruct w as [r [now sl]]. intros (Hb & Hr & Hl).
    pose proof Hb as [H0 H1]. simpl in *.
    unfold handle_rate_limit_error, bind, on_self, on_clock, zoom, gets, assign,
      modify, Time.time. simpl.
    destruct (max_retries (cfg r) <? k); simpl; [done|].
    assert (Hsleep : forall d,
      inv (snd (bind (on_clock (Time.sleep d)) (fun _ : unit =>
          bind (assign (fun r0 => set_total_wait_time (total_wait_time r0 + d) r0))
         (fun _ : unit => bind (assign (fun r0 => set_tokens (inject_Z (burst (cfg r0))) r0))
         (fun _ : unit => bind (on_clock Time.time)
         (fun now0 => bind (assign (set_last_update now0)) (fun _ : unit => ret d)))))
         (mkWorld (set_rate_limit_errors (rate_limit_errors r + 1) r) (Time.mk now sl))))).
    { intros d. unfold bind, on_clock, zoom, assign, modify, Time.sleep, Time.time, gets.
      simpl. destruct (Qltb d 0) eqn:Ed; simpl.
      - repeat split; simpl; try done.
      - repeat split; simpl; try done; lra. }
    destruct ra as [ra|]; simpl.
    - apply (Hsleep ra).
    - unfold fpow.
      destruct (Qeq_bool (backoff_multiplier (cfg r)) 0 && (k - 1 <? 0)); simpl.
      + repeat split; simpl; done.
      + apply Hsleep.
Qed.

Lemma reset_inv (w : world) : inv w -> inv (snd (reset w)).
Proof.
    destruct w as [r [now sl]]. intros ([H0 H1] & Hr & Hl). simpl in *.
    repeat split; simpl; try done; lra.
Qed.

Lemma do_call_inv (c : call) (w : world) : inv w -> inv (do_call c w).
Proof.
    intros H. destruct c; unfold do_call;
      [apply wait_if_needed_inv | apply handle_rate_limit_error_inv
      | apply reset_inv]; exact H.
Qed.

Lemma run_calls_inv (cs : list (Q * call)) :
    forall w, Forall (fun p => (0 <= fst p)%Q) cs -> inv w -> inv (run_calls cs w).
Proof.
    induction cs as [|[dt c] cs IH]; intros w Hcs Hw; simpl; [done|].
    inversion Hcs as [|? ? Hdt Hrest]; subst. simpl in Hdt.
    apply IH; [done|]. apply do_call_inv, elapse_inv; done.
Qed.

Lemma init_inv rpm b mult mr ird (c : Time.t) :
    0 <= b -> 0 <= rpm ->
    inv (mkWorld (init rpm b mult mr ird (Time.now c)) c).
Proof.
    intros Hb Hr. repeat split; simpl.
    - change 0%Q with (inject_Z 0). rewrite <- Zle_Qle. done.
    - lra.
    - assert (0 <= inject_Z rpm)%Q.
      { change 0%Q with (inject_Z 0). rewrite <- Zle_Qle. done. }
      apply Qle_shift_div_l; lra.
    - lra.
Qed.

  (** C8. For a limiter built with a capacity [burst >= 0] and a rate
      [requests_per_minute >= 0], [0 <= tokens <= burst] holds after
      construction and after every sequence of [wait_if_needed],
      [handle_rate_limit_error] and [reset] calls (whether they return or
      raise), whatever non-negative time passes before each call. *)
Theorem token_bucket_bound rpm b mult mr ird (c : Time.t)
      (cs : list (Q * call)) :
    0 <= b -> 0 <= rpm ->
    Forall (fun p => (0 <= fst p)%Q) cs ->
    bucket_ok (self (run_calls cs (mkWorld (init rpm b mult mr ird (Time.now c)) c))).
Proof.
    intros Hb Hr Hcs.
    apply (run_calls_inv cs _ Hcs (init_inv rpm b mult mr ird c Hb Hr)).
Qed.

End RateLimiterProps.

(** ** Strings and file names *)

Lemma append_cons (x : ascii) (a b : string) :
  String x a +:+ b = String x (a +:+ b).
Proof. reflexivity. Qed.

Lemma append_nil_l (b : string) : "" +:+ b = b.
Proof. reflexivity. Qed.

Lemma append_assoc (a b c : string) : (a +:+ b) +:+ c = a +:+ (b +:+ c).
Proof.
  induction a as [|x a IH]; [done|]. by rewrite !append_cons, IH.
Qed.

Lemma length_append (a b : string) :
  String.length (a +:+ b) = (String.length a + String.length b)%nat.
Proof.
  induction a as [|x a IH]; [done|]. rewrite append_cons. simpl. by rewrite IH.
Qed.

Lemma append_inj_r (s a b : string) : a +:+ s = b +:+ s -> a = b.
Proof.
  revert b. induction a as [|x a IH]; intros [|y b] H.
  - done.
  - apply (f_equal String.length) in H.
    rewrite append_nil_l, append_cons in H. simpl in H.
    rewrite length_append in H. lia.
  - apply (f_equal String.length) in H.
    rewrite append_nil_l, append_cons in H. simpl in H.
    rewrite length_append in H. lia.
  - rewrite !append_cons in H. injection H as -> H. f_equal. by apply IH.
Qed.

(** Reading a zero-padded decimal numeral back. *)
Definition numeral_value (s : string) : option N :=
  option_map N.of_uint (NilEmpty.uint_of_string s).

Lemma numeral_value_decimal (n : N) : numeral_value (decimal n) = Some n.
Proof.
  unfold numeral_value, decimal.
  rewrite NilEmpty.usu. simpl. f_equal. apply DecimalN.Unsigned.of_to.
Qed.

Lemma numeral_value_zeros (k : nat) (s : string) :
  numeral_value (zeros k +:+ s) = numeral_value s.
Proof.
  induction k as [|k IH]; [done|].
  change (zeros (S k)) with (String "0" (zeros k)). rewrite append_cons.
  unfold numeral_value in *. simpl.
  destruct (NilEmpty.uint_of_string (zeros k +:+ s)) as [d|] eqn:E;
    destruct (NilEmpty.uint_of_string s) as [d'|] eqn:E'; simpl in *;
    try done.
Qed.

Lemma fmt_04d_inj (n m : Z) : 0 <= n -> 0 <= m -> fmt_04d n = fmt_04d m -> n = m.
Proof.
  intros Hn Hm. unfold fmt_04d.
  destruct (Z.ltb_spec n 0); [lia|]. destruct (Z.ltb_spec m 0); [lia|].
  unfold zero_pad. intros E. apply (f_equal numeral_value) in E.
  rewrite !numeral_value_zeros, !numeral_value_decimal in E.
  injection E as E. lia.
Qed.

(** ** The batching writer *)

Lemma ceil_div_nat (n b : nat) :
  (0 < b)%nat ->
  ((n + b - 1) / b = n / b + (if (n mod b =? 0)%nat then 0 else 1))%nat.
Proof.
  intros Hb. pose proof (Nat.div_mod_eq n b) as E.
  pose proof (Nat.mod_upper_bound n b ltac:(lia)) as Hr.
  symmetry. destruct (Nat.eqb_spec (n mod b) 0) as [Hz|Hz].
  - apply (Nat.div_unique _ _ _ (b - 1)); nia.
  - apply (Nat.div_unique _ _ _ (n mod b - 1)); nia.
Qed.

Module OutputWriterProps.
Import OutputWriter.

Section Props.
Variable json_dumps : json_opts -> value -> string.
Variable gzip : string -> string.
Variable storage_ok : string -> bool.
Hypothesis storage_accepts : forall p, storage_ok p = true.

Variables (p : string) (m : storage_mode) (B : Z) (cmp : bool)
              (dir id : string).

Definition st (cb : list value) (c t : Z) (bf : list string) : OutputWriter.t :=
      mk p m B cmp dir id cb c t bf.
Definition name (n : Z) : string := batch_filename (st [] 0 0 []) n.
Definition path (n : Z) : string := path_of (st [] 0 0 []) (name n).
Definition mpath : string :=
      path_of (st [] 0 0 []) (manifest_filename (st [] 0 0 [])).
Definition enc (batch : list value) : string :=
      if cmp then gzip (ndjson json_dumps batch) else ndjson json_dumps batch.

    (** The storage after the first [q] full slices of [all] went to the
        files numbered [c+1 .. c+q]. *)
Fixpoint stored (c : Z) (b : nat) (all : list value) (q : nat)
        (fs : gmap string string) : gmap string string :=
      match q with
      | O => fs
      | S q' => <[path (c + 1 + Z.of_nat q') := enc (take b (drop (q' * b) all))]>
                  (stored c b all q' fs)
      end.

Lemma name_inj (i j : Z) : 0 <= i -> 0 <= j -> name i = name j -> i = j.
Proof.
      intros Hi Hj. unfold name, batch_filename. simpl.
      assert (Hcore : p +:+ "_ads_" +:+ id +:+ "_batch_" +:+ fmt_04d i +:+ ".ndjson"
                      = p +:+ "_ads_" +:+ id +:+ "_batch_" +:+ fmt_04d j +:+ ".ndjson"
                      -> i = j).
      { intros H. do 4 apply String.app_inj in H.
        apply append_inj_r in H. by apply fmt_04d_inj. }
      destruct cmp; [|done]. intros H. apply append_inj_r in H. auto.
Qed.

Lemma path_inj (i j : Z) : 0 <= i -> 0 <= j -> path i = path j -> i = j.
Proof.
      intros Hi Hj H. unfold path, path_of in H. simpl in H.
      do 2 apply String.app_inj in H. by apply name_inj.
Qed.

Lemma mpath_not_batch (i : Z) : mpath <> path i.
Proof.
      unfold mpath, path, path_of, name, manifest_filename, batch_filename.
      simpl. intros H. do 2 apply String.app_inj in H.
      destruct cmp.
      - rewrite !append_assoc in H. do 3 apply String.app_inj in H.
        cbv beta iota delta [append] in H. discriminate.
      - do 3 apply String.app_inj in H.
        cbv beta iota delta [append] in H. discriminate.
Qed.

Lemma flush_batch_empty c t bf fs :
      flush_batch json_dumps gzip storage_ok (mkWorld (st [] c t bf) fs)
      = (Return None, mkWorld (st [] c t bf) fs).
Proof. reflexivity. Qed.

Lemma flush_batch_nonempty cb c t bf fs :
      cb <> [] ->
      flush_batch json_dumps gzip storage_ok (mkWorld (st cb c t bf) fs)
      = (Return (Some (name (c + 1))),
         mkWorld (st [] (c + 1) t (bf ++ [name (c + 1)]))
                 (<[path (c + 1) := enc cb]> fs)).
Proof.
      intros Hne. destruct cb as [|r cb]; [done|].
      unfold flush_batch, bind, on_self, assign, store, gets, modify. simpl.
      rewrite storage_accepts. reflexivity.
Qed.

Lemma write_record_spec cb c t bf fs r :
      write_record json_dumps gzip storage_ok r (mkWorld (st cb c t bf) fs)
      = (Return tt,
         if B <=? Z.of_nat (length (cb ++ [r]))
         then mkWorld (st [] (c + 1) (t + 1) (bf ++ [name (c + 1)]))
                      (<[path (c + 1) := enc (cb ++ [r])]> fs)
         else mkWorld (st (cb ++ [r]) c (t + 1) bf) fs).
Proof.
      unfold write_record, flush_batch, bind, on_self, assign, store, gets,
        modify, name, path, enc, st. simpl.
      destruct (B <=? Z.of_nat (length (cb ++ [r]))) eqn:E; [|reflexivity].
      destruct (cb ++ [r]) as [|x l] eqn:El; [by destruct cb|].
      simpl. rewrite storage_accepts. reflexivity.
Qed.

Lemma stored_shift q : forall c b all first rest fs,
      length first = b -> all = first ++ rest ->
      stored c b all (S q) fs
      = stored (c + 1) b rest q (<[path (c + 1) := enc first]> fs).
Proof.
      induction q as [|q IH]; intros c b all first rest fs Hlen ->.
      - simpl. rewrite drop_0, take_app_length' by done.
        replace (c + 1 + Z.of_nat 0) with (c + 1) by lia. done.
      - change (stored c b (first ++ rest) (S (S q)) fs)
          with (<[path (c + 1 + Z.of_nat (S q)) :=
                    enc (take b (drop (S q * b) (first ++ rest)))]>
                  (stored c b (first ++ rest) (S q) fs)).
        rewrite (IH c b (first ++ rest) first rest fs Hlen eq_refl).
        simpl stored at 2.
        replace (c + 1 + Z.of_nat (S q)) with (c + 1 + 1 + Z.of_nat q) by lia.
        replace (S q * b)%nat with (b + q * b)%nat by lia.
        rewrite drop_app_add'; done.
Qed.

Lemma write_records_spec rs : forall cb c t bf fs,
      1 <= B -> Z.of_nat (length cb) < B ->
      let b := Z.to_nat B in
      let q := (length (cb ++ rs) / b)%nat in
      write_records json_dumps gzip storage_ok rs (mkWorld (st cb c t bf) fs)
      = (Return tt,
         mkWorld (st (drop (q * b) (cb ++ rs)) (c + Z.of_nat q)
                     (t + Z.of_nat (length rs))
                     (bf ++ map (fun i => name (c + 1 + Z.of_nat i)) (seq 0 q)))
                 (stored c b (cb ++ rs) q fs)).
Proof.
      induction rs as [|r rs IH]; intros cb c t bf fs HB Hcb b q.
      - subst q. rewrite app_nil_r. rewrite Nat.div_small by (subst b; lia).
        simpl. rewrite Z.add_0_r, Z.add_0_r, app_nil_r. reflexivity.
      - simpl write_records. unfold bind. rewrite write_record_spec.
        assert (Hlen1 : length (cb ++ [r]) = S (length cb))
          by (rewrite length_app; simpl; lia).
        destruct (Z.leb_spec B (Z.of_nat (length (cb ++ [r])))) as [Hfull|Hroom].
        + assert (Hb : length (cb ++ [r]) = b) by (subst b; lia).
          rewrite (IH [] (c + 1) (t + 1) (bf ++ [name (c + 1)]) _ HB)
            by (simpl; lia).
          simpl app at 1 2 3.
          assert (Hall : cb ++ r :: rs = (cb ++ [r]) ++ rs)
            by (rewrite <- app_assoc; reflexivity).
          assert (Hq : q = S (length rs / b)).
          { subst q. rewrite Hall, length_app, Hb.
            replace (b + length rs)%nat with (1 * b + length rs)%nat by lia.
            rewrite Nat.div_add_l by (subst b; lia). lia. }
          fold b. rewrite Hq. set (q' := (length rs / b)%nat).
          f_equal. f_equal.
          * unfold st. f_equal.
            -- rewrite Hall. replace (S q' * b)%nat with (b + q' * b)%nat by lia.
               rewrite drop_app_add'; done.
            -- lia.
            -- simpl length. lia.
            -- rewrite <- app_assoc. f_equal. simpl. f_equal.
               ++ f_equal. lia.
               ++ rewrite <- seq_shift, map_map. apply map_ext. intros i.
                  f_equal. lia.
          * symmetry. apply stored_shift; done.
        + rewrite (IH (cb ++ [r]) c (t + 1) bf fs HB) by lia.
          assert (Hall : (cb ++ [r]) ++ rs = cb ++ r :: rs)
            by (rewrite <- app_assoc; reflexivity).
          fold b. rewrite Hall. fold q. f_equal. f_equal.
          unfold st. f_equal. simpl length. lia.
Qed.

Lemma stored_frame c b all q fs x :
      (forall i, (i < q)%nat -> x <> path (c + 1 + Z.of_nat i)) ->
      stored c b all q fs !! x = fs !! x.
Proof.
      induction q as [|q IH]; intros Hx; simpl; [done|].
      rewrite lookup_insert_ne by (apply not_eq_sym, Hx; lia).
      apply IH. intros i Hi. apply Hx. lia.
Qed.

Lemma stored_lookup c b all q fs i :
      0 <= c -> (i < q)%nat ->
      stored c b all q fs !! path (c + 1 + Z.of_nat i)
      = Some (enc (take b (drop (i * b) all))).
Proof.
      intros Hc. induction q as [|q IH]; intros Hi; [lia|]. simpl.
      destruct (decide (i = q)) as [->|Hne].
      - by rewrite lookup_insert_eq.
      - rewrite lookup_insert_ne; [apply IH; lia|].
        intros E. apply path_inj in E; lia.
Qed.

Definition names (k : nat) : list string :=
      map (fun i => name (Z.of_nat (S i))) (seq 0 k).

Lemma names_NoDup k : NoDup (names k).
Proof.
      unfold names. apply NoDup_fmap_2_strong; [|apply NoDup_seq].
      intros i j _ _ E. apply name_inj in E; lia.
Qed.

    (** The whole run: every record written, then [finalize]. *)
Definition run (rs : list value) (completed : string) : M world dict :=
      write_records json_dumps gzip storage_ok rs ;;
      finalize json_dumps gzip storage_ok completed.

Lemma run_spec rs completed fs0 :
      1 <= B ->
      let b := Z.to_nat B in
      let k := ((length rs + b - 1) / b)%nat in
      let final := st [] (Z.of_nat k) (Z.of_nat (length rs)) (names k) in
      run rs completed (mkWorld (init p m B cmp dir id) fs0)
      = (Return (manifest_of final completed),
         mkWorld final
           (<[mpath := json_dumps {| indent := Some 2%nat; ensure_ascii := true |}
                         (VDict (manifest_of final completed))]>
              (stored 0 b rs k fs0))).
Proof.
      intros HB b k final. unfold run, bind.
      change (init p m B cmp dir id) with (st [] 0 0 []).
      rewrite write_records_spec by (simpl; lia). fold b. simpl app.
      set (q := (length rs / b)%nat).
      assert (Hb : (0 < b)%nat) by (subst b; lia).
      pose proof (Nat.div_mod_eq (length rs) b) as Hdm. fold q in Hdm.
      assert (Hk : k = (q + (if (length rs mod b =? 0)%nat then 0 else 1))%nat)
        by (apply ceil_div_nat; done).
      assert (Hrem : length (drop (q * b) rs) = (length rs mod b)%nat)
        by (rewrite length_drop; lia).
      assert (Hnames : map (fun i => name (0 + 1 + Z.of_nat i)) (seq 0 q) = names q).
      { unfold names. apply map_ext. intros i. f_equal. lia. }
      rewrite Hnames.
      unfold finalize, bind.
      destruct (drop (q * b) rs) as [|x rest] eqn:Erem.
      - simpl in Hrem. rewrite <- Hrem in Hk. simpl in Hk.
        assert (k = q) as Ekq by lia.
        rewrite flush_batch_empty.
        unfold on_self, store, gets, modify. simpl.
        rewrite storage_accepts. subst final. rewrite Ekq.
        replace (0 + Z.of_nat q) with (Z.of_nat q) by lia.
        replace (0 + Z.of_nat (length rs)) with (Z.of_nat (length rs)) by lia.
        reflexivity.
      - assert (Hr0 : (length rs mod b)%nat <> 0%nat) by (simpl in Hrem; lia).
        destruct (Nat.eqb_spec (length rs mod b) 0) as [?|_]; [done|].
        assert (k = S q) as Ekq by lia.
        rewrite flush_batch_nonempty by done.
        unfold on_self, store, gets, modify. simpl.
        rewrite storage_accepts. subst final. rewrite Ekq.
        assert (Etake : take b (drop (q * b) rs) = x :: rest).
        { rewrite Erem. apply take_ge.
          pose proof (Nat.mod_upper_bound (length rs) b). lia. }
        simpl stored. rewrite Etake.
        replace (0 + Z.of_nat q + 1) with (Z.of_nat (S q)) by lia.
        replace (0 + 1 + Z.of_nat q) with (Z.of_nat (S q)) by lia.
        replace (0 + Z.of_nat (length rs)) with (Z.of_nat (length rs)) by lia.
        assert (Hn : names q ++ [name (Z.of_nat (S q))] = names (S q)).
        { unfold names. rewrite seq_S, map_app. reflexivity. }
        rewrite Hn. reflexivity.
Qed.

Lemma slice_length (rs : list value) (b i : nat) :
      (0 < b)%nat ->
      let k := ((length rs + b - 1) / b)%nat in
      (i < k)%nat ->
      length (take b (drop (i * b) rs))
      = if decide (S i < k)%nat then b
        else if (length rs mod b =? 0)%nat then b else (length rs mod b)%nat.
Proof.
      intros Hb k Hi. rewrite length_take, length_drop.
      pose proof (Nat.div_mod_eq (length rs) b) as Hdm.
      pose proof (Nat.mod_upper_bound (length rs) b ltac:(lia)) as Hr.
      assert (Hk : k = (length rs / b
                        + (if (length rs mod b =? 0)%nat then 0 else 1))%nat)
        by (apply ceil_div_nat; done).
      destruct (Nat.eqb_spec (length rs mod b) 0) as [Hz|Hz];
        destruct (decide (S i < k)%nat); nia.
Qed.

    (** C2. Writing the [N] records [rs] one at a time into a fresh writer
        of batch size [B >= 1] and then calling [finalize()], on a storage
        that accepts the writes, returns the manifest and leaves exactly
        [ceil(N/B)] batch files, numbered from 1, with pairwise distinct
        names: file [i+1] holds the records [i*B .. i*B+B-1] in order, so
        [B] records each, except the last, which holds [N mod B] (or [B]
        when [B] divides [N]); no other path but the manifest's changes,
        the buffer is empty, and the manifest (also written to its file)
        has [total_records = N] and [total_batches = ceil(N/B)]. *)
Theorem batching_exactness (rs : list value) (completed : string)
        (fs0 : gmap string string) :
      1 <= B ->
      let w0 := init p m B cmp dir id in
      let b := Z.to_nat B in
      let N := length rs in
      let k := ((N + b - 1) / b)%nat in
      exists w' manifest,
        run rs completed (mkWorld w0 fs0) = (Return manifest, w')
        /\ batch_files (self w')
           = map (fun i => batch_filename w0 (Z.of_nat (S i))) (seq 0 k)
        /\ NoDup (batch_files (self w'))
        /\ (forall i, (i < k)%nat ->
              files w' !! path_of w0 (batch_filename w0 (Z.of_nat (S i)))
              = Some (let content := ndjson json_dumps (take b (drop (i * b) rs)) in
                      if cmp then gzip content else content)
              /\ length (take b (drop (i * b) rs))
                 = if decide (S i < k)%nat then b
                   else if (N mod b =? 0)%nat then b else (N mod b)%nat)
        /\ (forall x, x <> path_of w0 (manifest_filename w0) ->
              (forall i, (i < k)%nat ->
                 x <> path_of w0 (batch_filename w0 (Z.of_nat (S i)))) ->
              files w' !! x = fs0 !! x)
        /\ files w' !! path_of w0 (manifest_filename w0)
           = Some (json_dumps {| indent := Some 2%nat; ensure_ascii := true |}
                              (VDict manifest))
        /\ current_batch (self w') = []
        /\ dict_lookup "total_records" manifest = Some (VInt (Z.of_nat N))
        /\ dict_lookup "total_batches" manifest = Some (VInt (Z.of_nat k))
        /\ dict_lookup "batch_files" manifest
           = Some (VList (map VStr (batch_files (self w')))).
Proof.
      intros HB w0 b N k.
      assert (Hb : (0 < b)%nat) by (subst b; lia).
      eexists _, _. split; [apply run_spec; exact HB|].
      fold b N k. simpl self. simpl files. simpl batch_files. simpl current_batch.
      split; [reflexivity|]. split; [apply names_NoDup|].
      split; [|split; [|split; [|repeat split]]].
      - intros i Hi. split; [|by apply slice_length].
        change (path_of w0 (batch_filename w0 (Z.of_nat (S i))))
          with (path (Z.of_nat (S i))).
        rewrite lookup_insert_ne by apply mpath_not_batch.
        replace (Z.of_nat (S i)) with (0 + 1 + Z.of_nat i) by lia.
        rewrite stored_lookup by (done || lia). reflexivity.
      - intros x Hm Hx.
        rewrite lookup_insert_ne by (apply not_eq_sym, Hm).
        apply stored_frame. intros i Hi.
        replace (0 + 1 + Z.of_nat i) with (Z.of_nat (S i)) by lia.
        by apply Hx.
      - apply lookup_insert_eq.
Qed.

End Props.
End OutputWriterProps.

(** ** Dictionaries *)

Lemma dict_lookup_set_eq (k : string) (v : value) (d : dict) :
  dict_lookup k (dict_set k v d) = Some v.
Proof.
  induction d as [|[k' v'] d IH]; simpl.
  - by rewrite String.eqb_refl.
  - destruct (String.eqb_spec k k') as [->|Hne]; simpl.
    + by rewrite String.eqb_refl.
    + destruct (String.eqb_spec k k'); [done|]. exact IH.
Qed.

Lemma dict_lookup_set_ne (k k' : string) (v : value) (d : dict) :
  k <> k' -> dict_lookup k' (dict_set k v d) = dict_lookup k' d.
Proof.
  intros Hne. induction d as [|[k0 v0] d IH]; simpl.
  - destruct (String.eqb_spec k' k); [congruence|done].
  - destruct (String.eqb_spec k k0) as [->|Hk]; simpl.
    + destruct (String.eqb_spec k' k0); [congruence|done].
    + destruct (String.eqb_spec k' k0); [done|]. exact IH.
Qed.

Lemma dict_get_set_ne (k k' : string) (v : value) (d : dict) :
  k <> k' -> dict_get k' (dict_set k v d) = dict_get k' d.
Proof.
  intros Hne. unfold dict_get, dict_get_default.
  by rewrite dict_lookup_set_ne.
Qed.

(** ** The checkpoint store *)

Module CheckpointProps.
Import CheckpointManager.

(** A checkpoint whose cursor is a string, null or absent. *)
Definition cursor_ok (c : dict) : Prop :=
  match dict_get "cursor" c with
  | VNone | VStr _ => True
  | _ => False
  end.

Section Props.
Variable json_loads : string -> option value.
Variable json_dumps : json_opts -> value -> string.
Variable isoformat : Q -> string.
Variable storage_ok : string -> bool.
Variable self : t.

(** What [save] writes for [data] when the clock reads [now]. *)
Definition stamped (now : Q) (data : dict) : dict :=
  dict_set "platform" (VStr (platform self))
    (dict_set "last_update" (VStr (isoformat now +:+ "Z")) data).

Definition document (now : Q) (data : dict) : string :=
  json_dumps {| indent := Some 2%nat; ensure_ascii := true |}
             (VDict (stamped now data)).

Lemma stamped_other (now : Q) (c : dict) (k : string) :
  k <> "last_update" -> k <> "platform" ->
  dict_lookup k (stamped now c) = dict_lookup k c.
Proof.
  intros H1 H2. unfold stamped.
  rewrite !dict_lookup_set_ne by congruence. reflexivity.
Qed.

Ltac unfold_load :=
  unfold load, json_load, decode_utf8, get_attr, read_file;
  unfold try_except, bind, gets, ret, raise.

(** A checkpoint file that is valid UTF-8 but not JSON reads as absent. *)
Lemma load_invalid_json_absent (w : world) (bytes : string) :
  files w !! checkpoint_path self = Some bytes ->
  is_Some (utf8_decode bytes) ->
  json_loads bytes = None ->
  load json_loads self w = (Return None, w).
Proof.
  intros Hf [cps Hd] Hj. unfold_load.
  rewrite Hf, Hd. simpl. rewrite Hj. reflexivity.
Qed.

(** No checkpoint file: absent. *)
Lemma load_missing_absent (w : world) :
  files w !! checkpoint_path self = None ->
  load json_loads self w = (Return None, w).
Proof.
  intros Hf. unfold_load. by rewrite Hf.
Qed.

(** A checkpoint file that holds a JSON object reads as that object. *)
Lemma load_object (w : world) (bytes : string) (d : dict) :
  files w !! checkpoint_path self = Some bytes ->
  is_Some (utf8_decode bytes) ->
  json_loads bytes = Some (VDict d) ->
  load json_loads self w = (Return (Some (VDict d)), w).
Proof.
  intros Hf [cps Hd] Hj. unfold_load.
  rewrite Hf, Hd. simpl. rewrite Hj. reflexivity.
Qed.

(** A checkpoint file that is not valid UTF-8 makes [load] raise: the
    UnicodeDecodeError is not a JSONDecodeError, so the general handler
    turns it into a CheckpointError. *)
Lemma load_undecodable_raises (w : world) (bytes : string) :
  files w !! checkpoint_path self = Some bytes ->
  utf8_decode bytes = None ->
  load json_loads self w = (Raise CheckpointError, w).
Proof.
  intros Hf Hd. unfold_load.
  rewrite Hf, Hd. reflexivity.
Qed.

(** JSON that is not an object makes [load] raise too: the debug line calls
    [data.get]. *)
Lemma load_non_object_raises (w : world) (bytes : string) (v : value) :
  files w !! checkpoint_path self = Some bytes ->
  is_Some (utf8_decode bytes) ->
  json_loads bytes = Some v ->
  (forall d, v <> VDict d) ->
  load json_loads self w = (Raise CheckpointError, w).
Proof.
  intros Hf [cps Hd] Hj Hv. unfold_load.
  rewrite Hf, Hd. simpl. rewrite Hj.
  destruct v; try reflexivity. by destruct (Hv d).
Qed.

(** C3, at the input where the code departs from it: the checkpoint file
    holds the single byte 0xFF.  [load] does not return absent, it raises
    CheckpointError, whatever the JSON parser does. *)
Theorem load_invalid_utf8_raises (fs : gmap string string) (c : Time.t) :
  let w := mkWorld (<[checkpoint_path self := byte 255]> fs) c in
  load json_loads self w = (Raise CheckpointError, w).
Proof.
  intros w. apply (load_undecodable_raises w (byte 255)).
  - apply lookup_insert_eq.
  - reflexivity.
Qed.

(** C5, as the code has it.  For a checkpoint [c] whose cursor is a string,
    null or absent, on a storage that accepts the write, and when the JSON
    codec gives back the document it wrote: [save(c)] returns and [load()]
    then returns [c] with [last_update] set to the time of the save and
    [platform] set to the manager's platform; every other field is the one
    of [c]. *)
Theorem save_load_roundtrip (w : world) (c : dict) :
  let now := Time.now (clock w) in
  storage_ok (checkpoint_path self +:+ ".tmp") = true ->
  is_Some (utf8_decode (document now c)) ->
  json_loads (document now c) = Some (VDict (stamped now c)) ->
  cursor_ok c ->
  exists w',
    save json_dumps isoformat storage_ok self c w = (Return tt, w')
    /\ load json_loads self w' = (Return (Some (VDict (stamped now c))), w')
    /\ dict_lookup "last_update" (stamped now c)
       = Some (VStr (isoformat now +:+ "Z"))
    /\ dict_lookup "platform" (stamped now c) = Some (VStr (platform self))
    /\ (forall k, k <> "last_update" -> k <> "platform" ->
          dict_lookup k (stamped now c) = dict_lookup k c).
Proof.
  intros now Hok Hutf Hjson Hcur.
  set (path := checkpoint_path self).
  set (w' := mkWorld (<[path := document now c]>
                        (delete (path +:+ ".tmp")
                           (<[path +:+ ".tmp" := document now c]> (files w))))
                     (clock w)).
  exists w'. split; [|split; [|split; [|split]]].
  - unfold save, write_file, replace_file, read_file.
    unfold try_except, bind, gets, modify.
    fold now. fold (stamped now c). fold (document now c). fold path.
    fold path in Hok. rewrite Hok. simpl. rewrite lookup_insert_eq. simpl.
    assert (Hc : dict_get "cursor" (stamped now c) = dict_get "cursor" c).
    { unfold stamped. rewrite !dict_get_set_ne by done. reflexivity. }
    rewrite Hc. unfold cursor_ok in Hcur.
    assert (Hd : dict_get_default "cursor" (VStr "none") (stamped now c)
                 = match dict_lookup "cursor" c with
                   | Some v => v | None => VStr "none" end).
    { unfold dict_get_default, stamped.
      rewrite !dict_lookup_set_ne by done. reflexivity. }
    rewrite Hd. unfold dict_get, dict_get_default in Hcur |- *.
    destruct (dict_lookup "cursor" c) as [[]|]; simpl in *; try done.
    destruct (negb _); reflexivity.
  - apply (load_object w' (document now c)); [apply lookup_insert_eq|done|done].
  - unfold stamped. rewrite dict_lookup_set_ne by done.
    apply dict_lookup_set_eq.
  - apply dict_lookup_set_eq.
  - intros k. apply stamped_other.
Qed.

End Props.
End CheckpointProps.

(** ** Validation and range parsing *)

Lemma Qltb_irrefl (q : Q) : Qltb q q = false.
Proof. apply Qltb_ge. apply Qle_refl. Qed.

Lemma Qeq_bool_refl (q : Q) : Qeq_bool q q = true.
Proof. apply Qeq_bool_iff. reflexivity. Qed.

Lemma float_ltb_irrefl (x : pyfloat) : float_ltb x x = false.
Proof. destruct x as [q|[]|]; simpl; [apply Qltb_irrefl|done..]. Qed.

(** A float equals itself unless it is NaN. *)
Lemma float_eqb_refl (x : pyfloat) : float_eqb x x = true <-> x <> NaN.
Proof.
  destruct x as [q|[]|]; simpl; try done.
  by rewrite Qeq_bool_refl.
Qed.

Module ValidationProps.
Import Validation.

Section Props.
Variable py_str : value -> string.
Variable py_float : string -> option pyfloat.
Variable fromisoformat : string -> bool.

Definition missing (record : dict) (field : string) : bool :=
  none_or_blank (dict_get field record).

Definition missing_message (field : string) : string :=
  "Missing or empty required field: " +:+ field.

Lemma required_fields_spec (record : dict) (fields : list string) :
  _validate_required_fields record fields
  = match find (missing record) fields with
    | Some field => (false, Some (missing_message field))
    | None => (true, None)
    end.
Proof.
  induction fields as [|f fields IH]; simpl; [done|].
  unfold missing at 1. destruct (none_or_blank (dict_get f record)); [done|].
  exact IH.
Qed.

Lemma check_dates_invalid (record : dict) (fields : list string) (o : outcome) :
  check_dates py_str fromisoformat record fields = Some o ->
  exists reason, o = (false, Some reason).
Proof.
  induction fields as [|f fields IH]; simpl; [done|].
  destruct (check_date py_str fromisoformat record f) as [r|] eqn:E.
  - intros [= <-]. unfold check_date in E.
    destruct (truthy (dict_get f record)); [|done].
    destruct (dict_get f record); try (injection E as <-; eauto).
    destruct (fromisoformat _); [done|]. injection E as <-; eauto.
  - exact IH.
Qed.

(** C9, as the code has it.  (1) When a required field ([ad_id],
    [platform], [advertiser_name]) is missing, null or a blank string,
    [validate_record] returns [is_valid = False] with the reason
    ["Missing or empty required field: <f>"], where [f] is the first such
    field in that order.  (2) When [spend_min] and [spend_max] are both
    present and [spend_min > spend_max], it returns [is_valid = False].
    The impressions bounds are not compared. *)
Theorem validation_correctness (record : dict) :
  (forall field,
     In field required_fields -> missing record field = true ->
     exists first,
       find (missing record) required_fields = Some first
       /\ validate_record py_str fromisoformat record
          = Return (false, Some (missing_message first)))
  /\ (is_none (dict_get "spend_min" record) = false ->
      is_none (dict_get "spend_max" record) = false ->
      py_gt (dict_get "spend_min" record) (dict_get "spend_max" record)
        = Return true ->
      exists reason,
        validate_record py_str fromisoformat record = Return (false, Some reason)).
Proof.
  split.
  - intros field Hin Hmiss.
    destruct (find (missing record) required_fields) as [first|] eqn:Efind.
    + exists first. split; [done|].
      unfold validate_record. rewrite required_fields_spec, Efind. reflexivity.
    + apply find_none with (x := field) in Efind; [congruence|done].
  - intros Hmin Hmax Hgt. unfold validate_record.
    set (dates := check_dates py_str fromisoformat record _).
    assert (Hdates : forall o, dates = Some o -> exists reason, o = (false, Some reason))
      by (intros o; apply check_dates_invalid).
    clearbody dates.
    rewrite required_fields_spec.
    destruct (find (missing record) required_fields) as [first|]; simpl; [eauto|].
    destruct (negb (truthy _) || isblank _); [eauto|].
    destruct (negb (py_eq _ _)); [eauto|].
    destruct dates as [o|] eqn:Ed.
    + destruct (Hdates o eq_refl) as [reason ->]. eauto.
    + unfold check_spend. rewrite Hmin, Hmax, Hgt. simpl. eauto.
Qed.

(** The required-field reason names the first missing field only. *)
Lemma first_missing_reason (record : dict) (first : string) :
  find (missing record) required_fields = Some first ->
  validate_record py_str fromisoformat record
  = Return (false, Some (missing_message first)).
Proof.
  intros E. unfold validate_record. by rewrite required_fields_spec, E.
Qed.

(** [_parse_range] on a range with a lower bound and no upper bound. *)
Lemma parse_range_open_ended (d : dict) :
  is_none (dict_get "lower_bound" d) = false ->
  is_none (dict_get "upper_bound" d) = true ->
  _parse_range py_str py_float (VDict d)
  = match py_float (replace_char "," "" (py_str (dict_get "lower_bound" d))) with
    | Some q => [("min", VFloat q); ("max", VFloat q)]
    | None => [("min", VNone); ("max", VNone)]
    end.
Proof.
  intros Hl Hu. unfold _parse_range.
  destruct d as [|kv d]; [done|]. simpl truthy. simpl negb.
  cbv beta iota. unfold try_except, bind, parse_bound, modify.
  rewrite Hl, Hu. simpl.
  destruct (py_float _); reflexivity.
Qed.

Variable _extract_ad_content : dict -> result value.
Variable _extract_funding_entity : dict -> result value.
Variable _build_targeting_data : dict -> result value.
Variable _parse_audience_size : value -> result value.
Variable extracted_at : string.
Variable api_version : string.

(** A raw range that has a lower bound and no upper bound. *)
Definition open_ended (range_data : value) : Prop :=
  exists d, range_data = VDict d
            /\ is_none (dict_get "lower_bound" d) = false
            /\ is_none (dict_get "upper_bound" d) = true.

Lemma parse_range_open_ended_equal (range_data : value) :
  open_ended range_data ->
  let r := _parse_range py_str py_float range_data in
  dict_get "max" r = dict_get "min" r
  /\ (dict_get "min" r = VNone \/ exists q, dict_get "min" r = VFloat q).
Proof.
  intros (d & -> & Hl & Hu) r. subst r.
  rewrite parse_range_open_ended by done.
  destruct (py_float _); simpl; eauto.
Qed.

Lemma transform_ad_fields (raw_ad rec : dict) :
  transform_ad py_str py_float _extract_ad_content _extract_funding_entity
               _build_targeting_data _parse_audience_size extracted_at
               api_version (VDict raw_ad) = Return rec ->
  dict_get "spend_min" rec
    = dict_get "min" (_parse_range py_str py_float
                        (dict_get_default "spend" (VDict []) raw_ad))
  /\ dict_get "spend_max" rec
     = dict_get "max" (_parse_range py_str py_float
                         (dict_get_default "spend" (VDict []) raw_ad))
  /\ dict_get "impressions_min" rec
     = dict_get "min" (_parse_range py_str py_float
                         (dict_get_default "impressions" (VDict []) raw_ad))
  /\ dict_get "impressions_max" rec
     = dict_get "max" (_parse_range py_str py_float
                         (dict_get_default "impressions" (VDict []) raw_ad)).
Proof.
  unfold transform_ad, bind, lift, ret, raise.
  destruct (_extract_ad_content raw_ad); [|done].
  destruct (_build_targeting_data raw_ad); [|done].
  destruct (_extract_funding_entity raw_ad); [|done].
  destruct (_parse_audience_size _); [|done].
  simpl. intros [= <-]. repeat split.
Qed.

(** C10, as the code has it.  For a raw range that has a lower bound and no
    upper bound, [_parse_range] sets [min] and [max] both to the float the
    lower bound parses to, and leaves both null when it does not parse.  So
    in a transformed record an open-ended spend (impressions) range has the
    same value as [spend_min] and [spend_max] ([impressions_min] and
    [impressions_max]), and the spend check of [validate_record] does not
    fail on it; the two compare equal with [==] exactly when that value is
    not NaN, which is what a lower bound such as ["nan"] parses to. *)
Theorem open_ended_range_min_equals_max (raw_ad rec : dict) :
  transform_ad py_str py_float _extract_ad_content _extract_funding_entity
               _build_targeting_data _parse_audience_size extracted_at
               api_version (VDict raw_ad) = Return rec ->
  (forall d,
     is_none (dict_get "lower_bound" d) = false ->
     is_none (dict_get "upper_bound" d) = true ->
     _parse_range py_str py_float (VDict d)
     = match py_float (replace_char "," "" (py_str (dict_get "lower_bound" d))) with
       | Some q => [("min", VFloat q); ("max", VFloat q)]
       | None => [("min", VNone); ("max", VNone)]
       end)
  /\ (open_ended (dict_get_default "spend" (VDict []) raw_ad) ->
      dict_get "spend_max" rec = dict_get "spend_min" rec
      /\ (py_eq (dict_get "spend_min" rec) (dict_get "spend_max" rec) = true
          <-> dict_get "spend_min" rec <> VFloat NaN)
      /\ check_spend py_str rec = Return None)
  /\ (open_ended (dict_get_default "impressions" (VDict []) raw_ad) ->
      dict_get "impressions_max" rec = dict_get "impressions_min" rec
      /\ (py_eq (dict_get "impressions_min" rec) (dict_get "impressions_max" rec)
          = true
          <-> dict_get "impressions_min" rec <> VFloat NaN)).
Proof.
  intros Ht. apply transform_ad_fields in Ht as (Hsmin & Hsmax & Himin & Himax).
  assert (Heqb : forall v, (v = VNone \/ exists x, v = VFloat x) ->
                           py_eq v v = true <-> v <> VFloat NaN).
  { intros v [->|[x ->]]; simpl; [done|].
    rewrite float_eqb_refl. split; [congruence|].
    intros H E. apply H. by rewrite E. }
  split; [apply parse_range_open_ended|]. split.
  - intros Hopen.
    destruct (parse_range_open_ended_equal _ Hopen) as [Heq Hcases].
    unfold check_spend. rewrite Hsmin, Hsmax, Heq.
    split; [done|]. split; [by apply Heqb|].
    destruct Hcases as [->|[x ->]]; simpl; [done|].
    by rewrite float_ltb_irrefl.
  - intros Hopen.
    destruct (parse_range_open_ended_equal _ Hopen) as [Heq Hcases].
    rewrite Himin, Himax, Heq. split; [done|]. by apply Heqb.
Qed.

End Props.
End ValidationProps.

(** ** Outcomes of the limiter calls *)

Module RateLimiterOutcomes.
Import RateLimiter.

Lemma wait_if_needed_outcome (w : world) :
  cfg (self (snd (wait_if_needed w))) = cfg (self w)
  /\ (fst (wait_if_needed w) = Raise ZeroDivisionError
      \/ fst (wait_if_needed w) = Raise ValueError
      \/ exists x, fst (wait_if_needed w) = Return x)
  /\ ((0 < requests_per_second (cfg (self w)))%Q ->
      exists x, fst (wait_if_needed w) = Return x).
Proof.
  destruct w as [r [now sl]].
  unfold wait_if_needed, bind, on_self, on_clock, zoom, gets, assign, modify,
    Time.time. simpl.
  set (tok := Qmin _ _).
  destruct (Qltb tok 1) eqn:Et; simpl;
    [|split; [done|]; split; [right; right; eauto|eauto]].
  unfold fdiv. destruct (Qeq_bool (requests_per_second (cfg r)) 0) eqn:Ez; simpl.
  - split; [done|]. split; [by left|]. intros Hpos.
    apply Qeq_bool_iff in Ez. rewrite Ez in Hpos. by apply Qlt_irrefl in Hpos.
  - unfold Time.sleep.
    destruct (Qltb ((1 - tok) / requests_per_second (cfg r)) 0) eqn:Es; simpl.
    + split; [done|]. split; [by right; left|]. intros Hpos.
      apply Qltb_lt in Es. apply Qltb_lt in Et. exfalso.
      apply (Qlt_not_le _ _ Es). apply Qle_shift_div_l; [done|]. lra.
    + split; [done|]; split; [right; right; eauto|eauto].
Qed.

Lemma handle_rate_limit_error_outcome (w : world) (ra : Q) (k : Z) :
  cfg (self (snd (handle_rate_limit_error (Some ra) k w))) = cfg (self w)
  /\ (fst (handle_rate_limit_error (Some ra) k w) = Raise RateLimitError
      \/ fst (handle_rate_limit_error (Some ra) k w) = Raise ValueError
      \/ fst (handle_rate_limit_error (Some ra) k w) = Return ra)
  /\ (k <= max_retries (cfg (self w)) -> (0 <= ra)%Q ->
      fst (handle_rate_limit_error (Some ra) k w) = Return ra).
Proof.
  destruct w as [r [now sl]].
  unfold handle_rate_limit_error, bind, on_self, on_clock, zoom, gets, assign,
    modify, Time.time, Time.sleep. simpl.
  destruct (Z.ltb_spec (max_retries (cfg r)) k); simpl.
  - split; [done|]. split; [by left|]. lia.
  - destruct (Qltb ra 0) eqn:E; simpl.
    + split; [done|]. split; [by right; left|]. intros _ Hra.
      apply Qltb_lt in E. exfalso. exact (Qlt_not_le _ _ E Hra).
    + split; [done|]; split; [right; right; eauto|eauto].
Qed.

End RateLimiterOutcomes.

(** ** The fetch stream under throttling *)

Module FetchProps.
Import MetaAdCollector.

(** The responses [_make_request] takes for throttling: not a 200, and the
    error object carries code 4 or 17, or the status is 429. *)
Definition rate_limited (o : http_outcome) : bool :=
  match o with
  | Response status_code body _ =>
      negb (status_code =? 200)
      && match body with
         | None => status_code =? 429
         | Some (VDict d) =>
             match dict_get_default "error" (VDict []) d with
             | VDict e => py_eq (dict_get "code" e) (VInt 4)
                          || py_eq (dict_get "code" e) (VInt 17)
                          || (status_code =? 429)
             | _ => false
             end
         | Some _ => false
         end
  | _ => false
  end.

Section Props.
Variable json_loads : string -> option value.
Variable json_dumps : json_opts -> value -> string.
Variable isoformat : Q -> string.
Variable storage_ok : string -> bool.
Variable py_int : string -> option Z.
Variable server : nat -> dict -> http_outcome.
Variable cfg : config.
Variable checkpoint_manager : CheckpointManager.t.

(** The Retry-After header is absent or a non-negative integer. *)
Definition retry_after_ok (o : http_outcome) : Prop :=
  match o with
  | Response _ _ (Some header) => exists n, py_int header = Some n /\ 0 <= n
  | _ => True
  end.

Definition limiter_cfg (w : world) : RateLimiter.config :=
  RateLimiter.cfg (rate_limiter w).

Lemma on_limiter_frame {A} (m : M RateLimiter.world A) (w : world) :
  requests (snd (on_limiter m w)) = requests w
  /\ rate_limiter (snd (on_limiter m w))
     = RateLimiter.self (snd (m (RateLimiter.mkWorld (rate_limiter w) (clock w))))
  /\ fst (on_limiter m w)
     = fst (m (RateLimiter.mkWorld (rate_limiter w) (clock w))).
Proof.
  unfold on_limiter, zoom. destruct (m _) as [r x]. done.
Qed.

Definition header_ok (retry_after : option string) : Prop :=
  match retry_after with
  | Some header => exists n, py_int header = Some n /\ 0 <= n
  | None => True
  end.

Lemma on_rate_limit_outcome {A} (hdr : option string) (w : world) :
  exists e w',
    on_rate_limit py_int (A := A) hdr w = (Raise e, w')
    /\ requests w' = requests w
    /\ limiter_cfg w' = limiter_cfg w
    /\ (e = RateLimitError \/ e = ValueError)
    /\ (header_ok hdr -> 1 <= RateLimiter.max_retries (limiter_cfg w) ->
        e = RateLimitError).
Proof.
  assert (Hn : forall n : Z,
    exists e w',
      bind (on_limiter (RateLimiter.handle_rate_limit_error (Some (inject_Z n)) 1))
           (fun _ : Q => raise (A := A) RateLimitError) w = (Raise e, w')
      /\ requests w' = requests w
      /\ limiter_cfg w' = limiter_cfg w
      /\ (e = RateLimitError \/ e = ValueError)
      /\ (0 <= n -> 1 <= RateLimiter.max_retries (limiter_cfg w) ->
          e = RateLimitError)).
  { intros n.
    pose proof (on_limiter_frame
                  (RateLimiter.handle_rate_limit_error (Some (inject_Z n)) 1) w)
      as (Hreq & Hlim & Hfst).
    pose proof (RateLimiterOutcomes.handle_rate_limit_error_outcome
                  (RateLimiter.mkWorld (rate_limiter w) (clock w))
                  (inject_Z n) 1) as (Hcfg & Hcases & Hgood).
    unfold bind. destruct (on_limiter _ w) as [r w2]. simpl in *.
    assert (Hcfg2 : limiter_cfg w2 = limiter_cfg w).
    { unfold limiter_cfg. rewrite Hlim, Hcfg. done. }
    rewrite <- Hfst in Hcases, Hgood.
    destruct r as [x|e].
    - exists RateLimitError, w2. unfold raise. repeat split; eauto.
    - exists e, w2. repeat split; try done.
      + destruct Hcases as [[= ->]|[[= ->]|[=]]]; eauto.
      + intros Hpos Hmax.
        assert (Raise e = Return (inject_Z n)) as [=].
        apply Hgood; [exact Hmax|].
        change 0%Q with (inject_Z 0). by rewrite <- Zle_Qle. }
  unfold on_rate_limit. destruct hdr as [header|]; simpl.
  - destruct (py_int header) as [n|] eqn:En.
    + unfold bind at 1. unfold ret at 1.
      destruct (Hn n) as (e & w' & H1 & H2 & H3 & H4 & H5).
      exists e, w'. repeat split; try done.
      intros (m & Hm & Hpos) Hmax. apply H5; [|done]. congruence.
    + exists ValueError, w. unfold bind, raise. repeat split; eauto.
      intros (m & Hm & _). congruence.
  - unfold bind at 1. unfold ret at 1.
    destruct (Hn 60) as (e & w' & H1 & H2 & H3 & H4 & H5).
    exists e, w'. repeat split; try done. intros _ Hmax. apply H5; [lia|done].
Qed.

(** One attempt against a throttling server: the request is issued once and
    the attempt fails, with RateLimitError when the header and the limiter
    allow the back-off sleep. *)
Lemma attempt_throttled (params : dict) (w : world) :
  rate_limited (server (length (requests w)) params) = true ->
  exists e w',
    _make_request_once py_int server params w = (Raise e, w')
    /\ requests w' = requests w ++ [params]
    /\ limiter_cfg w' = limiter_cfg w
    /\ (e = RateLimitError \/ e = ValueError)
    /\ (retry_after_ok (server (length (requests w)) params) ->
        1 <= RateLimiter.max_retries (limiter_cfg w) ->
        e = RateLimitError).
Proof.
  intros Hrl. unfold _make_request_once, http_get.
  unfold bind at 1. unfold modify at 1. unfold bind at 1.
  change (requests (with_request_count (_request_count w + 1) w))
    with (requests w).
  destruct (server (length (requests w)) params) as [status body hdr| |];
    simpl in Hrl; try done.
  apply andb_true_iff in Hrl as [H200 Hbody]. apply negb_true_iff in H200.
  rewrite H200.
  set (w1 := with_requests _ _).
  destruct (on_rate_limit_outcome (A := value) hdr w1)
    as (e & w' & H1 & H2 & H3 & H4 & H5).
  exists e, w'.
  split; [|repeat split; done].
  destruct body as [[]|]; simpl in Hbody; try done.
  - unfold bind, method_get, ret.
    destruct (dict_get_default "error" (VDict []) d); try done.
    fold (dict_get "code" d0). rewrite Hbody. exact H1.
  - unfold bind, method_get, ret. simpl. rewrite Hbody. exact H1.
Qed.

Lemma wait_exponential_sleepable (attempt_number : Z) :
  Qltb (wait_exponential attempt_number) 0 = false.
Proof.
  apply Qltb_ge. unfold wait_exponential.
  apply Qle_trans with (y := Qmax 0 4); [done|]. apply Q.le_max_l.
Qed.

(** The retry loop against a server that throttles every request. *)
Lemma retrying_throttled (params : dict) (remaining : nat) :
  (forall n p, rate_limited (server n p) = true) ->
  forall attempt_number w,
  exists e w' k,
    retrying remaining attempt_number (_make_request_once py_int server params) w
    = (Raise e, w')
    /\ (1 <= k <= S remaining)%nat
    /\ requests w' = requests w ++ replicate k params
    /\ limiter_cfg w' = limiter_cfg w
    /\ (e = RetryError RateLimitError \/ e = ValueError)
    /\ ((forall n p, retry_after_ok (server n p)) ->
        1 <= RateLimiter.max_retries (limiter_cfg w) ->
        e = RetryError RateLimitError /\ k = S remaining).
Proof.
  intros Hth. induction remaining as [|remaining IH]; intros a w;
    destruct (attempt_throttled params w (Hth _ _))
      as (e & w1 & Heq & Hreq & Hcfg & He & Hgood).
  - simpl. rewrite Heq. destruct He as [-> | ->]; simpl.
    + exists (RetryError RateLimitError), w1, 1%nat. split_and!; eauto.
    + exists ValueError, w1, 1%nat. split_and!; eauto.
      intros Hh Hm. discriminate (Hgood (Hh _ _) Hm).
  - simpl. rewrite Heq. destruct He as [-> | ->]; simpl.
    + unfold bind at 1, on_time, zoom, Time.sleep.
      rewrite wait_exponential_sleepable. simpl.
      set (w2 := with_clock _ w1).
      destruct (IH (a + 1) w2) as (e & w' & k & Hr & Hk & Hrq & Hc & He & Hg).
      exists e, w', (S k). rewrite Hr. split_and!; try done; try lia.
      * rewrite Hrq. change (requests w2) with (requests w1). rewrite Hreq.
        rewrite <- app_assoc. reflexivity.
      * rewrite Hc. exact Hcfg.
      * intros Hh Hm.
        assert (Hm2 : 1 <= RateLimiter.max_retries (limiter_cfg w2)).
        { change (limiter_cfg w2) with (limiter_cfg w1). by rewrite Hcfg. }
        destruct (Hg Hh Hm2) as [-> ->]. done.
    + exists ValueError, w1, 1%nat. split_and!; eauto; try lia.
      intros Hh Hm. discriminate (Hgood (Hh _ _) Hm).
Qed.

(** The part of C4 that holds.  When the server answers every request with
    a throttling response, an iteration of the fetch loop (at any page) ends
    [fetch_ads] with an exception after issuing the same request at most 5
    times; the exception is not RateLimitError, so the [continue] of the
    loop is never taken.  When moreover the Retry-After headers are absent
    or non-negative integers, the limiter allows a retry
    ([max_retries >= 1]) and its rate is positive, the request is issued
    exactly 5 times and the exception is tenacity's RetryError carrying the
    RateLimitError. *)
Theorem throttled_request_is_bounded (fuel : nat) (params : dict)
    (page_count total_ads : Z) (date_range : string) (w : world) :
  (forall n p, rate_limited (server n p) = true) ->
  exists e w' k,
    fetch_pages json_loads json_dumps isoformat storage_ok py_int server cfg
                checkpoint_manager (S fuel) params page_count total_ads
                date_range w
    = Done (Raise e) w'
    /\ (k <= 5)%nat
    /\ requests w' = requests w ++ replicate k params
    /\ e <> RateLimitError
    /\ ((forall n p, retry_after_ok (server n p)) ->
        1 <= RateLimiter.max_retries (limiter_cfg w) ->
        (0 < RateLimiter.requests_per_second (limiter_cfg w))%Q ->
        e = RetryError RateLimitError /\ k = 5%nat).
Proof.
  intros Hth. cbn [fetch_pages]. unfold g_bind at 1, lift_M at 1.
  pose proof (on_limiter_frame RateLimiter.wait_if_needed w)
    as (Hreq & Hlim & Hfst).
  pose proof (RateLimiterOutcomes.wait_if_needed_outcome
                (RateLimiter.mkWorld (rate_limiter w) (clock w)))
    as (Hcfg & Hcases & Hpos).
  destruct (on_limiter RateLimiter.wait_if_needed w) as [r w1].
  simpl in Hreq, Hlim, Hfst, Hcfg, Hcases, Hpos. rewrite <- Hfst in Hcases, Hpos.
  assert (Hcfg1 : limiter_cfg w1 = limiter_cfg w).
  { unfold limiter_cfg. rewrite Hlim. exact Hcfg. }
  destruct r as [x|e0].
  - cbn [step_bind]. unfold g_bind at 1, lift_M at 1.
    unfold try_except, bind at 1, _make_request.
    destruct (retrying_throttled params 4 Hth 1 w1)
      as (e & w' & k & Hr & Hk & Hrq & Hc & He & Hg).
    rewrite Hr.
    assert (Hne : e <> RateLimitError) by (destruct He as [-> | ->]; done).
    assert (Hnot : match e with RateLimitError => true | _ => false end = false)
      by (destruct He as [-> | ->]; done).
    rewrite Hnot. cbn [step_bind].
    exists e, w', k. split_and!; try done; try lia.
    + by rewrite Hrq, Hreq.
    + intros Hh Hm _. apply Hg; [done|]. by rewrite Hcfg1.
  - cbn [step_bind].
    exists e0, w1, 0%nat. split_and!; try done; try lia.
    + simpl. by rewrite app_nil_r.
    + destruct Hcases as [[= ->]|[[= ->]|[y [=]]]]; done.
    + intros _ _ Hrps. destruct (Hpos Hrps) as [y [=]].
Qed.

End Props.
End FetchProps.

(** ** The properties on concrete runs *)

Module Runs.
Import Scenario.

(** C7 at a limiter with [max_retries = 3], [initial_retry_delay = 60] and
    [backoff_multiplier = 2]: attempt 4 raises without a sleep, attempt 2
    sleeps 120 seconds. *)
Lemma handle_rate_limit_error_witness :
  RateLimiter.handle_rate_limit_error None 4 limiter_b
    = (Raise RateLimitError, limiter_b)
  /\ exists w',
       RateLimiter.handle_rate_limit_error None 2 limiter_b = (Return 120%Q, w')
       /\ Time.sleeps (RateLimiter.clock w') = [120%Q]
       /\ RateLimiter.rate_limit_errors (RateLimiter.self w') = 1
       /\ RateLimiter.tokens (RateLimiter.self w') = 1%Q.
Proof.
  split.
  - apply (RateLimiterProps.handle_rate_limit_error_spec limiter_b None 4).
    simpl. lia.
  - destruct (proj2 (RateLimiterProps.handle_rate_limit_error_spec
                       limiter_b None 2))
      as (w' & Hrun & Hsleeps & _ & Herrors & Htokens & _).
    + simpl. lia.
    + unfold Qle. simpl. lia.
    + intros _ H. lia.
    + exists w'. split_and!; assumption.
Defined.

(** C8 on Scenario B followed by a throttling report and a reset. *)
Lemma token_bucket_bound_witness :
  RateLimiter.bucket_ok
    (RateLimiter.self
       (RateLimiter.run_calls
          [ (0%Q, RateLimiter.CallWait); (0%Q, RateLimiter.CallWait);
            ((1 # 2)%Q, RateLimiter.CallThrottled (Some 2%Q) 1);
            (3%Q, RateLimiter.CallReset) ]
          (RateLimiter.mkWorld (RateLimiter.init 60 1 2 3 60 noon)
                               (Time.mk noon [])))).
Proof.
  apply (RateLimiterProps.token_bucket_bound 60 1 2 3 60 (Time.mk noon [])).
  - lia.
  - lia.
  - repeat constructor; unfold Qle; simpl; lia.
Defined.

(** C2 on Scenario A: batch size 2 and six records give three batch files
    and a manifest with [total_records = 6] and [total_batches = 3]. *)
Lemma batching_exactness_witness :
  exists w' manifest,
    OutputWriterProps.run PyJson.dumps no_gzip always six_records
      "2024-01-15T12:05:00Z"
      (OutputWriter.mkWorld
         (OutputWriter.init "meta" OutputWriter.Local 2 false "output/meta"
                            "20240115_120000") ∅)
    = (Return manifest, w')
    /\ OutputWriter.batch_files (OutputWriter.self w')
       = [ "meta_ads_20240115_120000_batch_0001.ndjson";
           "meta_ads_20240115_120000_batch_0002.ndjson";
           "meta_ads_20240115_120000_batch_0003.ndjson" ]
    /\ dict_lookup "total_records" manifest = Some (VInt 6)
    /\ dict_lookup "total_batches" manifest = Some (VInt 3).
Proof.
  destruct (OutputWriterProps.batching_exactness PyJson.dumps no_gzip always
              (fun _ => eq_refl) "meta" OutputWriter.Local 2 false
              "output/meta" "20240115_120000" six_records
              "2024-01-15T12:05:00Z" ∅)
    as (w' & manifest & Hrun & Hfiles & _ & _ & _ & _ & _ & Hrec & Hbat & _).
  - lia.
  - exists w', manifest. split_and!; assumption.
Defined.

(** C5, as stated, fails on the checkpoint of [test_save_and_load]: what
    [load] returns after [save] has a [platform] field that the saved
    checkpoint does not have. *)
Lemma save_load_adds_platform :
  exists loaded,
    fst ((save test_data ;; load)%py store0) = Return (Some (VDict loaded))
    /\ ~ (forall k, k <> "last_update" ->
            dict_lookup k loaded = dict_lookup k test_data).
Proof.
  exists [ ("cursor", VStr "abc123"); ("records_processed", VInt 1000);
           ("last_update", VStr "2024-01-15T12:00:00Z");
           ("platform", VStr "meta") ].
  split; [vm_compute; reflexivity|].
  intros H. specialize (H "platform" ltac:(discriminate)). discriminate H.
Qed.

(** C5 as amended, on the same checkpoint. *)
Lemma save_load_roundtrip_witness :
  exists w',
    save test_data store0 = (Return tt, w')
    /\ load w'
       = (Return (Some (VDict
            [ ("cursor", VStr "abc123"); ("records_processed", VInt 1000);
              ("last_update", VStr "2024-01-15T12:00:00Z");
              ("platform", VStr "meta") ])), w').
Proof.
  destruct (CheckpointProps.save_load_roundtrip PyJson.loads PyJson.dumps
              PyBuiltins.isoformat always manager store0 test_data)
    as (w' & Hsave & Hload & _).
  - reflexivity.
  - vm_compute. eauto.
  - vm_compute. reflexivity.
  - simpl. exact I.
  - exists w'. split; [exact Hsave|exact Hload].
Defined.

(** C9, as stated, fails in two ways: a record whose impressions bounds
    are reversed is valid, and the reason given for an empty record, which
    also lacks [platform], does not name [platform]. *)
Lemma impressions_bounds_not_checked :
  validate_record reversed_impressions = Return (true, None)
  /\ py_gt (dict_get "impressions_min" reversed_impressions)
           (dict_get "impressions_max" reversed_impressions) = Return true
  /\ ValidationProps.missing [] "platform" = true
  /\ exists reason,
       validate_record [] = Return (false, Some reason)
       /\ is_substring "platform" reason = false.
Proof.
  split; [reflexivity|]. split; [reflexivity|]. split; [reflexivity|].
  exists "Missing or empty required field: ad_id". split; reflexivity.
Qed.

(** C9 as amended: a record without [ad_id], and the record of
    [test_validate_record_invalid_spend]. *)
Lemma validation_correctness_witness :
  validate_record [("platform", VStr "meta"); ("advertiser_name", VStr "Test Page")]
    = Return (false, Some "Missing or empty required field: ad_id")
  /\ exists reason, validate_record reversed_spend = Return (false, Some reason).
Proof.
  split.
  - destruct (proj1 (ValidationProps.validation_correctness PyBuiltins.str
                       PyBuiltins.fromisoformat
                       [("platform", VStr "meta");
                        ("advertiser_name", VStr "Test Page")]) "ad_id")
      as (first & Hfirst & Hrun).
    + simpl. auto.
    + reflexivity.
    + injection Hfirst as <-. exact Hrun.
  - apply (proj2 (ValidationProps.validation_correctness PyBuiltins.str
                    PyBuiltins.fromisoformat reversed_spend)); reflexivity.
Defined.

(** C10, as stated, fails on a lower bound that is not a number: neither
    field is set to it, both stay null. *)
Lemma unparseable_lower_bound_gives_none :
  let range_data := VDict [("lower_bound", VStr "abc")] in
  let r := Validation._parse_range PyBuiltins.str PyBuiltins.float range_data in
  ValidationProps.open_ended range_data
  /\ dict_get "min" r = VNone /\ dict_get "max" r = VNone.
Proof.
  split; [|split; reflexivity].
  exists [("lower_bound", VStr "abc")]. split_and!; reflexivity.
Qed.

(** A lower bound that reads as a float but is not a number: both fields
    are set to NaN, which does not equal itself, and the spend check lets
    the record through. *)
Lemma nan_lower_bound_min_differs_from_max :
  let range_data := VDict [("lower_bound", VStr "nan")] in
  exists rec,
    transform_ad (VDict [ ("id", VStr "12345"); ("page_name", VStr "Test Page");
                          ("spend", range_data) ]) = Return rec
    /\ ValidationProps.open_ended range_data
    /\ dict_get "spend_min" rec = VFloat NaN
    /\ dict_get "spend_max" rec = VFloat NaN
    /\ py_eq (dict_get "spend_min" rec) (dict_get "spend_max" rec) = false
    /\ validate_record rec = Return (true, None).
Proof.
  eexists. split; [vm_compute; reflexivity|].
  split; [|split_and!; reflexivity].
  exists [("lower_bound", VStr "nan")]. split_and!; reflexivity.
Qed.

(** C10 as amended, on an ad whose spend and impressions ranges have a
    lower bound only. *)
Lemma open_ended_range_witness :
  exists rec,
    transform_ad (VDict open_ended_ad) = Return rec
    /\ dict_get "spend_min" rec = VFloat (Finite 5000)
    /\ dict_get "spend_max" rec = dict_get "spend_min" rec
    /\ py_eq (dict_get "spend_min" rec) (dict_get "spend_max" rec) = true
    /\ Validation.check_spend PyBuiltins.str rec = Return None
    /\ py_eq (dict_get "impressions_min" rec) (dict_get "impressions_max" rec)
       = true.
Proof.
  destruct (transform_ad (VDict open_ended_ad)) as [rec|e] eqn:Et;
    [|vm_compute in Et; discriminate Et].
  exists rec.
  destruct (ValidationProps.open_ended_range_min_equals_max PyBuiltins.str
              PyBuiltins.float none_of none_of none_of none_of
              "2024-01-15T12:00:00Z" "v21.0" open_ended_ad rec Et)
    as (_ & Hspend & Himpressions).
  destruct Hspend as (Hsame & Heq & Hcheck).
  { exists [("lower_bound", VStr "5000")]. split_and!; reflexivity. }
  destruct Himpressions as (_ & Heq').
  { exists [("lower_bound", VStr "1,000")]. split_and!; reflexivity. }
  assert (Hmin : dict_get "spend_min" rec = VFloat (Finite 5000)).
  { vm_compute in Et. injection Et as <-. reflexivity. }
  assert (Himin : dict_get "impressions_min" rec <> VFloat NaN).
  { vm_compute in Et. injection Et as <-. discriminate. }
  split_and!.
  - reflexivity.
  - exact Hmin.
  - exact Hsame.
  - apply Heq. rewrite Hmin. discriminate.
  - exact Hcheck.
  - apply Heq'. exact Himin.
Defined.

(** C4 fails against a server that throttles every request: after five
    requests the exception that leaves [fetch_ads] is tenacity's
    RetryError, not the RateLimitError that the docstring of
    [_make_request] announces and that the loop of [fetch_ads] catches in
    order to go on (the decorator is used without [reraise]). *)
Lemma throttled_fetch_raises_retry_error :
  exists w',
    exhaust (fetch_ads throttling "2024-01-01" "2024-01-31" "PL" (world0 ∅))
    = ([], Raise (RetryError RateLimitError), w')
    /\ MetaAdCollector.requests w' = replicate 5 fetch_params
    /\ RetryError RateLimitError <> RateLimitError.
Proof.
  eexists. split; [vm_compute; reflexivity|]. split; [reflexivity|discriminate].
Qed.

(** The bound on the attempts, against the same server. *)
Lemma throttled_request_witness :
  exists w',
    MetaAdCollector.fetch_pages PyJson.loads PyJson.dumps PyBuiltins.isoformat
      always PyBuiltins.int throttling config manager 1 fetch_params 0 0
      "2024-01-01 to 2024-01-31" (world0 ∅)
    = Done (Raise (RetryError RateLimitError)) w'
    /\ MetaAdCollector.requests w' = replicate 5 fetch_params.
Proof.
  destruct (FetchProps.throttled_request_is_bounded PyJson.loads PyJson.dumps
              PyBuiltins.isoformat always PyBuiltins.int throttling config
              manager 0 fetch_params 0 0 "2024-01-01 to 2024-01-31" (world0 ∅))
    as (e & w' & k & Hrun & _ & Hreq & _ & Hgood).
  - intros n p. reflexivity.
  - destruct Hgood as [-> ->].
    + intros n p. exact I.
    + simpl. lia.
    + unfold Qlt. simpl. lia.
    + exists w'. split; [exact Hrun|exact Hreq].
Defined.

(** C6, at an input where the code departs from it: a run that resumes
    from a checkpoint with 5 records processed, saves after the one ad it
    fetches and then finishes.  The checkpoint writes of the run persist
    [records_processed = 6] and then [records_processed = 1]. *)
Theorem resumed_run_records_processed_drops :
  exists w',
    exhaust (fetch_ads one_page "2024-01-01" "2024-01-31" "PL"
               (world0 earlier_checkpoint))
    = ([VDict [("id", VStr "1"); ("page_name", VStr "P")]], Return tt, w')
    /\ map records_processed_in (MetaAdCollector.journal w')
       = [Some (VInt 6); Some (VInt 1)].
Proof.
  eexists. split; [vm_compute; reflexivity|]. vm_compute. reflexivity.
Qed.

(** C1, at an input where the code departs from it: the server rejects the
    access token, so [authenticate()] raises AuthenticationError.  [run()]
    does not call it: its first and only request is the fetch query, the
    APIError of that request ends the run, and [finalize()] has then
    written a manifest. *)
Theorem run_does_not_authenticate :
  fst (authenticate rejecting (world0 ∅)) = Raise AuthenticationError
  /\ exists w',
       run rejecting (world0 ∅) = (Raise APIError, w')
       /\ MetaAdCollector.requests w' = [fetch_params]
       /\ is_Some (OutputWriter.files (MetaAdCollector.output w')
                     !! "output/meta/meta_ads_20240115_120000_manifest.json").
Proof.
  split; [reflexivity|].
  eexists. split; [vm_compute; reflexivity|]. split; [reflexivity|].
  vm_compute. eauto.
Qed.

(** The corrupted checkpoint of [test_corrupted_checkpoint_handled]: the
    file is valid UTF-8 but not JSON, and [load] returns [None] and leaves
    the file in place. *)
Lemma load_invalid_json_witness :
  let w := CheckpointManager.mkWorld
             {[ CheckpointManager.checkpoint_path manager := "not valid json {{{" ]}
             (Time.mk noon []) in
  load w = (Return None, w).
Proof.
  intros w.
  apply (CheckpointProps.load_invalid_json_absent PyJson.loads manager w
           "not valid json {{{").
  - reflexivity.
  - vm_compute. eauto.
  - vm_compute. reflexivity.
Defined.

(** No checkpoint file at all ([test_load_nonexistent]): [load] returns
    [None]. *)
Lemma load_missing_witness :
  load store0 = (Return None, store0).
Proof.
  apply (CheckpointProps.load_missing_absent PyJson.loads manager store0).
  reflexivity.
Defined.

End Runs.

(** ** The rate limiter: bursts, waits, statistics and reset *)

Module RateLimiterMore.
Import RateLimiter RateLimiterProps.

(** A schedule of [wait_if_needed] calls, [dt] seconds apart. *)
Definition waits (dts : list Q) : list (Q * call) :=
  map (fun dt => (dt, CallWait)) dts.

(** With a token in the bucket, [wait_if_needed] takes it without
    sleeping. *)
Lemma wait_with_token (w : world) :
  inv w -> (1 <= tokens (self w))%Q ->
  exists w',
    wait_if_needed w = (Return 0%Q, w')
    /\ inv w'
    /\ cfg (self w') = cfg (self w)
    /\ clock w' = clock w
    /\ (tokens (self w) - 1 <= tokens (self w'))%Q
    /\ (tokens (self w')
        <= tokens (self w)
           + (Time.now (clock w) - last_update (self w))
             * requests_per_second (cfg (self w)) - 1)%Q
    /\ total_requests (self w') = total_requests (self w) + 1
    /\ total_wait_time (self w') = total_wait_time (self w).
Proof.
  intros Hinv Htok. pose proof (wait_if_needed_inv w Hinv) as Hinv'.
  revert Hinv'. destruct w as [r [now sl]].
  destruct Hinv as ([H0 H1] & Hr & Hl). simpl in *.
  unfold wait_if_needed, bind, on_self, on_clock, zoom, gets, assign, modify,
    Time.time. simpl.
  set (tok := Qmin _ _).
  assert (Ht : (tokens r <= tok)%Q).
  { apply Q.min_glb; [done|].
    assert (0 <= (now - last_update r) * requests_per_second (cfg r))%Q
      by (apply Qmult_le_0_compat; lra).
    lra. }
  assert (Hge : Qltb tok 1 = false) by (apply Qltb_ge; lra).
  rewrite Hge. simpl. intros Hinv'.
  eexists. split; [reflexivity|]. simpl. split_and!; try done; [lra|].
  assert (tok <= tokens r + (now - last_update r) * requests_per_second (cfg r))%Q
    by apply Q.le_min_r.
  lra.
Qed.

Lemma burst_schedule (dts : list Q) : forall (w : world) (k : Z),
  inv w -> Forall (fun dt => 0 <= dt)%Q dts ->
  (inject_Z k <= tokens (self w))%Q -> Z.of_nat (length dts) <= k ->
  let w' := run_calls (waits dts) w in
  inv w'
  /\ cfg (self w') = cfg (self w)
  /\ Time.sleeps (clock w') = Time.sleeps (clock w)
  /\ total_requests (self w') = total_requests (self w) + Z.of_nat (length dts)
  /\ total_wait_time (self w') = total_wait_time (self w)
  /\ (inject_Z (k - Z.of_nat (length dts)) <= tokens (self w'))%Q.
Proof.
  induction dts as [|dt dts IH]; intros w k Hinv Hdts Hk Hlen.
  - simpl. rewrite Z.sub_0_r, Z.add_0_r. done.
  - inversion Hdts as [|? ? Hdt Hrest]; subst.
    simpl length in *. simpl.
    set (w1 := mkWorld (self w) (Time.elapse dt (clock w))).
    assert (Hinv1 : inv w1) by (apply elapse_inv; done).
    assert (Hk1 : (1 <= tokens (self w1))%Q).
    { simpl. assert (1 <= k) by lia.
      assert (inject_Z 1 <= inject_Z k)%Q by (rewrite <- Zle_Qle; done).
      change (inject_Z 1) with 1%Q in *. lra. }
    destruct (wait_with_token w1 Hinv1 Hk1)
      as (w2 & Hrun & Hinv2 & Hcfg & Hclock & Htok & _ & Htot & Hwt).
    unfold do_call. rewrite Hrun. simpl snd.
    destruct (IH w2 (k - 1) Hinv2 Hrest) as (I1 & I2 & I3 & I4 & I5 & I6).
    + simpl in Htok. unfold Z.sub. rewrite inject_Z_plus, inject_Z_opp.
      change (inject_Z 1) with 1%Q. lra.
    + lia.
    + split_and!; try done.
      * by rewrite I2, Hcfg.
      * by rewrite I3, Hclock.
      * rewrite I4, Htot. simpl. lia.
      * by rewrite I5, Hwt.
      * replace (k - Z.of_nat (S (length dts))) with (k - 1 - Z.of_nat (length dts))
          by lia. done.
Qed.

(** The first [burst] requests after construction go through at once:
    whatever non-negative time passes between them, none of them sleeps,
    and each is counted. *)
Theorem burst_requests_never_wait rpm b mult mr ird (c : Time.t) (dts : list Q) :
  0 <= rpm -> Z.of_nat (length dts) <= b ->
  Forall (fun dt => 0 <= dt)%Q dts ->
  let w := run_calls (waits dts) (mkWorld (init rpm b mult mr ird (Time.now c)) c) in
  Time.sleeps (clock w) = Time.sleeps c
  /\ total_requests (self w) = Z.of_nat (length dts)
  /\ total_wait_time (self w) = 0%Q
  /\ (inject_Z (b - Z.of_nat (length dts)) <= tokens (self w))%Q.
Proof.
  intros Hr Hlen Hdts.
  assert (Hb : 0 <= b) by lia.
  destruct (burst_schedule dts (mkWorld (init rpm b mult mr ird (Time.now c)) c) b
              (init_inv rpm b mult mr ird c Hb Hr) Hdts)
    as (_ & _ & I3 & I4 & I5 & I6); [simpl; lra|done|].
  simpl in *. done.
Qed.

(** A call that has to wait sleeps for less than one token's worth of
    time: with a positive rate, [wait_if_needed] returns a wait between 0
    and [1 / requests_per_second] seconds, sleeps exactly that long when it
    is positive and not at all otherwise, and leaves the bucket within its
    bounds. *)
Theorem wait_is_at_most_one_token (w : world) :
  inv w -> (0 < requests_per_second (cfg (self w)))%Q ->
  exists x w',
    wait_if_needed w = (Return x, w')
    /\ (0 <= x)%Q /\ (x <= 1 / requests_per_second (cfg (self w)))%Q
    /\ Time.sleeps (clock w')
       = Time.sleeps (clock w) ++ (if Qltb 0 x then [x] else [])
    /\ total_requests (self w') = total_requests (self w) + 1
    /\ bucket_ok (self w').
Proof.
  intros Hinv Hpos. pose proof (wait_if_needed_inv w Hinv) as [Hb' _].
  revert Hb'. destruct w as [r [now sl]].
  destruct Hinv as (Hb & Hr & Hl). simpl in *.
  assert (He : (0 <= now - last_update r)%Q) by lra.
  destruct (refill_bounds r _ Hb Hr He) as [T0 T1].
  unfold wait_if_needed, bind, on_self, on_clock, zoom, gets, assign, modify,
    Time.time. simpl.
  set (tok := Qmin _ _) in *.
  destruct (Qltb tok 1) eqn:Et; simpl.
  - unfold fdiv.
    assert (Ez : Qeq_bool (requests_per_second (cfg r)) 0 = false).
    { destruct (Qeq_bool _ 0) eqn:E; [|done]. apply Qeq_bool_iff in E.
      rewrite E in Hpos. by apply Qlt_irrefl in Hpos. }
    rewrite Ez. simpl. apply Qltb_lt in Et.
    set (x := ((1 - tok) / requests_per_second (cfg r))%Q).
    assert (Hx : (0 < x)%Q) by (apply Qlt_shift_div_l; lra).
    unfold Time.sleep.
    assert (Es : Qltb x 0 = false) by (apply Qltb_ge; lra).
    rewrite Es. simpl. intros Hb'.
    exists x. eexists. split; [reflexivity|]. simpl.
    assert (E0 : Qltb 0 x = true) by (apply Qltb_lt; done).
    rewrite E0. split_and!; try done; [lra|].
    unfold x, Qdiv. apply Qmult_le_compat_r; [lra|].
    apply Qinv_le_0_compat. lra.
  - intros Hb'. exists 0%Q. eexists. split; [reflexivity|]. simpl.
    rewrite app_nil_r. split_and!; try done.
    unfold Qdiv. apply Qmult_le_0_compat; [lra|].
    apply Qinv_le_0_compat. lra.
Qed.

Lemma zero_rate_schedule (dts : list Q) : forall (w : world) (k : Z),
  inv w -> (requests_per_second (cfg (self w)) == 0)%Q ->
  Forall (fun dt => 0 <= dt)%Q dts ->
  (tokens (self w) == inject_Z k)%Q -> Z.of_nat (length dts) <= k ->
  let w' := run_calls (waits dts) w in
  inv w'
  /\ cfg (self w') = cfg (self w)
  /\ Time.sleeps (clock w') = Time.sleeps (clock w)
  /\ total_requests (self w') = total_requests (self w) + Z.of_nat (length dts)
  /\ (tokens (self w') == inject_Z (k - Z.of_nat (length dts)))%Q.
Proof.
  induction dts as [|dt dts IH]; intros w k Hinv Hz Hdts Hk Hlen.
  - simpl. rewrite Z.sub_0_r, Z.add_0_r. done.
  - inversion Hdts as [|? ? Hdt Hrest]; subst.
    simpl length in *. simpl.
    set (w1 := mkWorld (self w) (Time.elapse dt (clock w))).
    assert (Hinv1 : inv w1) by (apply elapse_inv; done).
    assert (Hk1 : (1 <= tokens (self w1))%Q).
    { simpl. assert (1 <= k) by lia.
      assert (inject_Z 1 <= inject_Z k)%Q by (rewrite <- Zle_Qle; done).
      change (inject_Z 1) with 1%Q in *. lra. }
    destruct (wait_with_token w1 Hinv1 Hk1)
      as (w2 & Hrun & Hinv2 & Hcfg & Hclock & Hlo & Hhi & Htot & Hwt).
    unfold do_call. rewrite Hrun. simpl snd.
    assert (Hk2 : (tokens (self w2) == inject_Z (k - 1))%Q).
    { simpl in Hlo, Hhi. unfold Z.sub. rewrite inject_Z_plus, inject_Z_opp.
      change (inject_Z 1) with 1%Q.
      assert (E : ((Time.now (clock w) + dt - last_update (self w))
                   * requests_per_second (cfg (self w)) == 0)%Q)
        by (rewrite Hz; ring).
      apply Qle_antisym; lra. }
    destruct (IH w2 (k - 1) Hinv2) as (I1 & I2 & I3 & I4 & I5);
      [by rewrite Hcfg|done|done|lia|].
    split_and!; try done.
    + by rewrite I2, Hcfg.
    + by rewrite I3, Hclock.
    + rewrite I4, Htot. simpl. lia.
    + replace (k - Z.of_nat (S (length dts))) with (k - 1 - Z.of_nat (length dts))
        by lia. done.
Qed.

(** A limiter built with [requests_per_minute = 0] does not block when its
    burst is used up: it lets [burst] requests through without sleeping, and
    the next call raises ZeroDivisionError, whatever time has passed. *)
Theorem zero_rate_limiter_raises b mult mr ird (c : Time.t) (dts : list Q) (dt : Q) :
  Z.of_nat (length dts) = b ->
  Forall (fun dt => 0 <= dt)%Q dts -> (0 <= dt)%Q ->
  let w := run_calls (waits dts) (mkWorld (init 0 b mult mr ird (Time.now c)) c) in
  total_requests (self w) = b
  /\ Time.sleeps (clock w) = Time.sleeps c
  /\ exists w',
       wait_if_needed (mkWorld (self w) (Time.elapse dt (clock w)))
       = (Raise ZeroDivisionError, w')
       /\ Time.sleeps (clock w') = Time.sleeps c
       /\ total_requests (self w') = b.
Proof.
  intros Hlen Hdts Hdt.
  assert (Hb : 0 <= b) by lia.
  destruct (zero_rate_schedule dts (mkWorld (init 0 b mult mr ird (Time.now c)) c) b
              (init_inv 0 b mult mr ird c Hb (Z.le_refl 0)))
    as (I1 & I2 & I3 & I4 & I5); [reflexivity|done|reflexivity|lia|].
  intros w. fold w in I1, I2, I3, I4, I5. simpl in I2, I3, I4.
  rewrite Hlen in I4, I5. split; [done|]. split; [done|].
  assert (Hi : inv (mkWorld (self w) (Time.elapse dt (clock w))))
    by (apply elapse_inv; done).
  destruct w as [r [now sl]]. simpl in *.
  destruct Hi as (_ & _ & Hl). simpl in Hl.
  unfold wait_if_needed, bind, on_self, on_clock, zoom, gets, assign, modify,
    Time.time. simpl.
  set (tok := Qmin _ _).
  assert (Hz : (requests_per_second (cfg r) == 0)%Q) by (rewrite I2; reflexivity).
  assert (Ht : Qltb tok 1 = true).
  { apply Qltb_lt.
    assert (tok <= tokens r + (now + dt - last_update r) * requests_per_second (cfg r))%Q
      by apply Q.le_min_r.
    assert (E : ((now + dt - last_update r) * requests_per_second (cfg r) == 0)%Q)
      by (rewrite Hz; ring).
    rewrite Z.sub_diag in I5. change (inject_Z 0) with 0%Q in I5. lra. }
  rewrite Ht. simpl. unfold fdiv.
  apply Qeq_bool_iff in Hz. rewrite Hz. simpl.
  eexists. split; [reflexivity|]. simpl. done.
Qed.

Lemma count_after_le (lo hi : Q) (history : list Q) :
  (lo <= hi)%Q ->
  RateLimiterStats.count_after hi history <= RateLimiterStats.count_after lo history.
Proof.
  intros Hle. unfold RateLimiterStats.count_after. apply inj_le.
  induction history as [|t l IH]; [done|].
  rewrite !filter_cons.
  destruct (decide (Qltb hi t)) as [Hhi|Hhi], (decide (Qltb lo t)) as [Hlo|Hlo];
    simpl; try lia.
  exfalso. apply Hlo. apply Is_true_true. apply Is_true_true in Hhi.
  apply Qltb_lt. apply Qltb_lt in Hhi. lra.
Qed.

Lemma count_after_bound (cutoff : Q) (history : list Q) :
  0 <= RateLimiterStats.count_after cutoff history <= Z.of_nat (length history).
Proof.
  unfold RateLimiterStats.count_after. split; [lia|].
  apply inj_le. apply length_filter.
Qed.

(** [get_stats] always returns and changes nothing, also for a limiter with
    [requests_per_minute <= 0], whose utilisation it reports as 0 instead of
    dividing; the requests of the last minute are among those of the last
    five minutes, which are among the recorded ones. *)
Theorem get_stats_never_raises (py_round : Q -> Z -> Q) (w : world) :
  exists d m1 m5,
    RateLimiterStats.get_stats py_round w = (Return d, w)
    /\ dict_lookup "requests_last_minute" d = Some (VInt m1)
    /\ dict_lookup "requests_last_5_minutes" d = Some (VInt m5)
    /\ 0 <= m1 <= m5
    /\ m5 <= Z.of_nat (length (request_history (self w)))
    /\ dict_lookup "total_requests" d = Some (VInt (total_requests (self w)))
    /\ (requests_per_minute (cfg (self w)) <= 0
        <-> dict_lookup "utilization_percent" d = Some (VInt 0)).
Proof.
  destruct w as [r [now sl]].
  unfold RateLimiterStats.get_stats, bind, on_self, on_clock, zoom, gets,
    Time.time. simpl.
  set (m1 := RateLimiterStats.count_after (now - 60) (request_history r)).
  set (m5 := RateLimiterStats.count_after (now - 300) (request_history r)).
  assert (H15 : m1 <= m5) by (apply count_after_le; lra).
  pose proof (count_after_bound (now - 60) (request_history r)) as [H1 _].
  pose proof (count_after_bound (now - 300) (request_history r)) as [_ H5].
  fold m1 in H1. fold m5 in H5.
  destruct (Z.ltb_spec 0 (requests_per_minute (cfg r))) as [Hpos|Hle]; simpl.
  - unfold fdiv.
    assert (E : Qeq_bool (inject_Z (requests_per_minute (cfg r))) 0 = false).
    { destruct (Qeq_bool _ 0) eqn:E; [|done]. apply Qeq_bool_iff in E.
      unfold Qeq in E. simpl in E. lia. }
    rewrite E. simpl. eexists. exists m1, m5.
    split; [reflexivity|]. split_and!; try done; try lia.
    split; [lia|]. intros [=].
  - eexists. exists m1, m5. split; [reflexivity|]. split_and!; try done; lia.
Qed.

Lemma do_call_cfg (c : call) (w : world) : cfg (self (do_call c w)) = cfg (self w).
Proof.
  destruct w as [r [now sl]]. destruct c as [|ra k|]; simpl.
  - apply RateLimiterOutcomes.wait_if_needed_outcome.
  - unfold handle_rate_limit_error, bind, on_self, on_clock, zoom, gets, assign,
      modify, Time.time, Time.sleep, fpow. simpl.
    destruct (max_retries (cfg r) <? k); simpl; [done|].
    destruct ra as [ra|]; simpl.
    + destruct (Qltb ra 0); reflexivity.
    + destruct (Qeq_bool (backoff_multiplier (cfg r)) 0 && (k - 1 <? 0)); simpl;
        [done|].
      destruct (Qltb _ 0); reflexivity.
  - reflexivity.
Qed.

Lemma run_calls_cfg (cs : list (Q * call)) : forall w,
  cfg (self (run_calls cs w)) = cfg (self w).
Proof.
  induction cs as [|[dt c] cs IH]; intros w; simpl; [done|].
  rewrite IH. apply (do_call_cfg c (mkWorld (self w) (Time.elapse dt (clock w)))).
Qed.

(** [reset] undoes everything the calls did: after any sequence of calls,
    it leaves the limiter in the state [__init__] would build at that
    moment, with the same configuration. *)
Theorem reset_restores_initial_state rpm b mult mr ird (c : Time.t)
    (cs : list (Q * call)) :
  let w := run_calls cs (mkWorld (init rpm b mult mr ird (Time.now c)) c) in
  reset w
  = (Return tt, mkWorld (init rpm b mult mr ird (Time.now (clock w))) (clock w)).
Proof.
  intros w.
  pose proof (run_calls_cfg cs (mkWorld (init rpm b mult mr ird (Time.now c)) c))
    as Hcfg.
  fold w in Hcfg. simpl in Hcfg.
  destruct w as [[cf tk lu h tr tw re] cl]. simpl in Hcfg. subst cf.
  reflexivity.
Qed.

End RateLimiterMore.

(** ** The writer: failed writes, the buffer, and small batch sizes *)

Module OutputWriterMore.
Import OutputWriter.

Section Writer.
Variable json_dumps : json_opts -> value -> string.
Variable gzip : string -> string.
Variable storage_ok : string -> bool.

(** The path of the batch file numbered [k] after the current count. *)
Definition next_path (w : t) (k : Z) : string :=
  path_of w (batch_filename w (batch_count w + k)).

Definition encoded (w : t) (batch : list value) : string :=
  if compress w then gzip (ndjson json_dumps batch) else ndjson json_dumps batch.

(** When the storage refuses a batch file, [flush_batch] raises OutputError
    and keeps the records in the buffer, but the batch number is used up:
    the next flush, once the storage accepts it, writes the same records
    under the following number, and from then on [batch_count] is one more
    than the number of batch files. *)
Theorem failed_flush_keeps_the_batch (w : world) :
  current_batch (self w) <> [] ->
  storage_ok (next_path (self w) 1) = false ->
  storage_ok (next_path (self w) 2) = true ->
  exists w1 w2,
    flush_batch json_dumps gzip storage_ok w = (Raise OutputError, w1)
    /\ current_batch (self w1) = current_batch (self w)
    /\ total_records (self w1) = total_records (self w)
    /\ batch_files (self w1) = batch_files (self w)
    /\ files w1 = files w
    /\ batch_count (self w1) = batch_count (self w) + 1
    /\ flush_batch json_dumps gzip storage_ok w1
       = (Return (Some (batch_filename (self w) (batch_count (self w) + 2))), w2)
    /\ current_batch (self w2) = []
    /\ batch_count (self w2) = batch_count (self w) + 2
    /\ batch_files (self w2)
       = batch_files (self w)
         ++ [batch_filename (self w) (batch_count (self w) + 2)]
    /\ files w2
       = <[next_path (self w) 2 := encoded (self w) (current_batch (self w))]>
           (files w).
Proof.
  destruct w as [[p m B cmp dir id cb c t bf] fs]. simpl.
  unfold next_path, encoded. simpl. intros Hcb Hbad Hgood.
  destruct cb as [|r cb]; [done|].
  unfold flush_batch, bind, on_self, gets, assign, modify, store, path_of,
    batch_filename in *. simpl in *.
  rewrite Hbad. simpl.
  eexists. eexists. split; [reflexivity|]. simpl.
  replace (c + 1 + 1) with (c + 2) by lia.
  rewrite Hgood. simpl. split_and!; reflexivity.
Qed.

Hypothesis storage_accepts : forall path, storage_ok path = true.

(** Writing never loses or duplicates a record and never lets the buffer
    reach the batch size: for a batch size of at least 1, after any number
    of [write_record] calls the buffer holds fewer than [batch_size]
    records, and the flushed batches, all full, together with the buffer
    account for every record written. *)
Theorem writes_keep_every_record (w : world) (rs : list value) :
  1 <= batch_size (self w) ->
  Z.of_nat (length (current_batch (self w))) < batch_size (self w) ->
  exists w',
    write_records json_dumps gzip storage_ok rs w = (Return tt, w')
    /\ total_records (self w') = total_records (self w) + Z.of_nat (length rs)
    /\ Z.of_nat (length (current_batch (self w'))) < batch_size (self w)
    /\ batch_size (self w) * batch_count (self w')
       + Z.of_nat (length (current_batch (self w')))
       = batch_size (self w) * batch_count (self w)
         + Z.of_nat (length (current_batch (self w))) + Z.of_nat (length rs)
    /\ Z.of_nat (length (batch_files (self w')))
       = Z.of_nat (length (batch_files (self w)))
         + (batch_count (self w') - batch_count (self w))
    /\ exists flushed,
         current_batch (self w) ++ rs = flushed ++ current_batch (self w').
Proof.
  destruct w as [[p m B cmp dir id cb c t bf] fs]. simpl. intros HB Hcb.
  pose proof (OutputWriterProps.write_records_spec json_dumps gzip storage_ok
                storage_accepts p m B cmp dir id rs cb c t bf fs HB Hcb) as Hrun.
  simpl in Hrun. unfold OutputWriterProps.st in Hrun.
  eexists. split; [exact Hrun|]. simpl.
  set (b := Z.to_nat B) in *.
  set (all := cb ++ rs) in *.
  assert (Hb : (0 < b)%nat) by (unfold b; lia).
  assert (Hlen : length all = (length cb + length rs)%nat)
    by (unfold all; apply length_app).
  pose proof (Nat.div_mod_eq (length all) b) as Hdm.
  pose proof (Nat.mod_upper_bound (length all) b ltac:(lia)) as Hmod.
  set (q := (length all / b)%nat) in *.
  assert (Hdrop : length (drop (q * b) all) = (length all mod b)%nat).
  { rewrite length_drop. lia. }
  assert (HbB : Z.of_nat b = B) by (unfold b; lia).
  split_and!.
  - done.
  - rewrite Hdrop. lia.
  - rewrite Hdrop. nia.
  - rewrite length_app, length_map, length_seq. lia.
  - exists (take (q * b) all). by rewrite take_drop.
Qed.

(** A batch size of 1, of 0 or below 0 does not fail and does not switch
    batching off: every record is flushed as soon as it is written, into a
    file of its own. *)
Theorem batch_size_below_two_gives_one_file_per_record
    (p : string) (m : storage_mode) (B : Z) (cmp : bool) (dir id : string)
    (rs : list value) (fs0 : gmap string string) :
  B <= 1 ->
  let w0 := init p m B cmp dir id in
  exists w',
    write_records json_dumps gzip storage_ok rs (mkWorld w0 fs0) = (Return tt, w')
    /\ current_batch (self w') = []
    /\ batch_count (self w') = Z.of_nat (length rs)
    /\ total_records (self w') = Z.of_nat (length rs)
    /\ length (batch_files (self w')) = length rs
    /\ forall (i : nat) (r : value), rs !! i = Some r ->
         files w' !! path_of w0 (batch_filename w0 (Z.of_nat (S i)))
         = Some (encoded w0 [r]).
Proof.
  intros HB w0.
  assert (Hgen : forall rs c t bf fs,
    write_records json_dumps gzip storage_ok rs
      (mkWorld (OutputWriterProps.st p m B cmp dir id [] c t bf) fs)
    = (Return tt,
       mkWorld (OutputWriterProps.st p m B cmp dir id [] (c + Z.of_nat (length rs))
                  (t + Z.of_nat (length rs))
                  (bf ++ map (fun i => OutputWriterProps.name p m B cmp dir id
                                         (c + 1 + Z.of_nat i))
                             (seq 0 (length rs))))
               (OutputWriterProps.stored json_dumps gzip p m B cmp dir id c 1 rs
                  (length rs) fs))).
  { clear rs. induction rs as [|r rs IH]; intros c t bf fs.
    - simpl. rewrite !Z.add_0_r, app_nil_r. reflexivity.
    - cbn [write_records]. unfold bind at 1.
      rewrite (OutputWriterProps.write_record_spec json_dumps gzip storage_ok
                 storage_accepts).
      assert (E : (B <=? Z.of_nat (length ([] ++ [r]))) = true)
        by (apply Z.leb_le; simpl; lia).
      rewrite E. rewrite IH. f_equal. f_equal.
      + unfold OutputWriterProps.st. f_equal; simpl length; try lia.
        rewrite <- app_assoc. f_equal. simpl. f_equal.
        * f_equal. lia.
        * rewrite <- seq_shift, map_map. apply map_ext. intros i. f_equal. lia.
      + simpl length.
        rewrite (OutputWriterProps.stored_shift json_dumps gzip p m B cmp dir id
                   (length rs) c 1 (r :: rs) [r] rs); done. }
  eexists. split; [apply (Hgen rs 0 0 [] fs0)|]. simpl.
  split_and!; try done.
  - by rewrite length_map, length_seq.
  - intros i r Hi.
    pose proof (OutputWriterProps.stored_lookup json_dumps gzip p m B cmp dir id
                  0 1 rs (length rs) fs0 i (Z.le_refl 0)
                  (lookup_lt_Some _ _ _ Hi)) as Hl.
    rewrite Nat.mul_1_r in Hl.
    rewrite (drop_S _ _ _ Hi) in Hl. simpl in Hl.
    replace (Z.of_nat (S i)) with (0 + 1 + Z.of_nat i) by lia.
    exact Hl.
Qed.

End Writer.
End OutputWriterMore.

(** ** The checkpoint store: what is kept, what is overwritten *)

Lemma dict_lookup_update_ne (k : string) (e : dict) : forall d : dict,
  dict_lookup k e = None ->
  dict_lookup k (dict_update e d) = dict_lookup k d.
Proof.
  unfold dict_update.
  induction e as [|[k' v] e IH]; intros d He; simpl in *; [done|].
  destruct (String.eqb k k') eqn:E; [done|].
  rewrite (IH _ He). apply dict_lookup_set_ne.
  intros ->. by rewrite String.eqb_refl in E.
Qed.

Lemma dict_set_truthy (k : string) (v : value) (d : dict) :
  truthy (VDict (dict_set k v d)) = true.
Proof.
  destruct d as [|[k' v'] d]; simpl; [done|]. by destruct (String.eqb k k').
Qed.


Module CheckpointMore.
Import CheckpointManager.

Section Props.
Variable json_loads : string -> option value.
Variable json_dumps : json_opts -> value -> string.
Variable isoformat : Q -> string.
Variable storage_ok : string -> bool.
Variable self : t.

Definition path : string := checkpoint_path self.
Definition tmp : string := checkpoint_path self +:+ ".tmp".
Definition stamp (w : world) (c : dict) : dict :=
  CheckpointProps.stamped isoformat self (Time.now (clock w)) c.
Definition doc (w : world) (c : dict) : string :=
  CheckpointProps.document json_dumps isoformat self (Time.now (clock w)) c.

(** The storage after a save of [c] has replaced the checkpoint file. *)
Definition saved (w : world) (c : dict) : world :=
  mkWorld (<[path := doc w c]> (delete tmp (<[tmp := doc w c]> (files w))))
          (clock w).

(** [x[:20]] raises on [x]: a truthy value that is neither a string nor a
    list. *)
Definition unsliceable (x : value) : bool :=
  truthy x && match x with VStr _ | VList _ => false | _ => true end.


Lemma saved_path (w : world) (c : dict) : files (saved w c) !! path = Some (doc w c).
Proof. apply lookup_insert_eq. Qed.



Lemma stamp_cursor (w : world) (c : dict) :
  dict_lookup "cursor" (stamp w c) = dict_lookup "cursor" c.
Proof. unfold stamp. apply CheckpointProps.stamped_other; done. Qed.

(** What [save] does once the temporary file could be written. *)
Lemma save_outcome (w : world) (c : dict) :
  storage_ok tmp = true ->
  save json_dumps isoformat storage_ok self c w
  = (if unsliceable (dict_get "cursor" c) then Raise CheckpointError else Return tt,
     saved w c).
Proof.
  intros Hok. unfold save, write_file, replace_file, read_file.
  unfold try_except, bind, gets, modify.
  fold (CheckpointProps.stamped isoformat self (Time.now (clock w)) c).
  fold (stamp w c).
  fold (CheckpointProps.document json_dumps isoformat self (Time.now (clock w)) c).
  fold (doc w c). fold tmp. fold path. rewrite Hok. simpl.
  rewrite lookup_insert_eq. simpl. fold (saved w c).
  pose proof (stamp_cursor w c) as Hc.
  unfold dict_get, dict_get_default, unsliceable. rewrite Hc.
  destruct (dict_lookup "cursor" c) as [v|]; [|reflexivity].
  destruct v as [|b|n|q|s|l|d]; simpl; try reflexivity.
  - by destruct b.
  - by destruct (n =? 0).
  - by destruct (float_truthy q).
  - by destruct (String.eqb s "").
  - by destruct l.
  - by destruct d.
Qed.

Lemma load_saved (w : world) (c : dict) :
  is_Some (utf8_decode (doc w c)) ->
  json_loads (doc w c) = Some (VDict (stamp w c)) ->
  load json_loads self (saved w c) = (Return (Some (VDict (stamp w c))), saved w c).
Proof.
  intros Hutf Hjson.
  apply (CheckpointProps.load_object json_loads self (saved w c) (doc w c));
    [apply saved_path|done|done].
Qed.

Lemma sliceable_cursor (c : dict) :
  CheckpointProps.cursor_ok c -> unsliceable (dict_get "cursor" c) = false.
Proof.
  unfold CheckpointProps.cursor_ok, unsliceable.
  destruct (dict_get "cursor" c); try done. intros _. apply andb_false_r.
Qed.



(** A cursor that is truthy but cannot be sliced (a number, [True], a
    non-empty dict) makes [save] raise CheckpointError from its log line,
    after the checkpoint file has been replaced: the failure is reported
    although the checkpoint is stored. *)
Theorem unsliceable_cursor_is_saved_then_raises (w : world) (c : dict) :
  storage_ok (checkpoint_path self +:+ ".tmp") = true ->
  unsliceable (dict_get "cursor" c) = true ->
  exists w',
    save json_dumps isoformat storage_ok self c w = (Raise CheckpointError, w')
    /\ files w' !! checkpoint_path self = Some (doc w c)
    /\ dict_lookup "cursor" (stamp w c) = dict_lookup "cursor" c.
Proof.
  intros Hok Hcur. exists (saved w c).
  rewrite (save_outcome w c Hok), Hcur.
  split_and!; [done|apply saved_path|apply stamp_cursor].
Qed.

Lemma load_or_empty_saved (w : world) (c : dict) :
  is_Some (utf8_decode (doc w c)) ->
  json_loads (doc w c) = Some (VDict (stamp w c)) ->
  load_or_empty json_loads self (saved w c) = (Return (stamp w c), saved w c).
Proof.
  intros Hutf Hjson. unfold load_or_empty, bind.
  by rewrite (load_saved w c Hutf Hjson).
Qed.

Lemma get_cursor_saved (w : world) (c : dict) :
  is_Some (utf8_decode (doc w c)) ->
  json_loads (doc w c) = Some (VDict (stamp w c)) ->
  CheckpointProps.cursor_ok c ->
  get_cursor json_loads self (saved w c) = (Return (dict_get "cursor" c), saved w c).
Proof.
  intros Hutf Hjson Hcur. unfold get_cursor, bind at 1.
  rewrite (load_or_empty_saved w c Hutf Hjson).
  assert (E : dict_get "cursor" (stamp w c) = dict_get "cursor" c)
    by (unfold dict_get, dict_get_default; by rewrite stamp_cursor).
  rewrite E. unfold CheckpointProps.cursor_ok in Hcur.
  destruct (dict_get "cursor" c); try done.
  unfold bind. simpl. by destruct (negb _).
Qed.

(** [save_cursor] adds to the count it finds: on a checkpoint that holds
    [records_processed = k] (or none, which counts as 0), after
    [save_cursor(s, n, extra)] with an [extra] that sets neither [cursor]
    nor [records_processed], the stored checkpoint has cursor [s] and
    [records_processed = k + n], and [get_cursor] returns [s]. *)
Theorem save_cursor_accumulates (w : world) (d0 extra : dict) (s : string)
    (k n : Z) :
  let c := dict_update extra
             (dict_set "records_processed" (VInt (k + n))
                (dict_set "cursor" (VStr s) d0)) in
  load_or_empty json_loads self w = (Return d0, w) ->
  dict_get_default "records_processed" (VInt 0) d0 = VInt k ->
  dict_lookup "cursor" extra = None ->
  dict_lookup "records_processed" extra = None ->
  storage_ok (checkpoint_path self +:+ ".tmp") = true ->
  is_Some (utf8_decode (doc w c)) ->
  json_loads (doc w c) = Some (VDict (stamp w c)) ->
  exists w' loaded,
    save_cursor json_loads json_dumps isoformat storage_ok self (VStr s) n extra w
    = (Return tt, w')
    /\ load json_loads self w' = (Return (Some (VDict loaded)), w')
    /\ dict_lookup "cursor" loaded = Some (VStr s)
    /\ dict_lookup "records_processed" loaded = Some (VInt (k + n))
    /\ get_cursor json_loads self w' = (Return (VStr s), w').
Proof.
  intros c Hload Hk Hec Her Hok Hutf Hjson.
  assert (Hcs : dict_lookup "cursor" c = Some (VStr s)).
  { unfold c. rewrite dict_lookup_update_ne by done.
    rewrite dict_lookup_set_ne by done. apply dict_lookup_set_eq. }
  assert (Hcur : CheckpointProps.cursor_ok c).
  { unfold CheckpointProps.cursor_ok, dict_get, dict_get_default.
    by rewrite Hcs. }
  exists (saved w c), (stamp w c). split_and!.
  - unfold save_cursor, bind at 1. rewrite Hload.
    assert (E : dict_get_default "records_processed" (VInt 0)
                  (dict_set "cursor" (VStr s) d0) = VInt k).
    { unfold dict_get_default in *. by rewrite dict_lookup_set_ne. }
    unfold bind. rewrite E. simpl. fold c.
    by rewrite (save_outcome w c Hok), (sliceable_cursor c Hcur).
  - by apply load_saved.
  - by rewrite stamp_cursor.
  - unfold stamp. rewrite CheckpointProps.stamped_other by done.
    unfold c. rewrite dict_lookup_update_ne by done. apply dict_lookup_set_eq.
  - rewrite (get_cursor_saved w c Hutf Hjson Hcur).
    unfold dict_get, dict_get_default. by rewrite Hcs.
Qed.

(** [update_progress] replaces the count and keeps the cursor: whatever
    [records_processed] the checkpoint held, afterwards (for an [extra]
    that sets neither [cursor] nor [records_processed]) it holds exactly
    the number given, and [get_cursor] returns the cursor it returned
    before. *)
Theorem update_progress_overwrites_the_count (w : world) (d0 extra : dict)
    (n : Z) :
  let c := dict_update extra (dict_set "records_processed" (VInt n) d0) in
  load_or_empty json_loads self w = (Return d0, w) ->
  CheckpointProps.cursor_ok d0 ->
  dict_lookup "cursor" extra = None ->
  dict_lookup "records_processed" extra = None ->
  storage_ok (checkpoint_path self +:+ ".tmp") = true ->
  is_Some (utf8_decode (doc w c)) ->
  json_loads (doc w c) = Some (VDict (stamp w c)) ->
  exists w' loaded,
    update_progress json_loads json_dumps isoformat storage_ok self n extra w
    = (Return tt, w')
    /\ load json_loads self w' = (Return (Some (VDict loaded)), w')
    /\ dict_lookup "records_processed" loaded = Some (VInt n)
    /\ dict_lookup "cursor" loaded = dict_lookup "cursor" d0
    /\ get_cursor json_loads self w' = (Return (dict_get "cursor" d0), w')
    /\ get_cursor json_loads self w = (Return (dict_get "cursor" d0), w).
Proof.
  intros c Hload Hcur0 Hec Her Hok Hutf Hjson.
  assert (Hcs : dict_lookup "cursor" c = dict_lookup "cursor" d0).
  { unfold c. rewrite dict_lookup_update_ne by done.
    by rewrite dict_lookup_set_ne. }
  assert (Hcur : CheckpointProps.cursor_ok c).
  { unfold CheckpointProps.cursor_ok, dict_get, dict_get_default in *.
    by rewrite Hcs. }
  exists (saved w c), (stamp w c). split_and!.
  - unfold update_progress, bind at 1. rewrite Hload. fold c.
    by rewrite (save_outcome w c Hok), (sliceable_cursor c Hcur).
  - by apply load_saved.
  - unfold stamp. rewrite CheckpointProps.stamped_other by done.
    unfold c. rewrite dict_lookup_update_ne by done. apply dict_lookup_set_eq.
  - by rewrite stamp_cursor.
  - rewrite (get_cursor_saved w c Hutf Hjson Hcur).
    unfold dict_get, dict_get_default. by rewrite Hcs.
  - unfold get_cursor, bind at 1. rewrite Hload.
    unfold CheckpointProps.cursor_ok in Hcur0.
    destruct (dict_get "cursor" d0); try done.
    unfold bind. simpl. by destruct (negb _).
Qed.

(** After a [save], [get_progress] reports the saved checkpoint: its count
    (0 when it has none), its cursor, the time stamp of the save, and
    [has_checkpoint = True]. *)
Theorem get_progress_reports_the_saved_checkpoint (w : world) (c : dict) :
  storage_ok (checkpoint_path self +:+ ".tmp") = true ->
  CheckpointProps.cursor_ok c ->
  is_Some (utf8_decode (doc w c)) ->
  json_loads (doc w c) = Some (VDict (stamp w c)) ->
  exists w',
    save json_dumps isoformat storage_ok self c w = (Return tt, w')
    /\ get_progress json_loads self w'
       = (Return [ ("records_processed",
                    dict_get_default "records_processed" (VInt 0) c);
                   ("cursor", dict_get "cursor" c);
                   ("last_update", VStr (isoformat (Time.now (clock w)) +:+ "Z"));
                   ("has_checkpoint", VBool true) ], w').
Proof.
  intros Hok Hcur Hutf Hjson. exists (saved w c).
  rewrite (save_outcome w c Hok), (sliceable_cursor c Hcur). split; [done|].
  unfold get_progress, bind at 1. rewrite (load_saved w c Hutf Hjson).
  assert (Ht : truthy (VDict (stamp w c)) = true) by apply dict_set_truthy.
  rewrite Ht. unfold get_attr, bind, ret. simpl.
  assert (E1 : dict_get_default "records_processed" (VInt 0) (stamp w c)
               = dict_get_default "records_processed" (VInt 0) c).
  { unfold dict_get_default, stamp. by rewrite CheckpointProps.stamped_other. }
  assert (E2 : dict_get_default "cursor" VNone (stamp w c) = dict_get "cursor" c).
  { unfold dict_get, dict_get_default. by rewrite stamp_cursor. }
  assert (E3 : dict_get_default "last_update" VNone (stamp w c)
               = VStr (isoformat (Time.now (clock w)) +:+ "Z")).
  { unfold dict_get_default, stamp, CheckpointProps.stamped.
    rewrite dict_lookup_set_ne by done. by rewrite dict_lookup_set_eq. }
  by rewrite E1, E2, E3.
Qed.

Definition no_progress : dict :=
  [ ("records_processed", VInt 0); ("cursor", VNone); ("last_update", VNone);
    ("has_checkpoint", VBool false) ].

(** [get_progress] reports no checkpoint not only when the file is missing
    but also when it exists and holds an empty object, or text that is not
    JSON. *)
Theorem empty_checkpoint_counts_as_none (w : world) :
  (files w !! checkpoint_path self = None \/
   exists bytes, files w !! checkpoint_path self = Some bytes
                 /\ is_Some (utf8_decode bytes)
                 /\ (json_loads bytes = Some (VDict []) \/ json_loads bytes = None)) ->
  get_progress json_loads self w = (Return no_progress, w).
Proof.
  intros [Hnone|(bytes & Hf & [cps Hutf] & Hj)];
    unfold get_progress, bind at 1, load, json_load, decode_utf8, get_attr, read_file;
    unfold try_except, bind, gets, ret, raise.
  - by rewrite Hnone.
  - rewrite Hf, Hutf. simpl. by destruct Hj as [-> | ->].
Qed.

(** [clear] forgets the checkpoint and nothing else.  When there is no
    checkpoint file, or the storage lets it go, [clear] returns, and
    afterwards [load] returns [None], [get_cursor] returns [None],
    [get_progress] reports no checkpoint, and every other file is
    untouched.  When the storage refuses to remove the file, [clear] raises
    CheckpointError and the checkpoint stays as it was. *)
Theorem clear_forgets_the_checkpoint (w : world) :
  ((files w !! checkpoint_path self = None
    \/ storage_ok (checkpoint_path self) = true) ->
   exists w',
     clear storage_ok self w = (Return tt, w')
     /\ load json_loads self w' = (Return None, w')
     /\ get_cursor json_loads self w' = (Return VNone, w')
     /\ get_progress json_loads self w' = (Return no_progress, w')
     /\ (forall p, p <> checkpoint_path self -> files w' !! p = files w !! p)
     /\ clock w' = clock w)
  /\ (is_Some (files w !! checkpoint_path self) ->
      storage_ok (checkpoint_path self) = false ->
      clear storage_ok self w = (Raise CheckpointError, w)).
Proof.
  assert (Hgone : forall w', files w' !! checkpoint_path self = None ->
            load json_loads self w' = (Return None, w')
            /\ get_cursor json_loads self w' = (Return VNone, w')
            /\ get_progress json_loads self w' = (Return no_progress, w')).
  { intros w' Hnone.
    assert (Hl : load json_loads self w' = (Return None, w')).
    { unfold load, read_file, try_except, bind, gets. by rewrite Hnone. }
    split_and!; [done| |].
    - unfold get_cursor, load_or_empty, bind. by rewrite Hl.
    - unfold get_progress, bind. by rewrite Hl. }
  split.
  - intros Hcan.
    unfold clear, remove_file, read_file, try_except, bind, gets.
    destruct (files w !! checkpoint_path self) as [content|] eqn:Hf.
    + destruct Hcan as [Hnone|Hok]; [done|]. rewrite Hok.
      eexists. split; [reflexivity|].
      destruct (Hgone (mkWorld (delete (checkpoint_path self) (files w)) (clock w)))
        as (H1 & H2 & H3); [apply lookup_delete_eq|].
      split_and!; try done.
      intros p Hp. by apply lookup_delete_ne.
    + exists w. split; [reflexivity|].
      destruct (Hgone w Hf) as (H1 & H2 & H3). split_and!; done.
  - intros [content Hf] Hno.
    unfold clear, remove_file, read_file, try_except, bind, gets.
    by rewrite Hf, Hno.
Qed.

End Props.
End CheckpointMore.

(** ** Runs of the limiter, the writer and the checkpoint store *)

Module MoreRuns.
Import Scenario.

(** The limiter of the tests, 180 requests a minute with a burst of 5: five
    requests in a row go through without a sleep. *)
Lemma burst_requests_witness :
  let w := RateLimiter.run_calls (RateLimiterMore.waits [0; 0; 0; 0; 0]%Q)
             (RateLimiter.mkWorld (RateLimiter.init 180 5 2 3 60 noon)
                                  (Time.mk noon [])) in
  Time.sleeps (RateLimiter.clock w) = []
  /\ RateLimiter.total_requests (RateLimiter.self w) = 5
  /\ RateLimiter.total_wait_time (RateLimiter.self w) = 0%Q.
Proof.
  destruct (RateLimiterMore.burst_requests_never_wait 180 5 2 3 60
              (Time.mk noon []) [0; 0; 0; 0; 0]%Q) as (H1 & H2 & H3 & _).
  - lia.
  - simpl. lia.
  - repeat constructor; unfold Qle; simpl; lia.
  - split_and!; assumption.
Defined.

(** Scenario B with its one token used: the next call sleeps one second,
    which is [60 / requests_per_minute]. *)
Lemma wait_is_at_most_one_token_witness :
  let w := RateLimiter.mkWorld
             (RateLimiter.set_tokens 0 (RateLimiter.init 60 1 2 3 60 noon))
             (Time.mk noon []) in
  exists x w',
    RateLimiter.wait_if_needed w = (Return x, w')
    /\ (0 <= x)%Q /\ (x <= 1)%Q.
Proof.
  intros w.
  destruct (RateLimiterMore.wait_is_at_most_one_token w)
    as (x & w' & Hrun & H0 & H1 & _).
  - repeat split; unfold Qle; simpl; lia.
  - unfold Qlt. simpl. lia.
  - exists x, w'. split; [exact Hrun|]. split; [exact H0|].
    eapply Qle_trans; [exact H1|]. unfold Qle. simpl. lia.
Defined.

(** [RateLimiter(requests_per_minute=0, burst=2)]: two requests pass, the
    third raises ZeroDivisionError. *)
Lemma zero_rate_limiter_witness :
  let w := RateLimiter.run_calls (RateLimiterMore.waits [0; 0]%Q)
             (RateLimiter.mkWorld (RateLimiter.init 0 2 2 3 60 noon)
                                  (Time.mk noon [])) in
  RateLimiter.total_requests (RateLimiter.self w) = 2
  /\ fst (RateLimiter.wait_if_needed
            (RateLimiter.mkWorld (RateLimiter.self w)
               (Time.elapse 0 (RateLimiter.clock w))))
     = Raise ZeroDivisionError.
Proof.
  destruct (RateLimiterMore.zero_rate_limiter_raises 2 2 3 60 (Time.mk noon [])
              [0; 0]%Q 0%Q) as (H1 & _ & w' & Hrun & _).
  - reflexivity.
  - repeat constructor; unfold Qle; simpl; lia.
  - unfold Qle. simpl. lia.
  - split; [exact H1|]. exact (f_equal fst Hrun).
Defined.

(** A storage that refuses the first batch file of the writer of the
    examples. *)
Definition first_batch_path : string :=
  "output/meta/meta_ads_20240115_120000_batch_0001.ndjson".

Definition refuses_first_batch (path : string) : bool :=
  negb (String.eqb path first_batch_path).

Definition one_buffered : OutputWriter.world :=
  OutputWriter.mkWorld
    (OutputWriter.set_total_records 1
       (OutputWriter.set_current_batch [VDict [("ad_id", VStr "0")]] writer)) ∅.

(** The first flush fails and keeps the record, the second writes it as
    batch 2; no batch 1 exists. *)
Lemma failed_flush_witness :
  exists w1 w2,
    OutputWriter.flush_batch PyJson.dumps no_gzip refuses_first_batch one_buffered
    = (Raise OutputError, w1)
    /\ OutputWriter.current_batch (OutputWriter.self w1)
       = [VDict [("ad_id", VStr "0")]]
    /\ OutputWriter.flush_batch PyJson.dumps no_gzip refuses_first_batch w1
       = (Return (Some "meta_ads_20240115_120000_batch_0002.ndjson"), w2)
    /\ OutputWriter.batch_count (OutputWriter.self w2) = 2
    /\ OutputWriter.batch_files (OutputWriter.self w2)
       = ["meta_ads_20240115_120000_batch_0002.ndjson"].
Proof.
  destruct (OutputWriterMore.failed_flush_keeps_the_batch PyJson.dumps no_gzip
              refuses_first_batch one_buffered)
    as (w1 & w2 & H1 & H2 & _ & _ & _ & _ & H3 & _ & H4 & H5 & _).
  - discriminate.
  - reflexivity.
  - reflexivity.
  - exists w1, w2. split_and!; assumption.
Defined.

(** Five records into a writer of batch size 2: two full batches are
    flushed and one record stays in the buffer. *)
Lemma writes_keep_every_record_witness :
  exists w',
    OutputWriter.write_records PyJson.dumps no_gzip always (take 5 six_records)
      (OutputWriter.mkWorld
         (OutputWriter.init "meta" OutputWriter.Local 2 false "output/meta"
                            "20240115_120000") ∅)
    = (Return tt, w')
    /\ OutputWriter.total_records (OutputWriter.self w') = 5
    /\ Z.of_nat (length (OutputWriter.current_batch (OutputWriter.self w'))) < 2
    /\ 2 * OutputWriter.batch_count (OutputWriter.self w')
       + Z.of_nat (length (OutputWriter.current_batch (OutputWriter.self w'))) = 5.
Proof.
  destruct (OutputWriterMore.writes_keep_every_record PyJson.dumps no_gzip always
              (fun _ => eq_refl)
              (OutputWriter.mkWorld
                 (OutputWriter.init "meta" OutputWriter.Local 2 false "output/meta"
                                    "20240115_120000") ∅)
              (take 5 six_records))
    as (w' & H1 & H2 & H3 & H4 & _).
  - simpl. lia.
  - simpl. lia.
  - exists w'. split_and!; assumption.
Defined.

(** [batch_size=0]: three records, three files. *)
Lemma batch_size_zero_witness :
  exists w',
    OutputWriter.write_records PyJson.dumps no_gzip always (take 3 six_records)
      (OutputWriter.mkWorld
         (OutputWriter.init "meta" OutputWriter.Local 0 false "output/meta"
                            "20240115_120000") ∅)
    = (Return tt, w')
    /\ OutputWriter.batch_count (OutputWriter.self w') = 3
    /\ OutputWriter.current_batch (OutputWriter.self w') = []
    /\ OutputWriter.files w'
         !! "output/meta/meta_ads_20240115_120000_batch_0003.ndjson"
       = Some (PyJson.dumps {| indent := None; ensure_ascii := false |}
                 (VDict [("ad_id", VStr "2")])).
Proof.
  destruct (OutputWriterMore.batch_size_below_two_gives_one_file_per_record
              PyJson.dumps no_gzip always (fun _ => eq_refl)
              "meta" OutputWriter.Local 0 false "output/meta" "20240115_120000"
              (take 3 six_records) ∅)
    as (w' & H1 & H2 & H3 & _ & _ & H4).
  - lia.
  - exists w'. split_and!; try assumption.
    apply (H4 2%nat (VDict [("ad_id", VStr "2")])). reflexivity.
Defined.

(** The store with the checkpoint of an earlier run (cursor [c0], 5
    records). *)
Definition resumed_store : CheckpointManager.world :=
  CheckpointManager.mkWorld earlier_checkpoint (Time.mk noon []).

Definition refuses_all (_ : string) : bool := false.



(** [save({"cursor": 12345})]: CheckpointError, and the file is written. *)
Lemma unsliceable_cursor_witness :
  exists w',
    save [("cursor", VInt 12345)] store0 = (Raise CheckpointError, w')
    /\ is_Some (CheckpointManager.files w' !! ".checkpoints/meta_checkpoint.json").
Proof.
  destruct (CheckpointMore.unsliceable_cursor_is_saved_then_raises PyJson.dumps
              PyBuiltins.isoformat always manager store0 [("cursor", VInt 12345)])
    as (w' & H1 & H2 & _).
  - reflexivity.
  - reflexivity.
  - exists w'. split; [exact H1|]. change (is_Some
      (CheckpointManager.files w' !! CheckpointManager.checkpoint_path manager)).
    rewrite H2. eauto.
Defined.

(** [save_cursor("c1", 3)] on the checkpoint of the earlier run: 5 + 3. *)
Lemma save_cursor_accumulates_witness :
  exists w' loaded,
    CheckpointManager.save_cursor PyJson.loads PyJson.dumps PyBuiltins.isoformat
      always manager (VStr "c1") 3 [("total_fetched", VInt 3)] resumed_store
    = (Return tt, w')
    /\ load w' = (Return (Some (VDict loaded)), w')
    /\ dict_lookup "records_processed" loaded = Some (VInt 8)
    /\ CheckpointManager.get_cursor PyJson.loads manager w' = (Return (VStr "c1"), w').
Proof.
  destruct (CheckpointMore.save_cursor_accumulates PyJson.loads PyJson.dumps
              PyBuiltins.isoformat always manager resumed_store
              [("cursor", VStr "c0"); ("records_processed", VInt 5)]
              [("total_fetched", VInt 3)] "c1" 5 3)
    as (w' & loaded & H1 & H2 & _ & H3 & H4).
  - vm_compute. reflexivity.
  - reflexivity.
  - reflexivity.
  - reflexivity.
  - reflexivity.
  - vm_compute. eauto.
  - vm_compute. reflexivity.
  - exists w', loaded. split_and!; assumption.
Defined.

(** [update_progress(1)] on the checkpoint of the earlier run: the count
    becomes 1, the cursor stays [c0]. *)
Lemma update_progress_witness :
  exists w' loaded,
    CheckpointManager.update_progress PyJson.loads PyJson.dumps
      PyBuiltins.isoformat always manager 1 [("status", VStr "completed")]
      resumed_store
    = (Return tt, w')
    /\ load w' = (Return (Some (VDict loaded)), w')
    /\ dict_lookup "records_processed" loaded = Some (VInt 1)
    /\ CheckpointManager.get_cursor PyJson.loads manager w' = (Return (VStr "c0"), w').
Proof.
  destruct (CheckpointMore.update_progress_overwrites_the_count PyJson.loads
              PyJson.dumps PyBuiltins.isoformat always manager resumed_store
              [("cursor", VStr "c0"); ("records_processed", VInt 5)]
              [("status", VStr "completed")] 1)
    as (w' & loaded & H1 & H2 & H3 & _ & H4 & _).
  - vm_compute. reflexivity.
  - simpl. exact I.
  - reflexivity.
  - reflexivity.
  - reflexivity.
  - vm_compute. eauto.
  - vm_compute. reflexivity.
  - exists w', loaded. split_and!; assumption.
Defined.

(** [get_progress] after the save of [test_save_and_load]. *)
Lemma get_progress_witness :
  exists w',
    save test_data store0 = (Return tt, w')
    /\ CheckpointManager.get_progress PyJson.loads manager w'
       = (Return [ ("records_processed", VInt 1000); ("cursor", VStr "abc123");
                   ("last_update", VStr "2024-01-15T12:00:00Z");
                   ("has_checkpoint", VBool true) ], w').
Proof.
  destruct (CheckpointMore.get_progress_reports_the_saved_checkpoint PyJson.loads
              PyJson.dumps PyBuiltins.isoformat always manager store0 test_data)
    as (w' & H1 & H2).
  - reflexivity.
  - simpl. exact I.
  - vm_compute. eauto.
  - vm_compute. reflexivity.
  - exists w'. split; [exact H1|exact H2].
Defined.

(** Clearing the checkpoint of the earlier run: on a storage that lets
    the file go it is forgotten, on one that refuses [clear] raises and the
    file is still there. *)
Lemma clear_witness :
  (exists w',
     CheckpointManager.clear always manager resumed_store = (Return tt, w')
     /\ load w' = (Return None, w'))
  /\ CheckpointManager.clear refuses_all manager resumed_store
     = (Raise CheckpointError, resumed_store).
Proof.
  split.
  - destruct (proj1 (CheckpointMore.clear_forgets_the_checkpoint PyJson.loads
                       always manager resumed_store))
      as (w' & H1 & H2 & _).
    + right. reflexivity.
    + exists w'. split; [exact H1|exact H2].
  - apply (proj2 (CheckpointMore.clear_forgets_the_checkpoint PyJson.loads
                    refuses_all manager resumed_store)).
    + vm_compute. eauto.
    + reflexivity.
Defined.

(** A checkpoint file that holds [{}]. *)
Lemma empty_checkpoint_witness :
  let w := CheckpointManager.mkWorld
             {[ CheckpointManager.checkpoint_path manager := "{}" ]}
             (Time.mk noon []) in
  CheckpointManager.get_progress PyJson.loads manager w
  = (Return CheckpointMore.no_progress, w).
Proof.
  intros w.
  apply (CheckpointMore.empty_checkpoint_counts_as_none PyJson.loads manager w).
  right. exists "{}". split; [reflexivity|]. split; [vm_compute; eauto|].
  left. reflexivity.
Defined.

End MoreRuns.

(** ** The descriptive fields of a record *)

Module ExtractorFacts.
Import Extractors.

(** The creative field [field] of the raw ad is a list of the strings [ss],
    or is absent and [ss] is empty. *)
Definition texts (field : string) (raw_ad : dict) (ss : list string) : Prop :=
  dict_get_default field (VList []) raw_ad = VList (map VStr ss).

Lemma extend_from_texts (field : string) (raw_ad : dict) (ss : list string)
    (content_parts : list value) :
  texts field raw_ad ss ->
  extend_from field raw_ad content_parts
  = (Return tt, content_parts ++ map VStr ss).
Proof.
  unfold texts, extend_from. intros ->.
  destruct ss as [|s ss]; simpl; [by rewrite app_nil_r|reflexivity].
Qed.

Lemma kept_text {S} (s : string) (s0 : S) :
  kept (VStr s) s0 = (Return (if isblank s then None else Some s), s0).
Proof. destruct s; reflexivity. Qed.

Lemma kept_parts_texts {S} (ss : list string) (s0 : S) :
  kept_parts (map VStr ss) s0
  = (Return (List.filter (fun s => negb (isblank s)) ss), s0).
Proof.
  induction ss as [|s ss IH]; [reflexivity|].
  cbn [map kept_parts]. unfold bind. rewrite kept_text, IH.
  cbn [List.filter]. destruct (isblank s); reflexivity.
Qed.

(** For creative fields that are lists of strings, [_extract_ad_content]
    returns the texts that are not blank, bodies first, then titles,
    descriptions and captions, joined by newlines; [None] when all four
    lists are empty or absent; and the empty string, not [None], when there
    are texts but all of them are blank. *)
Theorem extract_ad_content_joins_the_texts (raw_ad : dict)
    (bodies titles descriptions captions : list string) :
  texts "ad_creative_bodies" raw_ad bodies ->
  texts "ad_creative_link_titles" raw_ad titles ->
  texts "ad_creative_link_descriptions" raw_ad descriptions ->
  texts "ad_creative_link_captions" raw_ad captions ->
  _extract_ad_content raw_ad
  = Return (match bodies ++ titles ++ descriptions ++ captions with
            | [] => VNone
            | parts =>
                VStr (String.concat nl
                        (List.filter (fun s => negb (isblank s)) parts))
            end).
Proof.
  intros Hb Ht Hd Hc. unfold _extract_ad_content, bind.
  rewrite (extend_from_texts _ _ _ _ Hb), (extend_from_texts _ _ _ _ Ht),
    (extend_from_texts _ _ _ _ Hd), (extend_from_texts _ _ _ _ Hc).
  unfold gets, id. rewrite !app_nil_l, <- !app_assoc, <- !map_app.
  destruct (bodies ++ titles ++ descriptions ++ captions) as [|s parts] eqn:E;
    [reflexivity|].
  cbn [map]. change (VStr s :: map VStr parts) with (map VStr (s :: parts)).
  rewrite kept_parts_texts. reflexivity.
Qed.

(** The entry [_build_targeting_data] makes for a field of the raw ad: none
    when the field is missing or falsy. *)
Definition targeting_entry (source target : string) (raw_ad : dict) : dict :=
  if truthy (dict_get source raw_ad) then [(target, dict_get source raw_ad)] else [].

(** [_build_targeting_data] returns the truthy ones among the five
    targeting fields of the raw ad, in a fixed order and with
    [delivery_by_region] renamed to [region_distribution]; when none is
    truthy it returns [None], never an empty dict. *)
Theorem build_targeting_data_keeps_truthy_fields (raw_ad : dict) :
  let targeting :=
    targeting_entry "demographic_distribution" "demographic_distribution" raw_ad
    ++ targeting_entry "delivery_by_region" "region_distribution" raw_ad
    ++ targeting_entry "target_ages" "target_ages" raw_ad
    ++ targeting_entry "target_gender" "target_gender" raw_ad
    ++ targeting_entry "target_locations" "target_locations" raw_ad in
  _build_targeting_data raw_ad
  = Return (match targeting with [] => VNone | _ => VDict targeting end)
  /\ _build_targeting_data raw_ad <> Return (VDict []).
Proof.
  unfold _build_targeting_data, copy_truthy, targeting_entry, bind, modify, gets.
  destruct (truthy (dict_get "demographic_distribution" raw_ad));
    destruct (truthy (dict_get "delivery_by_region" raw_ad));
    destruct (truthy (dict_get "target_ages" raw_ad));
    destruct (truthy (dict_get "target_gender" raw_ad));
    destruct (truthy (dict_get "target_locations" raw_ad));
    (split; [reflexivity|discriminate]).
Qed.

Section Audience.
Variable py_int : string -> option Z.

(** A float that is an infinity. *)
Definition infinite (v : value) : bool :=
  match v with
  | VFloat (Infinity _) => true
  | _ => false
  end.

Lemma int_of_outcome (x : value) :
  match int_of py_int x with
  | Return _ => infinite x = false
  | Raise e =>
      if infinite x then e = OverflowError else e = ValueError \/ e = TypeError
  end.
Proof.
  destruct x as [|b|n|[q|neg|]|s|l|d]; simpl; auto.
  destruct (py_int s); simpl; auto.
Qed.

(** [_parse_audience_size] returns [None] or a dict with an integer [min]
    and an integer [max], or raises OverflowError; it raises exactly when
    the audience is a non-empty dict whose lower bound is an infinite float
    ([int(float("inf"))], which the handler does not catch), or whose lower
    bound converts and whose upper bound is an infinite float.  A missing
    [upper_bound] counts as 0 (it is not taken from the lower bound as in
    [_parse_range]): an audience with a lower bound [lo] only comes out as
    [min = lo], [max = 0]. *)
Theorem audience_without_upper_bound_has_max_zero (audience_data : value) :
  (_parse_audience_size py_int audience_data = Return VNone
   \/ (exists lo hi,
         _parse_audience_size py_int audience_data
         = Return (VDict [("min", VInt lo); ("max", VInt hi)]))
   \/ _parse_audience_size py_int audience_data = Raise OverflowError)
  /\ (_parse_audience_size py_int audience_data = Raise OverflowError <->
      exists d,
        audience_data = VDict d /\ d <> []
        /\ (infinite (dict_get_default "lower_bound" (VInt 0) d) = true
            \/ (exists lo,
                  int_of py_int (dict_get_default "lower_bound" (VInt 0) d)
                  = Return lo)
               /\ infinite (dict_get_default "upper_bound" (VInt 0) d) = true))
  /\ forall d lo,
       audience_data = VDict d ->
       int_of py_int (dict_get_default "lower_bound" (VInt 0) d) = Return lo ->
       dict_lookup "upper_bound" d = None ->
       d <> [] ->
       _parse_audience_size py_int audience_data
       = Return (VDict [("min", VInt lo); ("max", VInt 0)]).
Proof.
  assert (Hrun : forall kv d,
            _parse_audience_size py_int (VDict (kv :: d))
            = match int_of py_int (dict_get_default "lower_bound" (VInt 0) (kv :: d)) with
              | Return lo =>
                  match int_of py_int
                          (dict_get_default "upper_bound" (VInt 0) (kv :: d)) with
                  | Return hi => Return (VDict [("min", VInt lo); ("max", VInt hi)])
                  | Raise e =>
                      if infinite (dict_get_default "upper_bound" (VInt 0) (kv :: d))
                      then Raise OverflowError else Return VNone
                  end
              | Raise e =>
                  if infinite (dict_get_default "lower_bound" (VInt 0) (kv :: d))
                  then Raise OverflowError else Return VNone
              end).
  { intros kv d. unfold _parse_audience_size.
    simpl truthy. simpl negb. cbv iota.
    unfold try_except, bind, Validation.lift.
    pose proof (int_of_outcome (dict_get_default "lower_bound" (VInt 0) (kv :: d)))
      as Hl.
    pose proof (int_of_outcome (dict_get_default "upper_bound" (VInt 0) (kv :: d)))
      as Hu.
    revert Hl.
    destruct (int_of py_int (dict_get_default "lower_bound" (VInt 0) (kv :: d)))
      as [lo|e].
    - intros _. unfold ret at 1. revert Hu.
      destruct (int_of py_int (dict_get_default "upper_bound" (VInt 0) (kv :: d)))
        as [hi|e]; [reflexivity|].
      unfold raise.
      destruct (infinite (dict_get_default "upper_bound" (VInt 0) (kv :: d)));
        [by intros ->|].
      by intros [-> | ->].
    - clear Hu. unfold raise.
      destruct (infinite (dict_get_default "lower_bound" (VInt 0) (kv :: d)));
        [by intros ->|].
      by intros [-> | ->]. }
  split_and!.
  - destruct audience_data as [| | | | | |[|kv d]]; try (by left).
    rewrite Hrun.
    destruct (int_of py_int (dict_get_default "lower_bound" _ _)) as [lo|e].
    + destruct (int_of py_int (dict_get_default "upper_bound" _ _)) as [hi|e].
      * right. left. by exists lo, hi.
      * destruct (infinite _); [by right; right|by left].
    + destruct (infinite _); [by right; right|by left].
  - split.
    + destruct audience_data as [| | | | | |[|kv d]]; try done.
      rewrite Hrun.
      destruct (int_of py_int (dict_get_default "lower_bound" (VInt 0) (kv :: d)))
        as [lo|e] eqn:El.
      * destruct (int_of py_int (dict_get_default "upper_bound" (VInt 0) (kv :: d)))
          as [hi|e] eqn:Eu; [done|].
        destruct (infinite (dict_get_default "upper_bound" (VInt 0) (kv :: d)))
          eqn:Iu; [|done].
        intros _. exists (kv :: d). split_and!; try done.
        right. split; [by exists lo|done].
      * destruct (infinite (dict_get_default "lower_bound" (VInt 0) (kv :: d)))
          eqn:Il; [|done].
        intros _. exists (kv :: d). split_and!; try done. by left.
    + intros (d & -> & Hd & Hinf). destruct d as [|kv d]; [done|].
      rewrite Hrun.
      pose proof (int_of_outcome (dict_get_default "lower_bound" (VInt 0) (kv :: d)))
        as Hl.
      pose proof (int_of_outcome (dict_get_default "upper_bound" (VInt 0) (kv :: d)))
        as Hu.
      destruct Hinf as [Hlow|[[lo Hlo] Hup]].
      * rewrite Hlow in *. revert Hl.
        by destruct (int_of py_int (dict_get_default "lower_bound" _ _)).
      * rewrite Hlo, Hup in *. revert Hu.
        by destruct (int_of py_int (dict_get_default "upper_bound" _ _)).
  - intros d lo -> Hlo Hup Hd. destruct d as [|kv d]; [done|].
    rewrite Hrun, Hlo. unfold dict_get_default at 1. by rewrite Hup.
Qed.

End Audience.

Lemma search_at_start (s entity : string) :
  paid_for_by_at s = Some entity -> search_paid_for_by s = Some entity.
Proof. intros H. destruct s; cbn [search_paid_for_by]; by rewrite H. Qed.

(** For bylines of the documented form, [Paid for by] followed by a name,
    [_extract_funding_entity] returns the name up to the end of the line,
    without the white space around it; the marker is matched whatever its
    case. *)
Theorem funding_entity_of_paid_for_by (raw_ad : dict) (marker name : string) :
  dict_get "bylines" raw_ad = VStr (marker +:+ name) ->
  In marker ["Paid for by "; "PAID FOR BY "; "paid for by "] ->
  line_of name <> "" ->
  _extract_funding_entity raw_ad = Return (VStr (py_strip (line_of name))).
Proof.
  intros Hb Hm Hname. unfold _extract_funding_entity. rewrite Hb.
  assert (Hat : paid_for_by_at (marker +:+ name) = Some (line_of name)).
  { unfold paid_for_by_at.
    assert (E : ci_literal "paid for by " (marker +:+ name) = Some name).
    { destruct Hm as [<-|[<-|[<-|[]]]]; reflexivity. }
    rewrite E. destruct (line_of name); [done|reflexivity]. }
  rewrite (search_at_start _ _ Hat).
  assert (Ht : truthy (VStr (marker +:+ name)) = true).
  { destruct Hm as [<-|[<-|[<-|[]]]]; reflexivity. }
  rewrite Ht. reflexivity.
Qed.

End ExtractorFacts.

(** ** Transformation followed by validation *)

Module PipelineFacts.
Import Validation.

Section Props.
Variable py_str : value -> string.
Variable py_float : string -> option pyfloat.
Variable fromisoformat : string -> bool.
Variable _extract_ad_content : dict -> result value.
Variable _extract_funding_entity : dict -> result value.
Variable _build_targeting_data : dict -> result value.
Variable _parse_audience_size : value -> result value.
Variable extracted_at : string.
Variable api_version : string.

Definition transform : value -> result dict :=
  transform_ad py_str py_float _extract_ad_content _extract_funding_entity
               _build_targeting_data _parse_audience_size extracted_at api_version.

Definition float_or_none (v : value) : Prop := v = VNone \/ exists q, v = VFloat q.

(** Whatever it is given, [_parse_range] returns a dict with exactly the
    keys [min] and [max], each [None] or a float. *)
Lemma parse_range_shape (range_data : value) :
  exists a b,
    _parse_range py_str py_float range_data = [("min", a); ("max", b)]
    /\ float_or_none a /\ float_or_none b.
Proof.
  unfold float_or_none.
  destruct range_data as [| | | | | |d]; try (exists VNone, VNone; by eauto).
  unfold _parse_range. destruct d as [|kv d]; [exists VNone, VNone; by eauto|].
  simpl truthy. simpl negb. cbv iota.
  unfold try_except, bind, parse_bound, modify, ret, raise.
  destruct (is_none (dict_get "lower_bound" (kv :: d))); simpl.
  - destruct (is_none (dict_get "upper_bound" (kv :: d))); simpl; [by eauto 10|].
    destruct (py_float _); simpl; by eauto 10.
  - destruct (py_float _); simpl; [|by eauto 10].
    destruct (is_none (dict_get "upper_bound" (kv :: d))); simpl; [by eauto 10|].
    destruct (py_float _); simpl; by eauto 10.
Qed.

(** [validate_record] never raises on a record that [transform_ad] has
    produced, whatever the raw ad holds: it returns valid, or invalid with
    a reason. *)
Theorem validation_of_a_transformed_record_returns (raw : value) (rec : dict) :
  transform raw = Return rec ->
  validate_record py_str fromisoformat rec = Return (true, None)
  \/ exists reason,
       validate_record py_str fromisoformat rec = Return (false, Some reason).
Proof.
  intros Ht. destruct raw as [| | | | | |raw_ad]; try discriminate.
  apply ValidationProps.transform_ad_fields in Ht as (Hmin & Hmax & _ & _).
  destruct (parse_range_shape (dict_get_default "spend" (VDict []) raw_ad))
    as (a & b & Hr & Ha & Hb).
  rewrite Hr in Hmin, Hmax.
  change (dict_get "min" [("min", a); ("max", b)]) with a in Hmin.
  change (dict_get "max" [("min", a); ("max", b)]) with b in Hmax.
  unfold validate_record. rewrite ValidationProps.required_fields_spec.
  remember (check_dates py_str fromisoformat rec
              ["start_date"; "end_date"; "ad_creation_time"]) as dates eqn:Ed.
  symmetry in Ed.
  destruct (find _ required_fields); simpl; [by eauto|].
  destruct (negb (truthy _) || isblank _); [by eauto|].
  destruct (negb (py_eq _ _)); [by eauto|].
  destruct dates as [o|].
  - destruct (ValidationProps.check_dates_invalid py_str fromisoformat _ _ _ Ed)
      as [reason ->]. by eauto.
  - unfold check_spend. rewrite Hmin, Hmax.
    destruct Ha as [->|[qa ->]], Hb as [->|[qb ->]]; simpl; try (by left).
    destruct (float_ltb qb qa); by eauto.
Qed.

(** The record [transform_ad] builds from a raw ad. *)
Lemma transform_record (raw_ad rec : dict) :
  transform (VDict raw_ad) = Return rec ->
  exists ad_content funding_entity targeting_data audience,
    rec = [ ("ad_id", dict_get "id" raw_ad);
            ("platform", VStr "meta");
            ("advertiser_name", dict_get "page_name" raw_ad);
            ("page_id", dict_get "page_id" raw_ad);
            ("funding_entity", funding_entity);
            ("ad_creation_time", dict_get "ad_creation_time" raw_ad);
            ("start_date", dict_get "ad_delivery_start_time" raw_ad);
            ("end_date", dict_get "ad_delivery_stop_time" raw_ad);
            ("spend_min",
             dict_get "min" (_parse_range py_str py_float
                               (dict_get_default "spend" (VDict []) raw_ad)));
            ("spend_max",
             dict_get "max" (_parse_range py_str py_float
                               (dict_get_default "spend" (VDict []) raw_ad)));
            ("spend_currency", dict_get "currency" raw_ad);
            ("impressions_min",
             dict_get "min" (_parse_range py_str py_float
                               (dict_get_default "impressions" (VDict []) raw_ad)));
            ("impressions_max",
             dict_get "max" (_parse_range py_str py_float
                               (dict_get_default "impressions" (VDict []) raw_ad)));
            ("eu_total_reach", dict_get "eu_total_reach" raw_ad);
            ("estimated_audience_size", audience);
            ("ad_content", ad_content);
            ("ad_snapshot_url", dict_get "ad_snapshot_url" raw_ad);
            ("languages", dict_get "languages" raw_ad);
            ("targeting_data", targeting_data);
            ("publisher_platforms", dict_get "publisher_platforms" raw_ad);
            ("raw_response", VDict raw_ad);
            ("extracted_at", VStr extracted_at);
            ("api_version", VStr api_version) ].
Proof.
  unfold transform, transform_ad, bind, lift, ret, raise.
  destruct (_extract_ad_content raw_ad) as [c|]; [|done].
  destruct (_build_targeting_data raw_ad) as [t|]; [|done].
  destruct (_extract_funding_entity raw_ad) as [f|]; [|done].
  destruct (_parse_audience_size _) as [a|]; [|done].
  simpl. intros [= <-]. by exists c, f, t, a.
Qed.

(** A date field that passes the check of [validate_record]: falsy, or a
    string that [fromisoformat] accepts once [Z] is replaced. *)
Definition date_ok (v : value) : Prop :=
  truthy v = false
  \/ exists s, v = VStr s /\ fromisoformat (replace_char "Z" "+00:00" s) = true.

Lemma check_date_ok (rec : dict) (field : string) :
  date_ok (dict_get field rec) ->
  check_date py_str fromisoformat rec field = None.
Proof.
  unfold check_date. intros [->|(s & -> & Hs)]; [done|].
  rewrite Hs. by destruct (truthy (VStr s)).
Qed.

(** What the pipeline accepts: a raw ad whose [id] and [page_name] are
    strings that are not blank, whose three dates are absent (or falsy) or
    in ISO format, and whose spend range does not have a lower bound above
    the upper one ([max < min] is false, as it is when one of them is NaN),
    is transformed into a record that [validate_record] declares valid. *)
Theorem well_formed_ad_is_accepted (raw_ad rec : dict) (id name : string) :
  transform (VDict raw_ad) = Return rec ->
  dict_get "id" raw_ad = VStr id -> isblank id = false ->
  py_str (VStr id) = id ->
  dict_get "page_name" raw_ad = VStr name -> isblank name = false ->
  date_ok (dict_get "ad_delivery_start_time" raw_ad) ->
  date_ok (dict_get "ad_delivery_stop_time" raw_ad) ->
  date_ok (dict_get "ad_creation_time" raw_ad) ->
  (forall lo hi,
     _parse_range py_str py_float (dict_get_default "spend" (VDict []) raw_ad)
     = [("min", VFloat lo); ("max", VFloat hi)] ->
     float_ltb hi lo = false) ->
  validate_record py_str fromisoformat rec = Return (true, None).
Proof.
  intros Ht Hid Hidb Hstr Hname Hnameb Hstart Hstop Hcreated Hspend.
  destruct (transform_record _ _ Ht) as (c & f & t & a & ->).
  destruct (parse_range_shape (dict_get_default "spend" (VDict []) raw_ad))
    as (lo & hi & Hr & Hlo & Hhi).
  rewrite Hr in *.
  change (dict_get "min" [("min", lo); ("max", hi)]) with lo.
  change (dict_get "max" [("min", lo); ("max", hi)]) with hi.
  set (imin := dict_get "min" _). set (imax := dict_get "max" _).
  unfold validate_record.
  set (rec := (_ :: _) : dict).
  assert (Hd : check_dates py_str fromisoformat rec
                 ["start_date"; "end_date"; "ad_creation_time"] = None).
  { cbn [check_dates]. rewrite !check_date_ok; done. }
  rewrite Hd.
  assert (Hs : check_spend py_str rec = Return None).
  { unfold check_spend.
    change (dict_get "spend_min" rec) with lo.
    change (dict_get "spend_max" rec) with hi.
    destruct Hlo as [->|[qa ->]], Hhi as [->|[qb ->]]; simpl; try done.
    by rewrite (Hspend qa qb eq_refl). }
  rewrite Hs.
  assert (Hreq : _validate_required_fields rec required_fields = (true, None)).
  { unfold required_fields. cbn [_validate_required_fields].
    change (dict_get "ad_id" rec) with (dict_get "id" raw_ad).
    change (dict_get "platform" rec) with (VStr "meta").
    change (dict_get "advertiser_name" rec) with (dict_get "page_name" raw_ad).
    rewrite Hid, Hname. simpl. by rewrite Hidb, Hnameb. }
  rewrite Hreq. cbv iota. simpl negb. cbv iota.
  change (dict_get_default "ad_id" (VStr "") rec) with (dict_get "id" raw_ad).
  change (dict_get "platform" rec) with (VStr "meta").
  rewrite Hid, Hstr, Hidb.
  assert (Hne : truthy (VStr id) = true) by (by destruct id).
  rewrite Hne. reflexivity.
Qed.

End Props.
End PipelineFacts.

(** ** Requests: what is retried and what is not *)

Module RequestFacts.
Import MetaAdCollector.

(** An error response that is not a throttling one and whose body, when it
    is JSON, has the shape of an error report: not a 200 and not a 429, and
    the error code is neither 4 nor 17. *)
Definition plain_error (o : http_outcome) : bool :=
  match o with
  | Response status_code body _ =>
      negb (status_code =? 200) && negb (status_code =? 429)
      && match body with
         | None => true
         | Some (VDict d) =>
             match dict_get_default "error" (VDict []) d with
             | VDict e => negb (py_eq (dict_get "code" e) (VInt 4))
                          && negb (py_eq (dict_get "code" e) (VInt 17))
             | _ => false
             end
         | Some _ => false
         end
  | _ => false
  end.

(** A failure of the transport: a timeout, a connection error, or a 200
    whose body is not JSON. *)
Definition transport_failure (o : http_outcome) : bool :=
  match o with
  | Timeout | ConnectionError => true
  | Response status_code None _ => status_code =? 200
  | Response _ (Some _) _ => false
  end.

(** The state after one more GET with [params] has been issued. *)
Definition requested (params : dict) (w : world) : world :=
  with_requests (requests w ++ [params])
                (with_request_count (_request_count w + 1) w).

(** The state after tenacity has slept [d] seconds. *)
Definition slept (d : Q) (w : world) : world :=
  with_clock (Time.mk (Time.now (clock w) + d)%Q (Time.sleeps (clock w) ++ [d])) w.

Section Props.
Variable py_int : string -> option Z.
Variable server : nat -> dict -> http_outcome.
Variable cfg : config.

Lemma attempt_ok (params : dict) (w : world) (data : value) (hdr : option string) :
  server (length (requests w)) params = Response 200 (Some data) hdr ->
  _make_request_once py_int server params w = (Return data, requested params w).
Proof.
  intros Hs. unfold _make_request_once, http_get, bind, modify.
  change (requests (with_request_count (_request_count w + 1) w))
    with (requests w).
  rewrite Hs. reflexivity.
Qed.

Lemma attempt_transport_failure (params : dict) (w : world) :
  transport_failure (server (length (requests w)) params) = true ->
  _make_request_once py_int server params w
  = (Raise RequestException, requested params w).
Proof.
  intros Hs. unfold _make_request_once, http_get, bind, modify.
  change (requests (with_request_count (_request_count w + 1) w))
    with (requests w).
  destruct (server (length (requests w)) params) as [st [body|] hdr| |];
    simpl in Hs; try done.
  by rewrite Hs.
Qed.

Lemma attempt_plain_error (params : dict) (w : world) :
  plain_error (server (length (requests w)) params) = true ->
  _make_request_once py_int server params w = (Raise APIError, requested params w).
Proof.
  intros Hs. unfold _make_request_once, http_get, bind, modify.
  change (requests (with_request_count (_request_count w + 1) w))
    with (requests w).
  destruct (server (length (requests w)) params) as [st body hdr| |];
    simpl in Hs; try done.
  apply andb_true_iff in Hs as [Hs Hbody].
  apply andb_true_iff in Hs as [H200 H429].
  apply negb_true_iff in H200, H429. rewrite H200.
  destruct body as [[]|]; try done.
  - unfold method_get, ret.
    destruct (dict_get_default "error" (VDict []) d) as [| | | | | |e]; try done.
    apply andb_true_iff in Hbody as [H4 H17]. apply negb_true_iff in H4, H17.
    fold (dict_get "code" e). by rewrite H4, H17, H429.
  - unfold method_get, ret. simpl. by rewrite H429.
Qed.

(** An API error that is not a throttling one is not retried:
    [_make_request] raises APIError after a single request, without any
    sleep and without touching the rate limiter. *)
Theorem api_error_is_not_retried (params : dict) (w : world) :
  plain_error (server (length (requests w)) params) = true ->
  exists w',
    _make_request py_int server params w = (Raise APIError, w')
    /\ requests w' = requests w ++ [params]
    /\ _request_count w' = _request_count w + 1
    /\ clock w' = clock w
    /\ rate_limiter w' = rate_limiter w.
Proof.
  intros Hs. exists (requested params w).
  unfold _make_request. cbn [retrying].
  by rewrite (attempt_plain_error params w Hs).
Qed.

(** The waits of tenacity after the attempts 1 to 4. *)
Lemma waits_of_tenacity : map wait_exponential [1; 2; 3; 4] = [4; 4; 4; 8]%Q.
Proof. reflexivity. Qed.

(** The waits after the attempts [a], [a + 1], ..., [k] of them. *)
Fixpoint waits_from (a : Z) (k : nat) : list Q :=
  match k with
  | O => []
  | S k' => wait_exponential a :: waits_from (a + 1) k'
  end.

Lemma retrying_recovers (params : dict) (data : value) (hdr : option string)
    (k : nat) : forall (remaining : nat) (a : Z) (w : world),
  (k <= remaining)%nat ->
  (forall i, (i < k)%nat ->
     transport_failure (server (length (requests w) + i) params) = true) ->
  server (length (requests w) + k) params = Response 200 (Some data) hdr ->
  exists w',
    retrying remaining a (_make_request_once py_int server params) w
    = (Return data, w')
    /\ requests w' = requests w ++ replicate (S k) params
    /\ _request_count w' = _request_count w + Z.of_nat (S k)
    /\ Time.sleeps (clock w') = Time.sleeps (clock w) ++ waits_from a k
    /\ rate_limiter w' = rate_limiter w.
Proof.
  induction k as [|k IH]; intros remaining a w Hk Hfail Hok.
  - rewrite Nat.add_0_r in Hok. exists (requested params w).
    destruct remaining; cbn [retrying]; rewrite (attempt_ok _ _ _ _ Hok);
      (split; [reflexivity|]); simpl; rewrite app_nil_r; done.
  - destruct remaining as [|remaining]; [lia|].
    cbn [retrying].
    rewrite attempt_transport_failure
      by (rewrite <- (Nat.add_0_r (length (requests w))); apply Hfail; lia).
    cbn [retried]. unfold bind at 1, on_time, zoom, Time.sleep.
    rewrite FetchProps.wait_exponential_sleepable. unfold modify.
    set (w1 := with_clock _ (requested params w)).
    assert (Hlen : length (requests w1) = S (length (requests w)))
      by (simpl; rewrite length_app; simpl; lia).
    destruct (IH remaining (a + 1) w1) as (w' & Hr & H1 & H2 & H3 & H4).
    + lia.
    + intros i Hi. rewrite Hlen.
      replace (S (length (requests w)) + i)%nat
        with (length (requests w) + S i)%nat by lia.
      apply Hfail. lia.
    + rewrite Hlen.
      replace (S (length (requests w)) + k)%nat
        with (length (requests w) + S k)%nat by lia.
      exact Hok.
    + exists w'. rewrite Hr. split; [reflexivity|]. split_and!.
      * rewrite H1. simpl. rewrite <- app_assoc. reflexivity.
      * rewrite H2. simpl _request_count. lia.
      * rewrite H3. simpl. rewrite <- app_assoc. reflexivity.
      * rewrite H4. reflexivity.
Qed.

Lemma retrying_gives_up (params : dict) (remaining : nat) :
  forall (a : Z) (w : world),
  (forall i, (i <= remaining)%nat ->
     transport_failure (server (length (requests w) + i) params) = true) ->
  exists w',
    retrying remaining a (_make_request_once py_int server params) w
    = (Raise (RetryError RequestException), w')
    /\ requests w' = requests w ++ replicate (S remaining) params
    /\ Time.sleeps (clock w') = Time.sleeps (clock w) ++ waits_from a remaining.
Proof.
  induction remaining as [|remaining IH]; intros a w Hfail.
  - exists (requested params w). cbn [retrying].
    rewrite attempt_transport_failure
      by (rewrite <- (Nat.add_0_r (length (requests w))); apply Hfail; lia).
    simpl. rewrite app_nil_r. done.
  - cbn [retrying].
    rewrite attempt_transport_failure
      by (rewrite <- (Nat.add_0_r (length (requests w))); apply Hfail; lia).
    cbn [retried]. unfold bind at 1, on_time, zoom, Time.sleep.
    rewrite FetchProps.wait_exponential_sleepable. unfold modify.
    set (w1 := with_clock _ (requested params w)).
    assert (Hlen : length (requests w1) = S (length (requests w)))
      by (simpl; rewrite length_app; simpl; lia).
    destruct (IH (a + 1) w1) as (w' & Hr & H1 & H3).
    + intros i Hi. rewrite Hlen.
      replace (S (length (requests w)) + i)%nat
        with (length (requests w) + S i)%nat by lia.
      apply Hfail. lia.
    + exists w'. rewrite Hr. split; [reflexivity|]. split.
      * rewrite H1. simpl. rewrite <- app_assoc. reflexivity.
      * rewrite H3. simpl. rewrite <- app_assoc. reflexivity.
Qed.

(** Transport failures are retried.  When up to four attempts in a row fail
    with a timeout, a connection error or a body that is not JSON and the
    next one gets a 200, [_make_request] returns its JSON, having repeated
    the same request and slept 4, 4, 4, 8 seconds after the failures.
    When five in a row fail, it raises tenacity's RetryError after exactly
    five requests. *)
Theorem transport_failures_are_retried (params : dict) (w : world) :
  (forall (k : nat) (data : value) (hdr : option string),
     (k <= 4)%nat ->
     (forall i, (i < k)%nat ->
        transport_failure (server (length (requests w) + i) params) = true) ->
     server (length (requests w) + k) params = Response 200 (Some data) hdr ->
     exists w',
       _make_request py_int server params w = (Return data, w')
       /\ requests w' = requests w ++ replicate (S k) params
       /\ _request_count w' = _request_count w + Z.of_nat (S k)
       /\ Time.sleeps (clock w') = Time.sleeps (clock w) ++ take k [4; 4; 4; 8]%Q
       /\ rate_limiter w' = rate_limiter w)
  /\ ((forall i, (i <= 4)%nat ->
         transport_failure (server (length (requests w) + i) params) = true) ->
      exists w',
        _make_request py_int server params w
        = (Raise (RetryError RequestException), w')
        /\ requests w' = requests w ++ replicate 5 params
        /\ Time.sleeps (clock w') = Time.sleeps (clock w) ++ [4; 4; 4; 8]%Q).
Proof.
  split.
  - intros k data hdr Hk Hfail Hok.
    destruct (retrying_recovers params data hdr k 4 1 w Hk Hfail Hok)
      as (w' & Hr & H1 & H2 & H3 & H4).
    exists w'. split_and!; try done.
    rewrite H3. f_equal.
    do 5 (destruct k as [|k]; [reflexivity|]). lia.
  - intros Hfail.
    destruct (retrying_gives_up params 4 1 w Hfail) as (w' & Hr & H1 & H3).
    exists w'. split_and!; done.
Qed.

(** The probe [authenticate] sends. *)
Definition probe : dict :=
  [ ("access_token", VStr (access_token cfg));
    ("ad_reached_countries", VStr "PL");
    ("ad_type", VStr (ad_type cfg));
    ("search_terms", VStr "");
    ("fields", VStr "id");
    ("limit", VInt 1) ].

(** [authenticate] never returns [False]: it returns [True] or raises.  It
    issues exactly one request and changes nothing else; it returns [True]
    only on a 200 with a JSON body, and a transport failure raises
    AuthenticationError. *)
Theorem authenticate_never_returns_false (w : world) :
  exists r,
    authenticate server cfg w = (r, with_requests (requests w ++ [probe]) w)
    /\ r <> Return false
    /\ (r = Return true ->
        exists body hdr,
          server (length (requests w)) probe = Response 200 (Some body) hdr)
    /\ (transport_failure (server (length (requests w)) probe) = true ->
        r = Raise AuthenticationError).
Proof.
  unfold authenticate, try_except, bind at 1, http_get. fold probe.
  destruct (server (length (requests w)) probe) as [st body hdr| |].
  - destruct (Z.eqb_spec st 200) as [->|Hst].
    + destruct body as [data|].
      * unfold bind, ret, method_get, py_len.
        destruct data as [| | | | | |d]; simpl;
          try (eexists; split; [reflexivity|]; split_and!; by eauto).
        destruct (dict_get_default "data" (VList []) d); simpl;
          eexists; (split; [reflexivity|]); split_and!; by eauto.
      * simpl. eexists. split; [reflexivity|]. split_and!; by eauto.
    + assert (E : (st =? 200) = false) by (by apply Z.eqb_neq).
      assert (Hnot : forall body' hdr',
                Response st body hdr <> Response 200 body' hdr')
        by (intros ? ? [=]; done).
      destruct body as [body|].
      * unfold bind, ret, method_get, raise.
        destruct body as [| | | | | |d]; simpl;
          try (eexists; split; [reflexivity|]; split_and!;
               [done|done|by rewrite ?E]).
        destruct (dict_get_default "error" (VDict []) d) as [| | | | | |e]; simpl;
          try (eexists; split; [reflexivity|]; split_and!; done).
        destruct (py_eq (dict_get_default "code" VNone e) (VInt 190)); simpl;
          [eexists; split; [reflexivity|]; split_and!; done|].
        destruct (py_eq (dict_get_default "code" VNone e) (VInt 4)); simpl;
          eexists; (split; [reflexivity|]); split_and!; done.
      * simpl. rewrite E.
        eexists. split; [reflexivity|]. split_and!; done.
  - simpl. eexists. split; [reflexivity|]. split_and!; done.
  - simpl. eexists. split; [reflexivity|]. split_and!; done.
Qed.

End Props.
End RequestFacts.

(** ** The fetch stream: pagination *)

Lemma exhaust_bind {W A B} (s : step W A) (k : A -> G W B) :
  exhaust (step_bind s k)
  = match exhaust s with
    | (xs, Return a, w) =>
        match exhaust (k a w) with (ys, r, w') => (xs ++ ys, r, w') end
    | (xs, Raise e, w) => (xs, Raise e, w)
    end.
Proof.
  induction s as [[a|e] w|x w resume IH]; cbn [step_bind exhaust].
  - by destruct (exhaust (k a w)) as [[ys r] w'].
  - reflexivity.
  - rewrite IH. destruct (exhaust (resume w)) as [[xs [a|e]] w1]; [|reflexivity].
    by destruct (exhaust (k a w1)) as [[ys r] w'].
Qed.

Lemma g_bind_lift {W A B} (m : M W A) (k : A -> G W B) (w : W) :
  g_bind (lift_M m) k w
  = match m w with
    | (Return a, w') => k a w'
    | (Raise e, w') => Done (Raise e) w'
    end.
Proof.
  unfold g_bind, lift_M. by destruct (m w) as [[a|e] w'].
Qed.

Module FetchFacts.
Import MetaAdCollector RequestFacts.

(** A response body that is a page of [ads]; [next] is the cursor of the
    following page when the page announces one. *)
Definition is_page (body : value) (ads : list value) (next : option string) : Prop :=
  exists d pg,
    body = VDict d
    /\ dict_get_default "data" (VList []) d = VList ads
    /\ dict_get_default "paging" (VDict []) d = VDict pg
    /\ match next with
       | None => dict_mem "next" pg = false
       | Some c =>
           dict_mem "next" pg = true /\ c <> ""
           /\ exists cs, dict_get_default "cursors" (VDict []) pg = VDict cs
                         /\ dict_get_default "after" VNone cs = VStr c
       end.

(** The requests of a fetch that starts with [params] and is led through
    the cursors [cs]. *)
Fixpoint page_requests (params : dict) (cs : list string) : list dict :=
  params :: match cs with
            | [] => []
            | c :: cs' => page_requests (dict_set "after" (VStr c) params) cs'
            end.

Section Props.
Variable json_loads : string -> option value.
Variable json_dumps : json_opts -> value -> string.
Variable isoformat : Q -> string.
Variable storage_ok : string -> bool.
Variable py_int : string -> option Z.
Variable server : nat -> dict -> http_outcome.
Variable cfg : config.
Variable checkpoint_manager : CheckpointManager.t.

(** From its [n]-th request on, the server answers with the [pages], each
    announcing the next, and then with the page [last], which announces
    none. *)
Fixpoint serves (n : nat) (pages : list (list value * string)) (last : list value)
    : Prop :=
  match pages with
  | [] => forall p, exists body hdr,
            server n p = Response 200 (Some body) hdr /\ is_page body last None
  | (ads, c) :: rest =>
      (forall p, exists body hdr,
         server n p = Response 200 (Some body) hdr /\ is_page body ads (Some c))
      /\ serves (S n) rest last
  end.

Definition limiter_of (w : world) : RateLimiter.world :=
  RateLimiter.mkWorld (rate_limiter w) (clock w).

(** The limiter is in order: the bucket within its bounds, a positive
    rate. *)
Definition limiter_ok (w : world) : Prop :=
  RateLimiterProps.inv (limiter_of w)
  /\ (0 < RateLimiter.requests_per_second (RateLimiter.cfg (rate_limiter w)))%Q.

Definition fetch_pages' :=
  fetch_pages json_loads json_dumps isoformat storage_ok py_int server cfg
              checkpoint_manager.
Definition yield_ads' :=
  yield_ads json_loads json_dumps isoformat storage_ok cfg checkpoint_manager.

Lemma with_since_id (w : world) :
  with_records_since_checkpoint (_records_since_checkpoint w) w = w.
Proof. by destruct w. Qed.

(** Below the checkpoint interval, the loop over the ads of a page yields
    them and counts them. *)
Lemma yield_ads_quiet (ads : list value) (response_data : value)
    (page_count total_ads : Z) (date_range : string) : forall w : world,
  _records_since_checkpoint w + Z.of_nat (length ads) < checkpoint_interval cfg ->
  exhaust (yield_ads' ads response_data page_count total_ads date_range w)
  = (ads, Return tt,
     with_records_since_checkpoint
       (_records_since_checkpoint w + Z.of_nat (length ads)) w).
Proof.
  induction ads as [|ad ads IH]; intros w Hq.
  - simpl. by rewrite Z.add_0_r, with_since_id.
  - unfold yield_ads'. cbn [yield_ads]. fold yield_ads'.
    unfold g_bind at 1, yield. cbn [step_bind exhaust].
    rewrite g_bind_lift. unfold modify at 1.
    rewrite g_bind_lift. unfold gets at 1.
    set (w1 := with_records_since_checkpoint (_records_since_checkpoint w + 1) w).
    change (_records_since_checkpoint w1) with (_records_since_checkpoint w + 1).
    assert (E : (checkpoint_interval cfg <=? _records_since_checkpoint w + 1) = false).
    { apply Z.leb_gt. simpl length in Hq. lia. }
    rewrite E. unfold g_bind, g_ret. cbn [step_bind].
    rewrite IH.
    + simpl length. f_equal. unfold w1. simpl.
      replace (_records_since_checkpoint w + 1 + Z.of_nat (length ads))
        with (_records_since_checkpoint w + Z.of_nat (S (length ads))) by lia.
      reflexivity.
    + simpl length in Hq. simpl. lia.
Qed.

Lemma on_limiter_run {A} (m : M RateLimiter.world A) (w : world) :
  on_limiter m w = (fst (m (limiter_of w)), with_limiter (snd (m (limiter_of w))) w).
Proof.
  unfold on_limiter, zoom, limiter_of. by destruct (m _).
Qed.

(** The state after an iteration of the fetch loop that met a page of
    [n] ads: the limiter has let the request through, the request is
    logged, the ads are counted. *)
Definition after_page (params : dict) (n : nat) (w : world) : world :=
  with_records_since_checkpoint (_records_since_checkpoint w + Z.of_nat n)
    (requested params
       (with_limiter (snd (RateLimiter.wait_if_needed (limiter_of w))) w)).

Lemma after_page_limiter_ok (params : dict) (n : nat) (w : world) :
  limiter_ok w -> limiter_ok (after_page params n w).
Proof.
  intros [Hinv Hpos]. split.
  - pose proof (RateLimiterProps.wait_if_needed_inv _ Hinv) as H.
    exact H.
  - unfold after_page. simpl.
    destruct (RateLimiterOutcomes.wait_if_needed_outcome (limiter_of w))
      as (Hcfg & _). rewrite Hcfg. exact Hpos.
Qed.

(** One iteration of the fetch loop on a page. *)
Lemma fetch_page (fuel : nat) (params : dict) (page_count total_ads : Z)
    (date_range : string) (w : world) (body : value) (hdr : option string)
    (ads : list value) (next : option string) :
  limiter_ok w ->
  server (length (requests w)) params = Response 200 (Some body) hdr ->
  is_page body ads next ->
  _records_since_checkpoint w + Z.of_nat (length ads) < checkpoint_interval cfg ->
  exhaust (fetch_pages' (S fuel) params page_count total_ads date_range w)
  = match next with
    | None =>
        (ads, Return (page_count + 1, total_ads + Z.of_nat (length ads)),
         after_page params (length ads) w)
    | Some c =>
        match exhaust (fetch_pages' fuel (dict_set "after" (VStr c) params)
                         (page_count + 1) (total_ads + Z.of_nat (length ads))
                         date_range (after_page params (length ads) w)) with
        | (xs, r, w') => (ads ++ xs, r, w')
        end
    end.
Proof.
  intros [Hinv Hpos] Hs (d & pg & -> & Hdata & Hpaging & Hnext) Hq.
  unfold fetch_pages'. cbn [fetch_pages].
  rewrite g_bind_lift, on_limiter_run.
  destruct (RateLimiterOutcomes.wait_if_needed_outcome (limiter_of w))
    as (_ & _ & Hret).
  destruct (Hret Hpos) as [x Hx]. rewrite Hx.
  set (w1 := with_limiter _ w).
  rewrite g_bind_lift.
  assert (Hreq : try_except
                   (bind (_make_request py_int server params)
                         (fun data : value => ret (Some data)))
                   (fun e => match e with RateLimitError => true | _ => false end)
                   (fun _ => ret None) w1
                 = (Return (Some (VDict d)), requested params w1)).
  { unfold try_except, bind, _make_request. cbn [retrying].
    by rewrite (attempt_ok py_int server params w1 (VDict d) hdr Hs). }
  rewrite Hreq.
  rewrite g_bind_lift. unfold method_get at 1, ret at 1. rewrite Hdata.
  rewrite g_bind_lift. unfold py_len at 1, ret at 1.
  rewrite g_bind_lift. unfold py_iter at 1, ret at 1.
  unfold g_bind at 1. rewrite exhaust_bind.
  fold yield_ads'.
  rewrite (yield_ads_quiet ads (VDict d) _ _ date_range (requested params w1))
    by exact Hq.
  fold (after_page params (length ads) w).
  rewrite g_bind_lift. unfold method_get at 1, ret at 1. rewrite Hpaging.
  rewrite g_bind_lift. unfold py_contains at 1, ret at 1.
  destruct next as [c|].
  - destruct Hnext as (Hmem & Hc & cs & Hcs & Hafter).
    rewrite Hmem. cbn [negb].
    rewrite g_bind_lift. unfold cursor_after, bind, method_get, ret.
    rewrite Hcs, Hafter.
    assert (Ht : truthy (VStr c) = true) by (by destruct c).
    rewrite Ht. fold fetch_pages'. reflexivity.
  - rewrite Hnext. cbn [negb]. unfold g_ret. cbn [exhaust].
    rewrite app_nil_r. reflexivity.
Qed.

Lemma fetch_pages_all (last : list value) (date_range : string)
    (pages : list (list value * string)) :
  forall (fuel : nat) (params : dict) (page_count total_ads : Z) (w : world),
  (length pages < fuel)%nat ->
  limiter_ok w ->
  serves (length (requests w)) pages last ->
  _records_since_checkpoint w
  + Z.of_nat (length (concat (map fst pages) ++ last)) < checkpoint_interval cfg ->
  exists w',
    exhaust (fetch_pages' fuel params page_count total_ads date_range w)
    = (concat (map fst pages) ++ last,
       Return (page_count + Z.of_nat (S (length pages)),
               total_ads + Z.of_nat (length (concat (map fst pages) ++ last))),
       w')
    /\ requests w' = requests w ++ page_requests params (map snd pages)
    /\ _request_count w' = _request_count w + Z.of_nat (S (length pages))
    /\ checkpoint_files w' = checkpoint_files w
    /\ output w' = output w
    /\ journal w' = journal w.
Proof.
  induction pages as [|[ads c] pages IH];
    intros fuel params page_count total_ads w Hfuel Hok Hserves Hq;
    (destruct fuel as [|fuel]; [simpl in Hfuel; lia|]).
  - destruct (Hserves params) as (body & hdr & Hs & Hpage).
    exists (after_page params (length last) w).
    rewrite (fetch_page fuel params page_count total_ads date_range w body hdr
               last None Hok Hs Hpage) by exact Hq.
    split_and!; try reflexivity.
  - destruct Hserves as [Hfirst Hrest].
    destruct (Hfirst params) as (body & hdr & Hs & Hpage).
    cbn [map fst concat] in *. rewrite <- app_assoc in *.
    rewrite length_app in Hq.
    rewrite (fetch_page fuel params page_count total_ads date_range w body hdr
               ads (Some c) Hok Hs Hpage) by lia.
    destruct (IH fuel (dict_set "after" (VStr c) params) (page_count + 1)
                (total_ads + Z.of_nat (length ads))
                (after_page params (length ads) w))
      as (w' & Hrun & H1 & H2 & H3 & H4 & H5).
    + simpl in Hfuel. lia.
    + by apply after_page_limiter_ok.
    + simpl. rewrite length_app. simpl.
      replace (length (requests w) + 1)%nat with (S (length (requests w))) by lia.
      exact Hrest.
    + simpl. lia.
    + exists w'. rewrite Hrun. split_and!.
      * rewrite (length_app ads). simpl length.
        replace (page_count + 1 + Z.of_nat (S (length pages)))
          with (page_count + Z.of_nat (S (S (length pages)))) by lia.
        replace (total_ads + Z.of_nat (length ads)
                 + Z.of_nat (length (concat (map fst pages) ++ last)))
          with (total_ads
                + Z.of_nat (length ads + length (concat (map fst pages) ++ last)))
          by lia.
        reflexivity.
      * rewrite H1. simpl. rewrite <- app_assoc. reflexivity.
      * rewrite H2. simpl. lia.
      * rewrite H3. reflexivity.
      * rewrite H4. reflexivity.
      * rewrite H5. reflexivity.
Qed.

Definition store_of (w : world) : CheckpointManager.world :=
  CheckpointManager.mkWorld (checkpoint_files w) (clock w).

Lemma on_checkpoint_run {A} (m : M CheckpointManager.world A) (w : world) :
  on_checkpoint m w = (fst (m (store_of w)), with_checkpoint (snd (m (store_of w))) w).
Proof.
  unfold on_checkpoint, zoom, store_of. by destruct (m _).
Qed.

Lemma with_checkpoint_id (w : world) : with_checkpoint (store_of w) w = w.
Proof. by destruct w. Qed.

(** The parameters of the first request of [fetch_ads]. *)
Definition first_params (start_date end_date country_code : string)
    (cursor : value) : dict :=
  let params :=
    [ ("access_token", VStr (access_token cfg));
      ("ad_reached_countries", VStr country_code);
      ("ad_type", VStr (ad_type cfg));
      ("ad_active_status", VStr "ALL");
      ("ad_delivery_date_min", VStr start_date);
      ("ad_delivery_date_max", VStr end_date);
      ("search_terms", VStr "");
      ("fields", VStr (fields cfg));
      ("limit", VInt (default_limit cfg)) ] in
  if truthy cursor then dict_set "after" cursor params else params.

(** Pagination.  When the server answers with a sequence of pages, each
    but the last announcing a next page and a cursor, [fetch_ads] yields
    the ads of all the pages, in order and once each, and issues one
    request per page: the first with the date range, the country, and the
    cursor of the checkpoint when there is one, every other with [after]
    set to the cursor of the page before.  (Stated for a fetch that stays
    below the checkpoint interval, on a limiter with a positive rate; the
    final checkpoint write decides how the stream ends.) *)
Theorem fetch_ads_yields_every_page (pages : list (list value * string))
    (last : list value) (fuel : nat) (start_date end_date country_code : string)
    (cursor : value) (w : world) :
  (length pages < fuel)%nat ->
  limiter_ok w ->
  CheckpointManager.get_cursor json_loads checkpoint_manager (store_of w)
  = (Return cursor, store_of w) ->
  serves (length (requests w)) pages last ->
  _records_since_checkpoint w
  + Z.of_nat (length (concat (map fst pages) ++ last)) < checkpoint_interval cfg ->
  exists r w',
    exhaust (fetch_ads json_loads json_dumps isoformat storage_ok py_int server
               cfg checkpoint_manager fuel start_date end_date country_code w)
    = (concat (map fst pages) ++ last, r, w')
    /\ requests w'
       = requests w
         ++ page_requests (first_params start_date end_date country_code cursor)
                          (map snd pages)
    /\ _request_count w' = _request_count w + Z.of_nat (S (length pages))
    /\ output w' = output w.
Proof.
  intros Hfuel Hok Hcur Hserves Hq.
  unfold fetch_ads. rewrite g_bind_lift, on_checkpoint_run, Hcur.
  cbn [fst snd]. rewrite with_checkpoint_id.
  fold (first_params start_date end_date country_code cursor).
  unfold g_bind. rewrite exhaust_bind. fold fetch_pages'.
  destruct (fetch_pages_all last (start_date +:+ " to " +:+ end_date) pages fuel
              (first_params start_date end_date country_code cursor) 0 0 w
              Hfuel Hok Hserves Hq) as (w1 & Hrun & H1 & H2 & _ & H4 & _).
  rewrite Hrun. unfold lift_M, update_progress, bind, note_checkpoint, modify.
  rewrite on_checkpoint_run.
  destruct (CheckpointManager.update_progress _ _ _ _ _ _ _ (store_of w1))
    as [[u|e] s1]; cbn [fst snd exhaust]; rewrite app_nil_r;
    eexists; eexists; (split; [reflexivity|]); simpl; by rewrite H1, H2, H4.
Qed.

End Props.
End FetchFacts.

(** ** The run: statistics, the writer, interruptions *)

Module RunFacts.
Import BaseAdCollector.

Section Props.
Variable W : Type.
Variable writer_of : W -> OutputWriter.world.
Variable with_writer : OutputWriter.world -> W -> W.
Variable json_dumps : json_opts -> value -> string.
Variable gzip : string -> string.
Variable output_ok : string -> bool.
Variable fetch_ads : string -> string -> string -> G W unit.
Variable transform_ad : value -> result dict.
Variable validate_record : dict -> result Validation.outcome.

Definition consume' :=
  consume W writer_of with_writer json_dumps gzip output_ok transform_ad
          validate_record.
Definition run' :=
  run W writer_of with_writer json_dumps gzip output_ok fetch_ads transform_ad
      validate_record.

(** The counters add up and the list of errors is capped at 100. *)
Definition balanced (st : stats) : Prop :=
  records_fetched st = records_valid st + records_invalid st
  /\ 0 <= records_valid st /\ 0 <= records_invalid st
  /\ Z.of_nat (length (validation_errors st)) = Z.min 100 (records_invalid st)
  /\ interrupted st = false /\ error st = None /\ manifest st = None.

Lemma consume_balanced (dry_run : bool) (s : step W unit) :
  forall st r st' w',
  balanced st ->
  consume' dry_run s st = (r, st', w') ->
  (r = Return tt \/ r = Raise KeyboardInterrupt) ->
  (r = Return tt -> balanced st')
  /\ records_valid st' + records_invalid st' <= records_fetched st'
     <= records_valid st' + records_invalid st' + 1
  /\ 0 <= records_valid st' /\ 0 <= records_invalid st'
  /\ Z.of_nat (length (validation_errors st')) = Z.min 100 (records_invalid st')
  /\ interrupted st' = false /\ error st' = None /\ manifest st' = None.
Proof.
  unfold consume'.
  induction s as [r0 w|x w resume IH]; intros st r st' w' Hb Hrun Hr.
  - cbn [consume] in Hrun. injection Hrun as <- <- <-.
    destruct Hb as (H1 & H2 & H3 & H4 & H5 & H6 & H7).
    split_and!; try done; lia.
  - cbn [consume] in Hrun.
    destruct Hb as (H1 & H2 & H3 & H4 & H5 & H6 & H7).
    destruct (transform_ad x) as [transformed|e].
    2:{ injection Hrun as <- <- <-. simpl.
        split_and!; try done; lia. }
    destruct (validate_record transformed) as [[is_valid err]|e].
    2:{ injection Hrun as <- <- <-. simpl.
        split_and!; try done; lia. }
    destruct is_valid; cbn [negb] in Hrun; cbv iota in Hrun.
    + destruct dry_run.
      * eapply IH; [|exact Hrun|exact Hr].
        unfold balanced. simpl. split_and!; try done; lia.
      * destruct (on_writer _ _ _ _ _) as [[u|e] w1].
        -- eapply IH; [|exact Hrun|exact Hr].
           unfold balanced. simpl. split_and!; try done; lia.
        -- injection Hrun as <- <- <-. simpl.
           split_and!; try done; lia.
    + eapply IH; [|exact Hrun|exact Hr].
      unfold balanced. simpl. split_and!; try done; try lia.
      destruct (Nat.ltb_spec (length (validation_errors st)) 100).
      * rewrite length_app. simpl. lia.
      * lia.
Qed.

Lemma stats0_balanced : balanced stats0.
Proof. unfold balanced. simpl. split_and!; done. Qed.




(** The statistics a run returns add up: every fetched ad was counted as
    valid or as invalid (an interrupted run may have fetched one more),
    [validation_errors] holds the first 100 invalid ones, no error is
    recorded, and the manifest is there exactly when the run was not a dry
    run. *)
Theorem run_statistics_add_up (start_date end_date country_code : string)
    (dry_run : bool) (completed : string) (w w' : W) (st : stats) :
  run' start_date end_date country_code dry_run completed w = (Return st, w') ->
  (interrupted st = false ->
   records_fetched st = records_valid st + records_invalid st)
  /\ records_valid st + records_invalid st <= records_fetched st
     <= records_valid st + records_invalid st + 1
  /\ 0 <= records_valid st /\ 0 <= records_invalid st
  /\ Z.of_nat (length (validation_errors st)) = Z.min 100 (records_invalid st)
  /\ error st = None
  /\ (if dry_run then manifest st = None else exists m, manifest st = Some m).
Proof.
  unfold run', run. fold consume'.
  destruct (consume' dry_run (fetch_ads start_date end_date country_code w) stats0)
    as [[r st1] w1] eqn:Hc.
  assert (Hcases : forall e, r = Raise e -> e <> KeyboardInterrupt ->
            forall st2 w2, (let '(st, pending) :=
              (if is_Exception e
               then (mkStats (records_fetched st1) (records_valid st1)
                             (records_invalid st1) (validation_errors st1)
                             (interrupted st1) (Some e) (manifest st1), Some e)
               else (st1, Some e)) in
              if dry_run then
                match pending with
                | None => (Return st, w1)
                | Some e => (Raise e, w1)
                end
              else
                match on_writer W writer_of with_writer
                        (OutputWriter.finalize json_dumps gzip output_ok completed)
                        w1 with
                | (Return m, w2) =>
                    match pending with
                    | None =>
                        (Return (mkStats (records_fetched st) (records_valid st)
                                   (records_invalid st) (validation_errors st)
                                   (interrupted st) (error st) (Some m)), w2)
                    | Some e => (Raise e, w2)
                    end
                | (Raise e, w2) => (Raise e, w2)
                end) <> (Return st2, w2)).
  { intros e _ _ st2 w2.
    destruct (is_Exception e); destruct dry_run; try done;
      destruct (on_writer _ _ _ _ _) as [[m|e'] w3]; done. }
  destruct r as [[]|e].
  - destruct (consume_balanced dry_run _ _ _ _ _ stats0_balanced Hc (or_introl eq_refl))
      as (Hb & Hle & B2 & B3 & Herr & Hi & He & Hm).
    destruct (Hb eq_refl) as (B1 & _).
    destruct dry_run.
    + intros [= <- <-]. split_and!; try done; lia.
    + destruct (on_writer _ _ _ _ _) as [[m|e'] w2]; [|done].
      intros [= <- <-]. simpl. split_and!; try done; try lia. by eauto.
  - destruct e; try (intros Hrun; exfalso;
                     exact (Hcases _ eq_refl ltac:(discriminate) _ _ Hrun)).
    destruct (consume_balanced dry_run _ _ _ _ _ stats0_balanced Hc
                (or_intror eq_refl)) as (_ & Hle & B2 & B3 & Herr & Hi & He & Hm).
    destruct dry_run.
    + intros [= <- <-]. simpl. split_and!; try done; lia.
    + destruct (on_writer _ _ _ _ _) as [[m|e'] w2]; [|done].
      intros [= <- <-]. simpl. split_and!; try done; try lia. by eauto.
Qed.


(** *** The writer during a run *)

(** A stream that leaves the writer as it finds it: whenever it hands
    control back, the writer is the one it was resumed with. *)
Fixpoint quiet {A} (s : step W A) (o : OutputWriter.world) : Prop :=
  match s with
  | Done _ w => writer_of w = o
  | Yielded _ w resume =>
      writer_of w = o /\ forall w', quiet (resume w') (writer_of w')
  end.

Hypothesis writer_lens : forall x w, writer_of (with_writer x w) = x.

Lemma flush_batch_total (w : OutputWriter.world) :
  OutputWriter.total_records
    (OutputWriter.self
       (snd (OutputWriter.flush_batch json_dumps gzip output_ok w)))
  = OutputWriter.total_records (OutputWriter.self w).
Proof.
  unfold OutputWriter.flush_batch, bind, OutputWriter.on_self, gets,
    OutputWriter.assign, modify, OutputWriter.store.
  destruct (OutputWriter.current_batch (OutputWriter.self w)); simpl; [done|].
  destruct (output_ok _); simpl; done.
Qed.

Lemma write_record_total (record : value) (w : OutputWriter.world) :
  OutputWriter.total_records
    (OutputWriter.self
       (snd (OutputWriter.write_record json_dumps gzip output_ok record w)))
  = OutputWriter.total_records (OutputWriter.self w) + 1.
Proof.
  unfold OutputWriter.write_record.
  unfold bind at 1 2 3. unfold OutputWriter.assign at 1 2.
  unfold modify, OutputWriter.on_self, gets. cbv beta iota. cbn [OutputWriter.self id].
  destruct (_ <=? _); [|done].
  unfold bind.
  match goal with |- context [OutputWriter.flush_batch _ _ _ ?x] =>
    pose proof (flush_batch_total x) as Hf;
    destruct (OutputWriter.flush_batch json_dumps gzip output_ok x) as [[name|e] w1]
  end; simpl in *; exact Hf.
Qed.

Lemma finalize_total (completed : string) (w : OutputWriter.world) :
  forall m w',
  OutputWriter.finalize json_dumps gzip output_ok completed w = (Return m, w') ->
  dict_lookup "total_records" m
    = Some (VInt (OutputWriter.total_records (OutputWriter.self w)))
  /\ OutputWriter.total_records (OutputWriter.self w')
     = OutputWriter.total_records (OutputWriter.self w).
Proof.
  intros m w'. unfold OutputWriter.finalize. unfold bind at 1.
  pose proof (flush_batch_total w) as Hf.
  destruct (OutputWriter.flush_batch json_dumps gzip output_ok w) as [[name|e] w1];
    simpl in Hf; [|done].
  unfold bind, OutputWriter.on_self, gets, OutputWriter.store.
  destruct (output_ok _); simpl; [|done].
  intros [= <- <-]. simpl. by rewrite Hf.
Qed.

Lemma consume_writer (dry_run : bool) (s : step W unit) :
  forall o st r st' w',
  quiet s o ->
  consume' dry_run s st = (r, st', w') ->
  if dry_run then writer_of w' = o
  else OutputWriter.total_records (OutputWriter.self (writer_of w'))
       = OutputWriter.total_records (OutputWriter.self o)
         + (records_valid st' - records_valid st).
Proof.
  unfold consume'.
  induction s as [r0 w|x w resume IH]; intros o st r st' w' Hq Hrun.
  - cbn [consume] in Hrun. injection Hrun as <- <- <-. simpl in Hq.
    rewrite Hq. destruct dry_run; [done|lia].
  - cbn [consume] in Hrun. destruct Hq as [Hw Hq].
    destruct (transform_ad x) as [transformed|e].
    2:{ injection Hrun as <- <- <-. simpl. rewrite Hw.
        destruct dry_run; [done|lia]. }
    destruct (validate_record transformed) as [[is_valid err]|e].
    2:{ injection Hrun as <- <- <-. simpl. rewrite Hw.
        destruct dry_run; [done|lia]. }
    destruct is_valid; cbn [negb] in Hrun; cbv iota in Hrun.
    + destruct dry_run.
      * rewrite <- Hw. exact (IH _ _ _ _ _ _ (Hq w) Hrun).
      * unfold on_writer, zoom in Hrun.
        pose proof (write_record_total (VDict transformed) (writer_of w)) as Ht.
        destruct (OutputWriter.write_record _ _ _ _ _) as [[u|e] t1];
          simpl in Ht.
        -- pose proof (IH _ _ _ _ _ _ (Hq (with_writer t1 w)) Hrun) as H.
           simpl in H. rewrite writer_lens in H. rewrite H, Ht, Hw.
           simpl. lia.
        -- injection Hrun as <- <- <-. simpl. rewrite writer_lens, Ht, Hw.
           lia.
    + pose proof (IH _ _ _ _ _ _ (Hq w) Hrun) as H.
      destruct dry_run; simpl in H; rewrite H, ?Hw; [done|lia].
Qed.

Hypothesis stream_quiet :
  forall start_date end_date country_code w,
    quiet (fetch_ads start_date end_date country_code w) (writer_of w).

(** When the stream of ads leaves the writer alone, a dry run leaves it
    untouched however it ends, and the manifest of a run that returns counts
    exactly the records the writer had at the start plus the valid ones of
    the run. *)
Theorem run_writes_exactly_the_valid_records
    (start_date end_date country_code : string) (dry_run : bool)
    (completed : string) (w : W) :
  (dry_run = true ->
   writer_of (snd (run' start_date end_date country_code dry_run completed w))
   = writer_of w)
  /\ (dry_run = false ->
      forall st w',
      run' start_date end_date country_code dry_run completed w
        = (Return st, w') ->
      exists m,
        manifest st = Some m
        /\ dict_lookup "total_records" m
           = Some (VInt (OutputWriter.total_records
                           (OutputWriter.self (writer_of w))
                         + records_valid st))
        /\ OutputWriter.total_records (OutputWriter.self (writer_of w'))
           = OutputWriter.total_records (OutputWriter.self (writer_of w))
             + records_valid st).
Proof.
  unfold run', run. fold consume'.
  pose proof (stream_quiet start_date end_date country_code w) as Hq.
  destruct (consume' dry_run (fetch_ads start_date end_date country_code w) stats0)
    as [[r st1] w1] eqn:Hc.
  pose proof (consume_writer _ _ _ _ _ _ _ Hq Hc) as Hw.
  split; intros ->.
  - destruct r as [[]|e]; [done|].
    destruct e; simpl; done.
  - intros st w'. simpl in Hw. rewrite Z.sub_0_r in Hw.
    unfold on_writer, zoom.
    pose proof (finalize_total completed (writer_of w1)) as Hf.
    destruct (OutputWriter.finalize _ _ _ _ _) as [[m|e'] t2].
    2:{ destruct r as [[]|e]; [done|]. destruct e; simpl; done. }
    destruct (Hf _ _ eq_refl) as [Hm Ht].
    destruct r as [[]|e].
    + intros [= <- <-]. simpl. exists m. rewrite writer_lens, Ht, Hm, Hw.
      done.
    + destruct e; simpl; try done.
      intros [= <- <-]. simpl. exists m. rewrite writer_lens, Ht, Hm, Hw.
      done.
Qed.

End Props.
End RunFacts.

(** ** The fetch stream never touches the output writer *)

Module FetchQuiet.
Import MetaAdCollector.

(** A computation that leaves the output writer as it is, whatever its
    outcome. *)
Definition keeps {A} (m : M world A) : Prop :=
  forall w, output (snd (m w)) = output w.

Lemma keeps_ret {A} (a : A) : keeps (ret a).
Proof. done. Qed.

Lemma keeps_raise {A} (e : exn) : keeps (raise (A := A) e).
Proof. done. Qed.

Lemma keeps_gets {A} (f : world -> A) : keeps (gets f).
Proof. done. Qed.

Lemma keeps_modify (f : world -> world) :
  (forall w, output (f w) = output w) -> keeps (modify f).
Proof. intros H w. apply H. Qed.

Lemma keeps_bind {A B} (m : M world A) (k : A -> M world B) :
  keeps m -> (forall a, keeps (k a)) -> keeps (bind m k).
Proof.
  intros Hm Hk w. unfold bind. specialize (Hm w).
  destruct (m w) as [[a|e] w1]; simpl in *; [|done].
  by rewrite Hk.
Qed.

Lemma keeps_try_except {A} (m : M world A) (handles : exn -> bool)
    (h : exn -> M world A) :
  keeps m -> (forall e, keeps (h e)) -> keeps (try_except m handles h).
Proof.
  intros Hm Hh w. unfold try_except. specialize (Hm w).
  destruct (m w) as [[a|e] w1]; simpl in *; [done|].
  destruct (handles e); [|done]. by rewrite Hh.
Qed.

Lemma keeps_zoom {T A} (view : world -> T) (update : T -> world -> world)
    (m : M T A) :
  (forall t w, output (update t w) = output w) -> keeps (zoom view update m).
Proof.
  intros H w. unfold zoom. destruct (m (view w)) as [r t']. apply H.
Qed.

Lemma keeps_on_limiter {A} (m : M RateLimiter.world A) : keeps (on_limiter m).
Proof. by apply keeps_zoom. Qed.

Lemma keeps_on_checkpoint {A} (m : M CheckpointManager.world A) :
  keeps (on_checkpoint m).
Proof. by apply keeps_zoom. Qed.

Lemma keeps_on_time {A} (m : M Time.t A) : keeps (on_time m).
Proof. by apply keeps_zoom. Qed.

Lemma keeps_method_get (v : value) (key : string) (dflt : value) :
  keeps (method_get v key dflt).
Proof. destruct v; done. Qed.

Lemma keeps_py_len (v : value) : keeps (py_len v).
Proof. destruct v; done. Qed.

Lemma keeps_py_iter (v : value) : keeps (py_iter v).
Proof. destruct v; done. Qed.

Lemma keeps_py_contains (key : string) (v : value) : keeps (py_contains key v).
Proof. destruct v; done. Qed.

(** A generator whose every step hands the writer back as it got it. *)
Definition gkeeps {A} (g : G world A) : Prop :=
  forall w, RunFacts.quiet world output (g w) (output w).

Lemma quiet_step_bind {A B} (s : step world A) (k : A -> G world B)
    (o : OutputWriter.world) :
  RunFacts.quiet world output s o -> (forall a, gkeeps (k a)) ->
  RunFacts.quiet world output (step_bind s k) o.
Proof.
  intros Hs Hk. revert o Hs.
  induction s as [[a|e] w|x w resume IH]; intros o Hs; cbn [step_bind].
  - simpl in Hs. subst o. apply Hk.
  - exact Hs.
  - destruct Hs as [Hw Hr]. split; [exact Hw|].
    intros w'. apply IH, Hr.
Qed.

Lemma gkeeps_bind {A B} (m : G world A) (k : A -> G world B) :
  gkeeps m -> (forall a, gkeeps (k a)) -> gkeeps (g_bind m k).
Proof. intros Hm Hk w. apply quiet_step_bind; [apply Hm|exact Hk]. Qed.

Lemma gkeeps_ret {A} (a : A) : gkeeps (g_ret a).
Proof. done. Qed.

Lemma gkeeps_raise {A} (e : exn) : gkeeps (g_raise (A := A) e).
Proof. done. Qed.

Lemma gkeeps_yield (x : value) : gkeeps (yield x).
Proof. intros w. split; done. Qed.

Lemma gkeeps_lift {A} (m : M world A) : keeps m -> gkeeps (lift_M m).
Proof.
  intros Hm w. unfold lift_M. specialize (Hm w).
  destruct (m w) as [r w1]. exact Hm.
Qed.

Create HintDb quiet.

#[local] Hint Resolve keeps_ret keeps_raise keeps_gets keeps_on_limiter
  keeps_on_checkpoint keeps_on_time keeps_method_get keeps_py_len
  keeps_py_iter keeps_py_contains gkeeps_ret gkeeps_raise gkeeps_yield
  : quiet.

Ltac keeps_step :=
  first [ apply keeps_bind; [|intros ?]
        | apply keeps_try_except; [|intros ?]
        | apply keeps_modify; intros ?; reflexivity
        | apply gkeeps_bind; [|intros ?]
        | apply gkeeps_lift
        | solve [auto with quiet] ].

Section Props.
Variable json_loads : string -> option value.
Variable json_dumps : json_opts -> value -> string.
Variable isoformat : Q -> string.
Variable storage_ok : string -> bool.
Variable py_int : string -> option Z.
Variable server : nat -> dict -> http_outcome.
Variable cfg : config.
Variable checkpoint_manager : CheckpointManager.t.

Lemma keeps_http_get (params : dict) : keeps (http_get server params).
Proof. done. Qed.

Lemma keeps_on_rate_limit {A} (retry_after : option string) :
  keeps (on_rate_limit (A := A) py_int retry_after).
Proof.
  unfold on_rate_limit. repeat keeps_step.
  destruct retry_after as [header|]; [|done].
  destruct (py_int header); done.
Qed.

Lemma keeps_make_request_once (params : dict) :
  keeps (_make_request_once py_int server params).
Proof.
  unfold _make_request_once. keeps_step; [keeps_step|].
  keeps_step; [apply keeps_http_get|].
  destruct a0 as [status_code json retry_after| |]; try done.
  destruct (status_code =? 200).
  - destruct json; done.
  - keeps_step; [destruct json; auto with quiet|].
    keeps_step; [auto with quiet|].
    destruct (_ || _); [apply keeps_on_rate_limit|done].
Qed.

Lemma keeps_retrying {A} (remaining : nat) (call : M world A) :
  keeps call -> forall attempt_number, keeps (retrying remaining attempt_number call).
Proof.
  intros Hc. induction remaining as [|n IH]; intros k w; cbn [retrying];
    specialize (Hc w); destruct (call w) as [[a|e] w1]; simpl in *; try done.
  - destruct (retried e); done.
  - destruct (retried e); [|done].
    rewrite <- Hc.
    apply (keeps_bind (on_time (Time.sleep (wait_exponential k)))
             (fun _ => retrying n (k + 1) call)); [auto with quiet|].
    intros _. apply IH.
Qed.

Lemma keeps_make_request (params : dict) :
  keeps (_make_request py_int server params).
Proof. apply keeps_retrying, keeps_make_request_once. Qed.

Lemma keeps_note_checkpoint : keeps (note_checkpoint checkpoint_manager).
Proof. done. Qed.

Lemma keeps_save_cursor (cursor : value) (n : Z) (extra : dict) :
  keeps (save_cursor json_loads json_dumps isoformat storage_ok
           checkpoint_manager cursor n extra).
Proof. unfold save_cursor. keeps_step; [auto with quiet|done]. Qed.

Lemma keeps_update_progress (n : Z) (extra : dict) :
  keeps (update_progress json_loads json_dumps isoformat storage_ok
           checkpoint_manager n extra).
Proof. unfold update_progress. keeps_step; [auto with quiet|done]. Qed.

Lemma keeps_cursor_after (paging : value) : keeps (cursor_after paging).
Proof. unfold cursor_after. repeat keeps_step. Qed.

Lemma gkeeps_yield_ads (ads : list value) (response_data : value)
    (page_count total_ads : Z) (date_range : string) :
  gkeeps (yield_ads json_loads json_dumps isoformat storage_ok cfg
            checkpoint_manager ads response_data page_count total_ads
            date_range).
Proof.
  induction ads as [|ad rest IH]; cbn [yield_ads]; [done|].
  keeps_step; [auto with quiet|].
  keeps_step; [repeat keeps_step|].
  keeps_step; [repeat keeps_step|].
  keeps_step; [|exact IH].
  destruct (_ <=? _); [|done].
  keeps_step. keeps_step; [auto with quiet|].
  keeps_step; [apply keeps_cursor_after|].
  destruct (truthy _); [|done].
  keeps_step; [apply keeps_save_cursor|]. by apply keeps_modify.
Qed.

Lemma gkeeps_fetch_pages (fuel : nat) :
  forall params page_count total_ads date_range,
  gkeeps (fetch_pages json_loads json_dumps isoformat storage_ok py_int server
            cfg checkpoint_manager fuel params page_count total_ads date_range).
Proof.
  induction fuel as [|fuel IH]; intros params page_count total_ads date_range;
    cbn [fetch_pages]; [done|].
  keeps_step; [repeat keeps_step|].
  keeps_step.
  { keeps_step. keeps_step; [|done].
    keeps_step; [apply keeps_make_request|done]. }
  destruct a0 as [response_data|]; [|apply IH].
  keeps_step; [repeat keeps_step|].
  keeps_step; [repeat keeps_step|].
  keeps_step; [repeat keeps_step|].
  keeps_step; [apply gkeeps_yield_ads|].
  keeps_step; [repeat keeps_step|].
  keeps_step; [repeat keeps_step|].
  destruct (negb _); [done|].
  keeps_step; [keeps_step; apply keeps_cursor_after|].
  destruct (truthy _); [apply IH|done].
Qed.

Lemma fetch_ads_quiet (fuel : nat) (start_date end_date country_code : string) :
  gkeeps (fetch_ads json_loads json_dumps isoformat storage_ok py_int server
            cfg checkpoint_manager fuel start_date end_date country_code).
Proof.
  unfold fetch_ads.
  keeps_step; [repeat keeps_step|].
  keeps_step; [apply gkeeps_fetch_pages|].
  keeps_step. apply keeps_update_progress.
Qed.

End Props.
End FetchQuiet.

(** ** Concrete runs of the pipeline *)

Module PipelineRuns.
Import Scenario.

(** [transform_ad] with the extractors of the collector. *)
Definition transform_full : value -> result dict :=
  Validation.transform_ad PyBuiltins.str PyBuiltins.float
    Extractors._extract_ad_content Extractors._extract_funding_entity
    Extractors._build_targeting_data
    (Extractors._parse_audience_size PyBuiltins.int)
    "2024-01-15T12:00:00Z" "v21.0".

Definition record_of (raw : value) : dict :=
  match transform_full raw with
  | Return rec => rec
  | Raise _ => []
  end.

(** An ad with two bodies, one of them blank, and a title. *)
Definition creative_ad : dict :=
  [ ("id", VStr "12345");
    ("ad_creative_bodies", VList [VStr "Vote on Sunday"; VStr "  "]);
    ("ad_creative_link_titles", VList [VStr "Election 2024"]) ].

Lemma extract_ad_content_witness :
  Extractors._extract_ad_content creative_ad
  = Return (VStr (String.concat nl ["Vote on Sunday"; "Election 2024"])).
Proof.
  exact (ExtractorFacts.extract_ad_content_joins_the_texts creative_ad
           ["Vote on Sunday"; "  "] ["Election 2024"] [] []
           eq_refl eq_refl eq_refl eq_refl).
Defined.

(** An audience with a lower bound only, and one whose lower bound is the
    float infinity (what the JSON number [1e999] is read as). *)
Lemma audience_without_upper_bound_witness :
  Extractors._parse_audience_size PyBuiltins.int
    (VDict [("lower_bound", VStr "1000")])
  = Return (VDict [("min", VInt 1000); ("max", VInt 0)])
  /\ Extractors._parse_audience_size PyBuiltins.int
       (VDict [("lower_bound", VFloat (Infinity false))])
     = Raise OverflowError.
Proof.
  split.
  - apply (proj2 (proj2 (ExtractorFacts.audience_without_upper_bound_has_max_zero
                           PyBuiltins.int (VDict [("lower_bound", VStr "1000")])))
             [("lower_bound", VStr "1000")] 1000 eq_refl).
    + reflexivity.
    + reflexivity.
    + discriminate.
  - apply (proj1 (proj2 (ExtractorFacts.audience_without_upper_bound_has_max_zero
                           PyBuiltins.int
                           (VDict [("lower_bound", VFloat (Infinity false))])))).
    exists [("lower_bound", VFloat (Infinity false))].
    split; [reflexivity|]. split; [discriminate|]. left. reflexivity.
Defined.

Definition bylined_ad : dict :=
  [ ("id", VStr "12345");
    ("bylines", VStr "PAID FOR BY  Komitet Wyborczy ") ].

Lemma funding_entity_witness :
  Extractors._extract_funding_entity bylined_ad
  = Return (VStr "Komitet Wyborczy").
Proof.
  apply (ExtractorFacts.funding_entity_of_paid_for_by bylined_ad
           "PAID FOR BY " " Komitet Wyborczy ").
  - reflexivity.
  - right. left. reflexivity.
  - discriminate.
Defined.

(** A raw ad without a page name, with a spend that is not a number and an
    audience that is a string: it is transformed, and declared invalid. *)
Definition odd_ad : dict :=
  [ ("id", VStr "12345");
    ("spend", VDict [("lower_bound", VStr "a lot")]);
    ("estimated_audience_size", VStr "large");
    ("ad_delivery_start_time", VInt 20240101) ].

Lemma validation_of_a_transformed_record_witness :
  validate_record (record_of (VDict odd_ad)) = Return (true, None)
  \/ exists reason,
       validate_record (record_of (VDict odd_ad)) = Return (false, Some reason).
Proof.
  apply (PipelineFacts.validation_of_a_transformed_record_returns
           PyBuiltins.str PyBuiltins.float PyBuiltins.fromisoformat
           Extractors._extract_ad_content Extractors._extract_funding_entity
           Extractors._build_targeting_data
           (Extractors._parse_audience_size PyBuiltins.int)
           "2024-01-15T12:00:00Z" "v21.0" (VDict odd_ad)).
  vm_compute. reflexivity.
Defined.

(** An ad as the Ad Library returns it. *)
Definition full_ad : dict :=
  [ ("id", VStr "12345");
    ("page_id", VStr "67890");
    ("page_name", VStr "Test Page");
    ("bylines", VStr "Paid for by Komitet Wyborczy");
    ("ad_creation_time", VStr "2024-01-01T00:00:00Z");
    ("ad_delivery_start_time", VStr "2024-01-02");
    ("spend", VDict [("lower_bound", VStr "100"); ("upper_bound", VStr "499")]);
    ("impressions", VDict [("lower_bound", VStr "1000");
                           ("upper_bound", VStr "4999")]);
    ("currency", VStr "PLN");
    ("estimated_audience_size", VDict [("lower_bound", VInt 1000)]);
    ("ad_creative_bodies", VList [VStr "Vote on Sunday"]);
    ("target_ages", VList [VStr "18"; VStr "65+"]) ].

Lemma well_formed_ad_witness :
  validate_record (record_of (VDict full_ad)) = Return (true, None).
Proof.
  apply (PipelineFacts.well_formed_ad_is_accepted
           PyBuiltins.str PyBuiltins.float PyBuiltins.fromisoformat
           Extractors._extract_ad_content Extractors._extract_funding_entity
           Extractors._build_targeting_data
           (Extractors._parse_audience_size PyBuiltins.int)
           "2024-01-15T12:00:00Z" "v21.0" full_ad (record_of (VDict full_ad))
           "12345" "Test Page").
  - vm_compute. reflexivity.
  - reflexivity.
  - reflexivity.
  - reflexivity.
  - reflexivity.
  - reflexivity.
  - right. exists "2024-01-02". split; [reflexivity|]. vm_compute. reflexivity.
  - left. reflexivity.
  - right. exists "2024-01-01T00:00:00Z". split; [reflexivity|].
    vm_compute. reflexivity.
  - intros lo hi H. vm_compute in H. injection H as <- <-. reflexivity.
Defined.

(** The server that rejects the token: the fetch request fails with
    [APIError] after a single GET, without a sleep. *)
Lemma api_error_witness :
  exists w',
    MetaAdCollector._make_request PyBuiltins.int rejecting fetch_params
      (world0 ∅) = (Raise APIError, w')
    /\ MetaAdCollector.requests w' = [fetch_params]
    /\ MetaAdCollector._request_count w' = 1
    /\ MetaAdCollector.clock w' = Time.mk noon [].
Proof.
  destruct (RequestFacts.api_error_is_not_retried PyBuiltins.int rejecting
              fetch_params (world0 ∅)) as (w' & H1 & H2 & H3 & H4 & _).
  - reflexivity.
  - exists w'. split_and!; assumption.
Defined.

(** A server that times out twice and then answers. *)
Definition flaky (n : nat) (p : dict) : MetaAdCollector.http_outcome :=
  if (n <? 2)%nat then MetaAdCollector.Timeout else one_page n p.

Lemma transport_failures_witness :
  exists data w',
    MetaAdCollector._make_request PyBuiltins.int flaky fetch_params (world0 ∅)
    = (Return data, w')
    /\ MetaAdCollector.requests w' = [fetch_params; fetch_params; fetch_params]
    /\ Time.sleeps (MetaAdCollector.clock w') = [4; 4]%Q.
Proof.
  destruct (proj1 (RequestFacts.transport_failures_are_retried PyBuiltins.int
                     flaky fetch_params (world0 ∅))
              2%nat
              (VDict
                 [ ("data", VList [VDict [("id", VStr "1"); ("page_name", VStr "P")]]);
                   ("paging", VDict [("cursors", VDict [("after", VStr "c1")])]) ])
              None)
    as (w' & H1 & H2 & _ & H4 & _).
  - lia.
  - intros i Hi. destruct i as [|[|i]]; [reflexivity|reflexivity|lia].
  - reflexivity.
  - eexists. exists w'. split_and!; [exact H1|exact H2|exact H4].
Defined.

(** The collector with the default checkpoint interval of 1000 records. *)
Definition config_1000 : MetaAdCollector.config :=
  MetaAdCollector.mkConfig "test_token" "id,page_name,spend" 100
                           "POLITICAL_AND_ISSUE_ADS" 1000.

Definition ad (id : string) : value :=
  VDict [("id", VStr id); ("page_name", VStr "P")].

Definition page (ads : list value) (next : option string) : value :=
  VDict [ ("data", VList ads);
          ("paging",
           VDict match next with
                 | Some c => [ ("cursors", VDict [("after", VStr c)]);
                               ("next", VStr "https://graph.facebook.com/next") ]
                 | None => [ ("cursors", VDict [("after", VStr "end")]) ]
                 end) ].

(** A server with three pages: two ads, one ad, and a last page of one. *)
Definition paged (n : nat) (_ : dict) : MetaAdCollector.http_outcome :=
  match n with
  | 0%nat => MetaAdCollector.Response 200 (Some (page [ad "1"; ad "2"] (Some "c1"))) None
  | 1%nat => MetaAdCollector.Response 200 (Some (page [ad "3"] (Some "c2"))) None
  | _ => MetaAdCollector.Response 200 (Some (page [ad "4"] None)) None
  end.

Definition fetch_paged : G MetaAdCollector.world unit :=
  MetaAdCollector.fetch_ads PyJson.loads PyJson.dumps PyBuiltins.isoformat
    always PyBuiltins.int paged config_1000 manager 1000
    "2024-01-01" "2024-01-31" "PL".

Definition fetch_params_1000 : dict :=
  FetchFacts.first_params config_1000 "2024-01-01" "2024-01-31" "PL" VNone.

Lemma fetch_ads_yields_every_page_witness :
  exists r w',
    exhaust (fetch_paged (world0 ∅)) = ([ad "1"; ad "2"; ad "3"; ad "4"], r, w')
    /\ MetaAdCollector.requests w'
       = [ fetch_params_1000;
           dict_set "after" (VStr "c1") fetch_params_1000;
           dict_set "after" (VStr "c2")
             (dict_set "after" (VStr "c1") fetch_params_1000) ].
Proof.
  destruct (FetchFacts.fetch_ads_yields_every_page PyJson.loads PyJson.dumps
              PyBuiltins.isoformat always PyBuiltins.int paged config_1000
              manager [([ad "1"; ad "2"], "c1"); ([ad "3"], "c2")] [ad "4"]
              1000 "2024-01-01" "2024-01-31" "PL" VNone (world0 ∅))
    as (r & w' & H1 & H2 & _).
  - simpl. lia.
  - repeat split; unfold Qle, Qlt; simpl; lia.
  - vm_compute. reflexivity.
  - simpl. split_and!; intros p; eexists; eexists;
      (split; [reflexivity|]); eexists; eexists;
      (split_and!; try reflexivity; try discriminate);
      eexists; split; reflexivity.
  - simpl. lia.
  - exists r, w'. split; [exact H1|exact H2].
Defined.

End PipelineRuns.

(** ** Concrete runs of [run] *)

Module RunRuns.
Import Scenario BaseAdCollector.

Definition stats_of (r : result stats) : stats :=
  match r with
  | Return st => st
  | Raise _ => stats0
  end.


Definition run_with (fetch : string -> string -> string -> G MetaAdCollector.world unit)
    (dry_run : bool) : M MetaAdCollector.world stats :=
  BaseAdCollector.run MetaAdCollector.world MetaAdCollector.output
    MetaAdCollector.with_output PyJson.dumps no_gzip always
    fetch transform_ad validate_record
    "2024-01-01" "2024-01-31" "PL" dry_run "2024-01-15T12:05:00Z".

(** The run of the tests against the server with one page of one ad. *)
Lemma run_statistics_witness :
  let st := stats_of (fst (run_with (fetch_ads one_page) false (world0 ∅))) in
  records_fetched st = 1 /\ records_valid st + records_invalid st = 1
  /\ exists m, manifest st = Some m.
Proof.
  intros st.
  destruct (RunFacts.run_statistics_add_up MetaAdCollector.world
              MetaAdCollector.output MetaAdCollector.with_output PyJson.dumps
              no_gzip always (fetch_ads one_page) transform_ad validate_record
              "2024-01-01" "2024-01-31" "PL" false "2024-01-15T12:05:00Z"
              (world0 ∅)
              (snd (run_with (fetch_ads one_page) false (world0 ∅))) st)
    as (H1 & _ & _ & _ & _ & _ & H7).
  - vm_compute. reflexivity.
  - split_and!; [reflexivity| |exact H7].
    rewrite <- (H1 eq_refl). reflexivity.
Defined.


(** The run of the tests, dry and not: the dry run leaves the writer as it
    was; the other one writes the one valid record and says so in its
    manifest. *)
Lemma run_writes_exactly_the_valid_records_witness :
  MetaAdCollector.output
    (snd (run_with (fetch_ads one_page) true (world0 ∅)))
  = OutputWriter.mkWorld writer ∅
  /\ exists m,
       manifest (stats_of (fst (run_with (fetch_ads one_page) false (world0 ∅))))
       = Some m
       /\ dict_lookup "total_records" m = Some (VInt 1).
Proof.
  split.
  - apply (proj1 (RunFacts.run_writes_exactly_the_valid_records
                    MetaAdCollector.world MetaAdCollector.output
                    MetaAdCollector.with_output PyJson.dumps no_gzip always
                    (fetch_ads one_page) transform_ad validate_record
                    (fun x w => eq_refl)
                    (FetchQuiet.fetch_ads_quiet PyJson.loads PyJson.dumps
                       PyBuiltins.isoformat always PyBuiltins.int one_page
                       config manager 1000)
                    "2024-01-01" "2024-01-31" "PL" true "2024-01-15T12:05:00Z"
                    (world0 ∅)) eq_refl).
  - destruct (proj2 (RunFacts.run_writes_exactly_the_valid_records
                       MetaAdCollector.world MetaAdCollector.output
                       MetaAdCollector.with_output PyJson.dumps no_gzip always
                       (fetch_ads one_page) transform_ad validate_record
                       (fun x w => eq_refl)
                       (FetchQuiet.fetch_ads_quiet PyJson.loads PyJson.dumps
                          PyBuiltins.isoformat always PyBuiltins.int one_page
                          config manager 1000)
                       "2024-01-01" "2024-01-31" "PL" false
                       "2024-01-15T12:05:00Z" (world0 ∅)) eq_refl
                (stats_of (fst (run_with (fetch_ads one_page) false (world0 ∅))))
                (snd (run_with (fetch_ads one_page) false (world0 ∅))))
      as (m & H1 & H2 & _).
    + vm_compute. reflexivity.
    + exists m. split; [exact H1|]. rewrite H2. reflexivity.
Defined.

End RunRuns.
